(** * Data-discovery engine: scoring, intent classification and AI fallback

    A shallow embedding of the discovery core of the catalogue browser:
    - [AIDataDiscoveryService] (searchData and its four scorers),
    - [GeminiAIService] (the generative provider, with its failure handling),
    - [MockAIService] (the local deterministic provider),
    - [RAGSearchService] (plain relevance search and the provider fallback).

    Conventions of the embedding.
    - A JavaScript string is a [string]: a sequence of 8-bit code units.  The
      catalogue and the queries are ASCII texts; [toLowerCase] maps A-Z to a-z
      and leaves every other unit alone, white space is the ASCII white space
      (codes 9 to 13 and 32), a word character is a letter, a digit or an
      underscore.
    - A case-insensitive regular expression that is an alternation of literal
      words is a disjunction of [includes] tests on the lower-cased subject.
    - [Array.prototype.sort] is the stable sort that ECMAScript 2019 requires;
      [sortBy] is a stable insertion sort driven by the sign of the comparator.
    - The integer scores of searchData are in [Z].  The scores of the plain
      search are in [Q]: every raw score is a multiple of 1/2, the division by
      10 is the only inexact floating-point step and rounding is monotone, so
      the comparisons of the code agree with the comparisons on rationals.
    - An awaited call that may reject is a function into [option] (or into a
      sum carrying the thrown value); console output and artificial delays
      are not part of the state. *)

From Stdlib Require Import List String Ascii Bool Arith ZArith QArith Qminmax Lia Lqa.
From Stdlib Require Import Permutation Sorted DecimalString OrderedTypeEx.
Import ListNotations.

Open Scope string_scope.

(** ** JavaScript strings *)

Module Js.

Definition code (c : ascii) : nat := nat_of_ascii c.

Definition is_upper (c : ascii) : bool :=
  (65 <=? code c)%nat && (code c <=? 90)%nat.

Definition is_lower (c : ascii) : bool :=
  (97 <=? code c)%nat && (code c <=? 122)%nat.

Definition is_digit (c : ascii) : bool :=
  (48 <=? code c)%nat && (code c <=? 57)%nat.

(** The class \s. *)
Definition is_space (c : ascii) : bool :=
  ((9 <=? code c)%nat && (code c <=? 13)%nat) || (code c =? 32)%nat.

(** The class \w. *)
Definition is_word (c : ascii) : bool :=
  is_upper c || is_lower c || is_digit c || (code c =? 95)%nat.

Definition lower_char (c : ascii) : ascii :=
  if is_upper c then ascii_of_nat (code c + 32) else c.

Fixpoint map_chars (f : ascii -> ascii) (s : string) : string :=
  match s with
  | EmptyString => EmptyString
  | String c s' => String (f c) (map_chars f s')
  end.

Fixpoint filter_chars (p : ascii -> bool) (s : string) : string :=
  match s with
  | EmptyString => EmptyString
  | String c s' => if p c then String c (filter_chars p s') else filter_chars p s'
  end.

(** [s.toLowerCase()] *)
Definition toLowerCase (s : string) : string := map_chars lower_char s.

(** [s.startsWith(p)] *)
Fixpoint startsWith (s p : string) : bool :=
  match p, s with
  | EmptyString, _ => true
  | String _ _, EmptyString => false
  | String a p', String b s' => Ascii.eqb a b && startsWith s' p'
  end.

(** [s.includes(sub)] *)
Fixpoint includes (s sub : string) : bool :=
  startsWith s sub ||
  match s with
  | EmptyString => false
  | String _ s' => includes s' sub
  end.

Fixpoint trimStart (s : string) : string :=
  match s with
  | EmptyString => EmptyString
  | String c s' => if is_space c then trimStart s' else s
  end.

(** Drops the white space at the end: a unit is kept when it is no white
    space or when something is kept after it. *)
Fixpoint trimEnd (s : string) : string :=
  match s with
  | EmptyString => EmptyString
  | String c s' =>
      match trimEnd s' with
      | EmptyString => if is_space c then EmptyString else String c EmptyString
      | t => String c t
      end
  end.

(** [s.trim()] *)
Definition trim (s : string) : string := trimEnd (trimStart s).

(** [s.split(sep)] for a separator of one unit: every occurrence cuts. *)
Fixpoint split_on (sep : ascii) (cur s : string) : list string :=
  match s with
  | EmptyString => [cur]
  | String c s' =>
      if Ascii.eqb c sep then cur :: split_on sep EmptyString s'
      else split_on sep (cur ++ String c EmptyString) s'
  end.

Definition split_char (sep : ascii) (s : string) : list string :=
  split_on sep EmptyString s.

(** [s.split(/\s+/)]: a maximal run of white space cuts once; a run at the
    start or at the end leaves an empty piece there. *)
Fixpoint split_ws_from (in_run : bool) (cur s : string) : list string :=
  match s with
  | EmptyString => [cur]
  | String c s' =>
      if is_space c then
        if in_run then split_ws_from true cur s'
        else cur :: split_ws_from true EmptyString s'
      else split_ws_from false (cur ++ String c EmptyString) s'
  end.

Definition split_ws (s : string) : list string :=
  split_ws_from false EmptyString s.

(** [xs.join(sep)] *)
Fixpoint join (sep : string) (xs : list string) : string :=
  match xs with
  | [] => EmptyString
  | [x] => x
  | x :: rest => x ++ sep ++ join sep rest
  end.

(** [xs.includes(x)] on an array of strings. *)
Definition mem (x : string) (xs : list string) : bool :=
  existsb (String.eqb x) xs.

(** Number to string, as a template literal prints a length. *)
Definition of_nat (n : nat) : string :=
  NilEmpty.string_of_uint (Nat.to_uint n).

(** [xs.slice(0, e)] for an integer [e]: a negative end counts from the
    end of the array. *)
Definition slice0 {A : Type} (e : Z) (xs : list A) : list A :=
  if (e <? 0)%Z then firstn (Z.to_nat (Z.of_nat (List.length xs) + e)) xs
  else firstn (Z.to_nat e) xs.

(** [[...new Set(xs)]]: the first occurrence of each string, in order. *)
Fixpoint unique_from (seen xs : list string) : list string :=
  match xs with
  | [] => []
  | x :: rest =>
      if mem x seen then unique_from seen rest
      else x :: unique_from (x :: seen) rest
  end.

Definition unique (xs : list string) : list string := unique_from [] xs.

(** The quotation mark of the template literals. *)
Definition dq : string := String (ascii_of_nat 34) EmptyString.

(** [xs.sort(cmp)]: [after x y] says that the comparator is positive at
    [(x, y)], that is, [x] belongs after [y].  An element is put in front of
    the first element it does not belong after, so equal elements keep their
    order. *)
Section Sort.
Context {A : Type} (after : A -> A -> bool).

Fixpoint insertBy (x : A) (l : list A) : list A :=
  match l with
  | [] => [x]
  | y :: l' => if after x y then y :: insertBy x l' else x :: l
  end.

Definition sortBy (l : list A) : list A := fold_right insertBy [] l.
End Sort.

End Js.

(** ** The discovery service (searchData) *)

Module AIDataDiscoveryService.

Import Js.

Inductive ResultType := TApplication | TDataSource | TTable | TColumn.

Inductive MatchType := Exact | Semantic | Related.

Record AISearchResult := {
  r_type : ResultType;
  r_id : string;
  r_name : string;
  relevanceScore : Z;
  r_reason : string;
  r_path : string;
  r_sensitive : bool;
  r_matchType : MatchType
}.

Record AISearchResponse := {
  sr_query : string;
  sr_intent : string;
  suggestions : list AISearchResult;
  alternativeQueries : list string;
  warnings : list string
}.

(** The catalogue records, with the fields the service reads. *)
Record Application := {
  app_id : string;
  app_name : string;
  app_description : string;
  app_tags : list string
}.

Record DataSource := {
  ds_id : string;
  ds_name : string;
  ds_description : string;
  ds_tags : list string;
  ds_department : string
}.

Record DataColumn := {
  col_name : string;
  col_type : string;
  col_description : option string;
  col_nullable : bool;
  col_primaryKey : option bool;
  col_sensitive : option bool
}.

Record DataTable := {
  tbl_id : string;
  tbl_name : string;
  tbl_description : string;
  tbl_schema : string;
  tbl_columns : list DataColumn;
  tbl_sensitive : bool;
  tbl_tags : list string
}.

(** [x || ''] and the truthiness of an optional flag. *)
Definition or_empty (o : option string) : string :=
  match o with Some s => s | None => EmptyString end.

Definition truthy (o : option bool) : bool :=
  match o with Some b => b | None => false end.

(** [/(a|b|c)/i.test(s)] for literal alternatives. *)
Definition test_ci (alts : list string) (s : string) : bool :=
  existsb (includes (toLowerCase s)) alts.

(** [/^(a|b|c)$/i.test(s)] for literal alternatives. *)
Definition test_whole_ci (alts : list string) (s : string) : bool :=
  mem (toLowerCase s) alts.

Definition intentPatterns : list (list string * string) :=
  [ (["credit card"; "payment"; "billing"; "card number"], "Find payment/credit card data");
    (["customer"; "user"; "client"; "person"], "Find customer information");
    (["order"; "purchase"; "transaction"; "sale"], "Find transaction/order data");
    (["employee"; "staff"; "hr"; "human resource"], "Find employee/HR data");
    (["product"; "inventory"; "catalog"; "item"], "Find product/inventory data");
    (["financial"; "finance"; "revenue"; "profit"], "Find financial data");
    (["marketing"; "campaign"; "advertisement"], "Find marketing data");
    (["sensitive"; "pii"; "personal"; "private"], "Find sensitive/personal data") ].

Fixpoint firstIntent (ps : list (list string * string)) (query : string) : string :=
  match ps with
  | [] => "General data search"
  | (alts, intent) :: rest =>
      if test_ci alts query then intent else firstIntent rest query
  end.

Definition detectIntent (query : string) : string :=
  firstIntent intentPatterns query.

Definition stopWords : list string :=
  ["the"; "a"; "an"; "and"; "or"; "but"; "in"; "on"; "at"; "to"; "for"; "of";
   "with"; "by"; "from"; "up"; "about"; "into"; "through"; "during"; "before";
   "after"; "above"; "below"; "between"; "among"; "i"; "want"; "need"; "find";
   "get"; "show"; "me"; "data"; "information"].

(** [s.replace(/[^\w\s]/g, ' ')] *)
Definition blankPunctuation (s : string) : string :=
  map_chars (fun c => if is_word c || is_space c then c else " "%char) s.

Definition keepTerm (term : string) : bool :=
  (2 <? String.length term)%nat && negb (mem term stopWords).

Definition extractKeyTerms (query : string) : list string :=
  filter keepTerm (split_ws (blankPunctuation (toLowerCase query))).

Definition dataTypePatterns : list (list string * string) :=
  [ (["credit card"; "card number"; "payment card"; "cc"], "credit_card");
    (["ssn"; "social security"; "social security number"], "ssn");
    (["email"; "e-mail"; "email address"], "email");
    (["phone"; "telephone"; "mobile"; "cell"], "phone");
    (["address"; "street"; "city"; "zip"; "postal"], "address");
    (["name"; "first name"; "last name"; "full name"], "name");
    (["password"; "pwd"; "passcode"], "password");
    (["salary"; "wage"; "income"; "compensation"], "salary");
    (["dob"; "date of birth"; "birthday"], "date_of_birth") ].

Definition identifyDataTypes (query : string) : list string :=
  fold_left
    (fun types p => if test_ci (fst p) query then (types ++ [snd p])%list else types)
    dataTypePatterns [].

(** The three locals of a scorer: [score], [reason] and [matchType]. *)
Record Tally := {
  score : Z;
  reason : string;
  matchType : MatchType
}.

Definition start : Tally :=
  {| score := 0; reason := EmptyString; matchType := Related |}.

(** [score += pts; reason += why] *)
Definition add (pts : Z) (why : string) (t : Tally) : Tally :=
  {| score := score t + pts; reason := reason t ++ why; matchType := matchType t |}.

(** [matchType = m] *)
Definition tag (m : MatchType) (t : Tally) : Tally :=
  {| score := score t; reason := reason t; matchType := m |}.

(** The loop over the key terms that the four scorers share. *)
Definition matchTerms (text : string) (pts : Z) (place : string)
    (keyTerms : list string) (t : Tally) : Tally :=
  fold_left
    (fun t term =>
       if includes text term
       then tag Semantic (add pts ("Matches " ++ dq ++ term ++ dq ++ place) t)
       else t)
    keyTerms t.

Definition scoreApplication (app : Application) (keyTerms dataTypes : list string) : Tally :=
  let appText :=
    toLowerCase (app_name app ++ " " ++ app_description app ++ " " ++ join " " (app_tags app)) in
  let t := matchTerms appText 30 " in application details. " keyTerms start in
  if mem "credit_card" dataTypes then
    let t :=
      if includes appText "payment" || includes appText "billing" || includes appText "financial"
      then tag Semantic (add 50 "Likely contains payment/financial data. " t)
      else t in
    if includes (toLowerCase (app_name app)) "portal" || includes (toLowerCase (app_name app)) "crm"
    then add 30 "Customer-facing application may store payment info. " t
    else t
  else t.

Definition applicationRow (app : Application) (t : Tally) : AISearchResult :=
  {| r_type := TApplication;
     r_id := app_id app;
     r_name := app_name app;
     relevanceScore := score t;
     r_reason := trim (reason t);
     r_path := "Application: " ++ app_name app;
     r_sensitive :=
       mem "customer-facing" (app_tags app) || includes (toLowerCase (app_name app)) "financial";
     r_matchType := matchType t |}.

Definition searchApplications (applications : list Application)
    (keyTerms dataTypes : list string) (results : list AISearchResult) : list AISearchResult :=
  fold_left
    (fun results app =>
       let t := scoreApplication app keyTerms dataTypes in
       if (0 <? score t)%Z then (results ++ [applicationRow app t])%list else results)
    applications results.

Definition scoreDataSource (ds : DataSource) (keyTerms dataTypes : list string) : Tally :=
  let dsText :=
    toLowerCase (ds_name ds ++ " " ++ ds_description ds ++ " " ++ join " " (ds_tags ds)
                 ++ " " ++ ds_department ds) in
  let t := matchTerms dsText 25 " in data source. " keyTerms start in
  if mem "credit_card" dataTypes then
    let t :=
      if includes (toLowerCase (ds_name ds)) "customer"
         || includes (toLowerCase (ds_description ds)) "customer"
      then add 40 "Customer database likely contains payment information. " t
      else t in
    if includes (toLowerCase (ds_name ds)) "sales" || includes (toLowerCase (ds_name ds)) "order"
    then add 35 "Sales/order data may include payment details. " t
    else t
  else t.

Definition dataSourceRow (ds : DataSource) (t : Tally) : AISearchResult :=
  {| r_type := TDataSource;
     r_id := ds_id ds;
     r_name := ds_name ds;
     relevanceScore := score t;
     r_reason := trim (reason t);
     r_path := "Data Source: " ++ ds_name ds;
     r_sensitive := mem "pii" (ds_tags ds) || mem "customer" (ds_tags ds);
     r_matchType := matchType t |}.

Definition searchDataSources (dataSources : list DataSource)
    (keyTerms dataTypes : list string) (results : list AISearchResult) : list AISearchResult :=
  fold_left
    (fun results ds =>
       let t := scoreDataSource ds keyTerms dataTypes in
       if (0 <? score t)%Z then (results ++ [dataSourceRow ds t])%list else results)
    dataSources results.

Definition scoreTable (table : DataTable) (keyTerms dataTypes : list string) : Tally :=
  let tableText :=
    toLowerCase (tbl_name table ++ " " ++ tbl_description table ++ " "
                 ++ join " " (tbl_tags table)) in
  let t := matchTerms tableText 20 " in table. " keyTerms start in
  if mem "credit_card" dataTypes then
    let t :=
      if String.eqb (tbl_name table) "customers" || String.eqb (tbl_name table) "orders"
      then tag Semantic (add 45 "Table commonly contains payment information. " t)
      else t in
    let hasPaymentColumns :=
      existsb (fun col => test_ci ["payment"; "card"; "billing"; "cc"] (col_name col))
              (tbl_columns table) in
    if hasPaymentColumns
    then tag Exact (add 60 "Contains payment-related columns. " t)
    else t
  else t.

Definition tableRow (table : DataTable) (t : Tally) : AISearchResult :=
  {| r_type := TTable;
     r_id := tbl_id table;
     r_name := tbl_name table;
     relevanceScore := score t;
     r_reason := trim (reason t);
     r_path := "Table: " ++ tbl_schema table ++ "." ++ tbl_name table;
     r_sensitive := tbl_sensitive table;
     r_matchType := matchType t |}.

Definition searchTables (tables : list DataTable)
    (keyTerms dataTypes : list string) (results : list AISearchResult) : list AISearchResult :=
  fold_left
    (fun results table =>
       let t := scoreTable table keyTerms dataTypes in
       if (0 <? score t)%Z then (results ++ [tableRow table t])%list else results)
    tables results.

Definition scoreColumn (table : DataTable) (column : DataColumn)
    (keyTerms dataTypes : list string) : Tally :=
  let columnText :=
    toLowerCase (col_name column ++ " " ++ or_empty (col_description column) ++ " "
                 ++ col_type column) in
  let t := matchTerms columnText 15 " in column. " keyTerms start in
  if mem "credit_card" dataTypes then
    if test_whole_ci ["card_number"; "credit_card"; "cc_number"; "payment_card"] (col_name column)
    then tag Exact (add 100 "Direct match for credit card number field. " t)
    else if test_ci ["card"; "payment"; "billing"] (col_name column)
    then tag Semantic (add 70 "Payment-related column name. " t)
    else if includes (col_type column) "varchar"
            && (includes (col_type column) "16" || includes (col_type column) "19")
            && String.eqb (tbl_name table) "customers"
    then tag Semantic
           (add 40 "VARCHAR field in customer table, possible card number storage. " t)
    else t
  else t.

Definition columnRow (table : DataTable) (column : DataColumn) (t : Tally) : AISearchResult :=
  {| r_type := TColumn;
     r_id := tbl_id table ++ "_" ++ col_name column;
     r_name := col_name column;
     relevanceScore := score t;
     r_reason := trim (reason t);
     r_path := "Column: " ++ tbl_schema table ++ "." ++ tbl_name table ++ "." ++ col_name column;
     r_sensitive := truthy (col_sensitive column) || tbl_sensitive table;
     r_matchType := matchType t |}.

Definition searchColumns (tables : list DataTable)
    (keyTerms dataTypes : list string) (results : list AISearchResult) : list AISearchResult :=
  fold_left
    (fun results table =>
       fold_left
         (fun results column =>
            let t := scoreColumn table column keyTerms dataTypes in
            if (0 <? score t)%Z then (results ++ [columnRow table column t])%list else results)
         (tbl_columns table) results)
    tables results.

Definition generateAlternativeQueries (originalQuery : string) (keyTerms : list string)
    : list string :=
  let alternatives :=
    if includes (toLowerCase originalQuery) "credit card"
    then ["payment information"; "billing data"; "customer payment methods";
          "card number fields"; "financial transaction data"]
    else [] in
  let alternatives :=
    if mem "customer" keyTerms
    then (alternatives ++ ["user profile data"; "client information"; "customer records"])%list
    else alternatives in
  slice0 5 alternatives.

Definition isType (ty : ResultType) (r : AISearchResult) : bool :=
  match ty, r_type r with
  | TApplication, TApplication | TDataSource, TDataSource
  | TTable, TTable | TColumn, TColumn => true
  | _, _ => false
  end.

Definition isExact (r : AISearchResult) : bool :=
  match r_matchType r with Exact => true | _ => false end.

Definition sensitivityWarning (n : nat) : string :=
  "âš ï¸ " ++ of_nat n ++ " results contain sensitive data. Ensure you have proper authorization before accessing.".

Definition noExactWarning : string := "ðŸ’¡ No exact matches found. Results are based on semantic analysis and may require verification.".

Definition pciWarning : string := "ðŸ”’ Credit card data found. This is highly sensitive PII subject to PCI DSS compliance requirements.".

Definition generateWarnings (suggestions : list AISearchResult) : list string :=
  let sensitiveResults := filter r_sensitive suggestions in
  let warnings :=
    if (0 <? List.length sensitiveResults)%nat
    then [sensitivityWarning (List.length sensitiveResults)]
    else [] in
  let exactMatches := filter isExact suggestions in
  let warnings :=
    if (List.length exactMatches =? 0)%nat then (warnings ++ [noExactWarning])%list else warnings in
  let creditCardColumns :=
    filter (fun s => isType TColumn s && test_ci ["card"; "payment"] (r_name s)) suggestions in
  if (0 <? List.length creditCardColumns)%nat then (warnings ++ [pciWarning])%list else warnings.

(** The comparator [(a, b) => b.relevanceScore - a.relevanceScore] is
    positive when [b] scores more than [a]. *)
Definition byScoreDesc (a b : AISearchResult) : bool :=
  (0 <? relevanceScore b - relevanceScore a)%Z.

(** Every scored entity in discovery order: what [results] holds before
    the sort. *)
Definition discover (dataSources : list DataSource) (tables : list DataTable)
    (applications : list Application) (keyTerms dataTypes : list string)
    : list AISearchResult :=
  let results := [] in
  let results := searchApplications applications keyTerms dataTypes results in
  let results := searchDataSources dataSources keyTerms dataTypes results in
  let results := searchTables tables keyTerms dataTypes results in
  searchColumns tables keyTerms dataTypes results.

Definition searchData (query : string) (dataSources : list DataSource)
    (tables : list DataTable) (applications : list Application) : AISearchResponse :=
  let normalizedQuery := toLowerCase query in
  let intent := detectIntent normalizedQuery in
  let keyTerms := extractKeyTerms normalizedQuery in
  let dataTypes := identifyDataTypes normalizedQuery in
  let results := discover dataSources tables applications keyTerms dataTypes in
  let results := sortBy byScoreDesc results in
  let suggestions := slice0 10 results in
  let alternativeQueries := generateAlternativeQueries query keyTerms in
  let warnings := generateWarnings suggestions in
  {| sr_query := query;
     sr_intent := intent;
     suggestions := suggestions;
     alternativeQueries := alternativeQueries;
     warnings := warnings |}.

End AIDataDiscoveryService.

(** ** Records shared by the providers *)

(** Modelled from the spec: the record CSVApp of the loader module
    (csvDataLoader), which is not among the sources.  A row of the
    application catalogue carries an id, a name, a category and a free-text
    description; the field names are the ones the services read. *)
Record CSVApp := {
  app_id : string;
  app_name : string;
  category : string;
  description : string
}.

Record GeminiAIResponse := {
  answer : string;
  relevantApps : list string;
  suggestedQueries : list string;
  confidence : Q
}.

Inductive SearchType := Specific | Category | Feature | General.

Record Intent := {
  intent : string;
  i_category : option string;
  keywords : list string;
  searchType : SearchType
}.

(** The four awaited methods the search service calls on a provider; [None]
    is a rejected promise. *)
Record AIProvider := {
  p_analyzeIntent : string -> option Intent;
  p_generateResponse : string -> list CSVApp -> list CSVApp -> option GeminiAIResponse;
  p_generateWelcomeResponse : list CSVApp -> option GeminiAIResponse;
  p_generateSuggestions : string -> list CSVApp -> option (list string)
}.

(** [query.toLowerCase().split(' ').filter(word => word.length > 2)] *)
Definition longWords (query : string) : list string :=
  filter (fun word => (2 <? String.length word)%nat)
         (Js.split_char " "%char (Js.toLowerCase query)).

(** ** The generative provider *)

Module GeminiAIService.

Import Js.

(** What a failed call throws: an [Error] with its message, or another value. *)
Inductive Thrown := ErrorObject (message : string) | OtherValue.

(** The awaited chain generateContent, response, text(). *)
Inductive Outcome := Returned (text : string) | Threw (error : Thrown).

(** [error instanceof Error ? error.message : 'Unknown error occurred'] *)
Definition thrownMessage (error : Thrown) : string :=
  match error with
  | ErrorObject message => message
  | OtherValue => "Unknown error occurred"
  end.

Definition standardSuggestions : list string :=
  ["Show me finance applications";
   "What productivity tools are available?";
   "Find security-related apps"].

Definition networkAnswer : string :=
  "⚠️ Network Error: The Gemini API cannot be accessed directly from the browser due to CORS restrictions. However, I can still help you search through the applications using our local search capabilities.".

Definition apiKeyAnswer : string :=
  "🔑 API Key Error: There seems to be an issue with the Gemini API key configuration. Please check the API key and try again.".

Definition serviceErrorAnswer (error : Thrown) : string :=
  "❌ AI Service Error: " ++ thrownMessage error ++ ". Using fallback search results instead.".

Definition ids (n : Z) (apps : list CSVApp) : list string :=
  map app_id (slice0 n apps).

Definition buildContext (allApps relevantApps : list CSVApp) : string :=
  let categories := unique (map category allApps) in
  let totalApps := List.length allApps in
  let context :=
    "Enterprise Application Catalog Context:
- Total applications: " ++ of_nat totalApps ++ "
- Categories: " ++ join ", " categories ++ "

Most Relevant Applications Found:
" in
  let shown := slice0 8 relevantApps in
  let context :=
    fold_left
      (fun context '(index, app) =>
         context ++ of_nat (index + 1) ++ ". " ++ app_name app ++ " (" ++ category app ++ ")
   Description: " ++ description app ++ "
   
")
      (combine (seq 0 (List.length shown)) shown) context in
  if (8 <? List.length relevantApps)%nat
  then context ++ "... and " ++ of_nat (List.length relevantApps - 8) ++ " more applications
"
  else context.

Definition buildPrompt (query context : string) : string :=
  "You are an intelligent enterprise data discovery assistant helping users find applications from our corporate catalog.

" ++ context ++ "

User Query: " ++ dq ++ query ++ dq ++ "

Please provide a helpful, conversational response that:
1. Directly addresses the user's question
2. Highlights the most relevant applications found
3. Explains why these applications are good matches
4. Suggests related searches if appropriate
5. Uses a professional but friendly tone

Keep your response concise (2-3 paragraphs maximum) and focus on being actionable and informative.

Response:".

Definition generateSuggestedQueries (response : string) (relevantApps : list CSVApp)
    : list string :=
  let categories := unique (map category relevantApps) in
  let suggestions :=
    fold_left
      (fun suggestions category =>
         if negb (String.eqb category EmptyString) && (List.length suggestions <? 3)%nat
         then (suggestions
                 ++ [("Show me more " ++ toLowerCase category ++ " applications")%string])%list
         else suggestions)
      categories [] in
  let suggestions :=
    if (List.length suggestions <? 4)%nat
    then (suggestions ++ ["What are the most popular applications?"])%list
    else suggestions in
  let suggestions :=
    if (List.length suggestions <? 4)%nat
    then (suggestions ++ ["Find applications by department"])%list
    else suggestions in
  slice0 4 suggestions.

Definition parseResponse (text : string) (relevantApps : list CSVApp) : GeminiAIResponse :=
  let confidence := 0.8%Q in
  let lowerText := toLowerCase text in
  let confidence :=
    if includes lowerText "might" || includes lowerText "possibly" || includes lowerText "perhaps"
    then 0.6%Q else confidence in
  let confidence :=
    if includes lowerText "not sure" || includes lowerText "unclear"
    then 0.4%Q else confidence in
  let suggestedQueries := generateSuggestedQueries text relevantApps in
  {| answer := trim text;
     relevantApps := ids 5 relevantApps;
     suggestedQueries := suggestedQueries;
     confidence := confidence |}.

Section Service.

(** [this.model.generateContent(prompt)], awaited down to the text. *)
Variable model : string -> Outcome.

(** [text.match(/\{[\s\S]*\}/)] followed by [JSON.parse]: the record
    read from the text, or [None] when nothing matches or the parse throws. *)
Variable parseJson : string -> option Intent.

Definition generateResponse (query : string) (csvData relevantApps : list CSVApp)
    : GeminiAIResponse :=
  let context := buildContext csvData relevantApps in
  let prompt := buildPrompt query context in
  match model prompt with
  | Returned text => parseResponse text relevantApps
  | Threw error =>
      let classified :=
        match error with
        | ErrorObject message =>
            if includes message "CORS" || includes message "fetch" then
              Some {| answer := networkAnswer;
                      relevantApps := ids 3 relevantApps;
                      suggestedQueries := standardSuggestions;
                      confidence := 0.8%Q |}
            else if includes message "API key" then
              Some {| answer := apiKeyAnswer;
                      relevantApps := ids 3 relevantApps;
                      suggestedQueries := standardSuggestions;
                      confidence := 0.1%Q |}
            else None
        | OtherValue => None
        end in
      match classified with
      | Some response => response
      | None =>
          {| answer := serviceErrorAnswer error;
             relevantApps := ids 3 relevantApps;
             suggestedQueries := standardSuggestions;
             confidence := 0.1%Q |}
      end
  end.

Definition suggestionsPrompt (query : string) (csvData : list CSVApp) : string :=
  "
Based on this enterprise application catalog, suggest 4-5 related search queries for: " ++ dq ++ query ++ dq ++ "

Available categories: " ++ join ", " (unique (map category csvData)) ++ "

Application examples:
"
  ++ join (String (ascii_of_nat 10) EmptyString)
       (map (fun app => "- " ++ app_name app ++ " (" ++ category app ++ "): " ++ substring 0 100 (description app) ++ "...")
            (slice0 10 csvData))
  ++ "

Generate practical, specific search queries that would help users discover relevant applications. Return only the queries, one per line, without numbers or bullets.
      ".

Definition keepLine (line : string) : bool :=
  (0 <? String.length line)%nat
  && negb (match line with String c _ => is_digit c | EmptyString => false end).

Definition generateSuggestions (query : string) (csvData : list CSVApp) : list string :=
  match model (suggestionsPrompt query csvData) with
  | Returned text =>
      slice0 5 (filter keepLine (map trim (split_char (ascii_of_nat 10) text)))
  | Threw _ =>
      ["Show me productivity applications";
       "Find finance and banking tools";
       "What entertainment apps are available?";
       "Security and privacy applications"]
  end.

Definition intentPrompt (query : string) : string :=
  "
Analyze this search query for an enterprise application catalog: " ++ dq ++ query ++ dq ++ "

Determine:
1. The user's intent (what they're trying to find)
2. If they're looking for a specific category (Finance, Security, Productivity, etc.)
3. Key search keywords
4. Search type: specific (looking for particular app), category (browsing category), feature (looking for functionality), or general (broad search)

Respond in this JSON format:
{
  " ++ dq ++ "intent" ++ dq ++ ": " ++ dq ++ "brief description of what user wants" ++ dq ++ ",
  " ++ dq ++ "category" ++ dq ++ ": " ++ dq ++ "category name if applicable, null otherwise" ++ dq ++ ", 
  " ++ dq ++ "keywords" ++ dq ++ ": [" ++ dq ++ "key" ++ dq ++ ", " ++ dq ++ "search" ++ dq ++ ", " ++ dq ++ "terms" ++ dq ++ "],
  " ++ dq ++ "searchType" ++ dq ++ ": " ++ dq ++ "specific|category|feature|general" ++ dq ++ "
}
      ".

Definition fallbackIntent (query : string) : Intent :=
  {| intent := "Find relevant applications";
     i_category := None;
     keywords := longWords query;
     searchType := General |}.

Definition analyzeIntent (query : string) : Intent :=
  match model (intentPrompt query) with
  | Returned text =>
      match parseJson text with
      | Some parsed => parsed
      | None => fallbackIntent query
      end
  | Threw _ => fallbackIntent query
  end.

Definition welcomePrompt (totalApps : nat) (categories : list string) : string :=
  "
You are an enterprise data discovery assistant. A user just opened the AI search feature but hasn't asked anything specific yet.

Our catalog contains " ++ of_nat totalApps ++ " applications across these categories: " ++ join ", " categories ++ ".

Generate a brief, welcoming response that:
1. Introduces your capabilities 
2. Suggests a few example queries they could try
3. Highlights what kind of information you can help them find
4. Uses a professional but approachable tone

Keep it conversational and under 2 paragraphs.
    ".

Definition generateWelcomeResponse (csvData : list CSVApp) : GeminiAIResponse :=
  let categories := unique (map category csvData) in
  let totalApps := List.length csvData in
  match model (welcomePrompt totalApps categories) with
  | Returned text =>
      {| answer := trim text;
         relevantApps := [];
         suggestedQueries :=
           ["Show me finance applications";
            "Find productivity tools for teams";
            "What security apps do we have?";
            "Browse entertainment applications"];
         confidence := 1.0%Q |}
  | Threw _ =>
      {| answer :=
           "Hi! I'm your AI assistant for discovering applications in our catalog of " ++ of_nat totalApps ++ " apps. I can help you find specific tools, browse categories like " ++ join ", " (slice0 3 categories) ++ ", or answer questions about our available software. Try asking me something like " ++ dq ++ "Show me finance applications" ++ dq ++ " or " ++ dq ++ "Find productivity tools for teams" ++ dq ++ "!";
         relevantApps := [];
         suggestedQueries :=
           ["Show me finance applications";
            "Find productivity tools";
            "What security apps are available?";
            "Browse by category"];
         confidence := 1.0%Q |}
  end.

(** The service as the search service holds it: no method rejects. *)
Definition provider : AIProvider :=
  {| p_analyzeIntent := fun query => Some (analyzeIntent query);
     p_generateResponse := fun query csvData relevantApps =>
       Some (generateResponse query csvData relevantApps);
     p_generateWelcomeResponse := fun csvData => Some (generateWelcomeResponse csvData);
     p_generateSuggestions := fun query csvData => Some (generateSuggestions query csvData) |}.

End Service.

End GeminiAIService.

(** ** The local provider *)

Module MockAIService.

Import Js.

(** [apps[0]?.app_name] inside a template literal. *)
Definition firstName (apps : list CSVApp) : string :=
  match apps with
  | app :: _ => app_name app
  | [] => "undefined"
  end.

Definition generateFinanceResponse (apps : list CSVApp) : string :=
  let financeApps := filter (fun app => includes (toLowerCase (category app)) "finance") apps in
  match financeApps with
  | first :: _ =>
      "Great! I found " ++ of_nat (List.length apps) ++ " applications that can help with financial needs. " ++ app_name first ++ " looks particularly useful - " ++ description first ++ ". These apps offer various financial features from basic money management to advanced investment tracking."
  | [] =>
      "I found " ++ of_nat (List.length apps) ++ " applications that might help with your financial needs. While not exclusively finance apps, they include useful money-related features that could be valuable for your requirements."
  end.

Definition generateSecurityResponse (apps : list CSVApp) : string :=
  "Security is crucial! I've identified " ++ of_nat (List.length apps) ++ " applications that address security and privacy concerns. These tools focus on protecting your data and maintaining privacy, which is essential in today's digital environment. " ++ firstName apps ++ " is particularly notable for its security features.".

Definition generateProductivityResponse (apps : list CSVApp) : string :=
  "Perfect for boosting productivity! I found " ++ of_nat (List.length apps) ++ " applications designed to enhance your workflow and team collaboration. These tools can help streamline processes, manage tasks, and improve overall efficiency. " ++ firstName apps ++ " stands out as a great option for productivity enhancement.".

Definition generateEntertainmentResponse (apps : list CSVApp) : string :=
  "Looking for some entertainment? I discovered " ++ of_nat (List.length apps) ++ " applications that offer various forms of digital entertainment and media. From music and games to lifestyle content, these apps provide engaging experiences for your leisure time.".

(** Reading [apps[0].app_name] throws on an empty array: [None]. *)
Definition generateGenericResponse (query : string) (apps : list CSVApp) : option string :=
  match apps with
  | [] => None
  | topApp :: _ =>
      let categories := unique (map category (slice0 3 apps)) in
      Some ("Based on your search for " ++ dq ++ query ++ dq ++ ", I found " ++ of_nat (List.length apps) ++ " relevant applications. The top match is " ++ app_name topApp ++ " (" ++ category topApp ++ ") - " ++ description topApp ++ ". The results span across " ++ join ", " categories ++ " categories, giving you diverse options to explore.")
  end.

Definition generateContextualResponse (query : string) (relevantApps : list CSVApp)
    : option string :=
  let lowerQuery := toLowerCase query in
  if (List.length relevantApps =? 0)%nat then
    Some ("I couldn't find any applications that directly match " ++ dq ++ query ++ dq ++ ". Try broadening your search or exploring different categories like Finance, Security, or Productivity.")
  else if includes lowerQuery "finance" || includes lowerQuery "money"
          || includes lowerQuery "payment" then
    Some (generateFinanceResponse relevantApps)
  else if includes lowerQuery "security" || includes lowerQuery "encrypt"
          || includes lowerQuery "safe" then
    Some (generateSecurityResponse relevantApps)
  else if includes lowerQuery "productivity" || includes lowerQuery "work"
          || includes lowerQuery "team" then
    Some (generateProductivityResponse relevantApps)
  else if includes lowerQuery "entertainment" || includes lowerQuery "game"
          || includes lowerQuery "music" then
    Some (generateEntertainmentResponse relevantApps)
  else generateGenericResponse query relevantApps.

Definition analyzeIntent (query : string) : Intent :=
  let lowerQuery := toLowerCase query in
  let keywords :=
    filter (fun word => (2 <? String.length word)%nat) (split_char " "%char lowerQuery) in
  let '(category, searchType) :=
    if includes lowerQuery "finance" || includes lowerQuery "money" then
      (Some "Finance", Category)
    else if includes lowerQuery "security" || includes lowerQuery "privacy" then
      (Some "Security", Category)
    else if includes lowerQuery "productivity" || includes lowerQuery "work" then
      (Some "Productivity", Category)
    else if includes lowerQuery "entertainment" || includes lowerQuery "music"
            || includes lowerQuery "game" then
      (Some "Entertainment", Category)
    else if existsb (fun word => mem word ["find"; "show"; "get"; "need"]) keywords then
      (None, Feature)
    else (None, General) in
  let intent :=
    match category with
    | Some category => "Find applications in the " ++ category ++ " category"
    | None =>
        if includes lowerQuery "best" || includes lowerQuery "top" then
          "Find the best applications"
        else if includes lowerQuery "team" || includes lowerQuery "collaboration" then
          "Find team collaboration tools"
        else "Find relevant applications"
    end in
  {| intent := intent;
     i_category := category;
     keywords := keywords;
     searchType := searchType |}.

Definition generateWelcomeResponse (csvData : list CSVApp) : GeminiAIResponse :=
  let categories := unique (map category csvData) in
  let totalApps := List.length csvData in
  {| answer :=
       "👋 Hello! I'm your AI assistant for discovering applications in our catalog of " ++ of_nat totalApps ++ " enterprise applications. I can help you find specific tools, explore categories like " ++ join ", " (slice0 3 categories) ++ ", and answer questions about our software portfolio. 

What would you like to find today? You can ask me things like " ++ dq ++ "Show me finance applications" ++ dq ++ " or " ++ dq ++ "What productivity tools do we have for teams?" ++ dq;
     relevantApps := [];
     suggestedQueries :=
       ["Show me finance applications";
        "Find productivity tools for teams";
        "What security apps do we have?";
        "Browse entertainment applications"];
     confidence := 1.0%Q |}.

Section Service.

(** [categories.sort(() => 0.5 - Math.random())]: the order the random
    comparator leaves the categories in. *)
Variable shuffle : list string -> list string.

Definition generateSuggestions (query : string) (csvData : list CSVApp) : list string :=
  let categories := unique (map category csvData) in
  let suggestions :=
    if includes query "finance" then
      ["Show me investment tracking apps"; "Find budgeting applications"]
    else if includes query "security" then
      ["What privacy-focused apps do we have?"; "Find encryption tools"]
    else if includes query "productivity" then
      ["Show me team collaboration tools"; "Find project management apps"]
    else
      ["What are our most popular applications?"; "Browse applications by department"] in
  let randomCategories := slice0 2 (shuffle categories) in
  let suggestions :=
    fold_left
      (fun suggestions category =>
         if (List.length suggestions <? 4)%nat
         then (suggestions ++ [("Explore " ++ category ++ " applications")%string])%list
         else suggestions)
      randomCategories suggestions in
  slice0 4 suggestions.

Definition generateResponse (query : string) (csvData relevantApps : list CSVApp)
    : option GeminiAIResponse :=
  let lowerQuery := toLowerCase query in
  match generateContextualResponse query relevantApps with
  | None => None
  | Some response =>
      let suggestedQueries := generateSuggestions lowerQuery csvData in
      Some {| answer := response;
              relevantApps := map app_id (slice0 5 relevantApps);
              suggestedQueries := suggestedQueries;
              confidence := 0.85%Q |}
  end.

Definition generateSuggestionsAsync (query : string) (csvData : list CSVApp) : list string :=
  generateSuggestions (toLowerCase query) csvData.

Definition provider : AIProvider :=
  {| p_analyzeIntent := fun query => Some (analyzeIntent query);
     p_generateResponse := generateResponse;
     p_generateWelcomeResponse := fun csvData => Some (generateWelcomeResponse csvData);
     p_generateSuggestions := fun query csvData => Some (generateSuggestionsAsync query csvData) |}.

End Service.

End MockAIService.

(** ** The search service: plain relevance search and provider fallback *)

Module RAGSearchService.

Import Js.

Local Open Scope Q_scope.

Inductive ResultType := TypeApplication | TypeDatasource.

Record AISearchResult := {
  id : string;
  title : string;
  r_description : string;
  r_category : string;
  relevanceScore : Q;
  type : ResultType
}.

Record EnhancedAISearchResponse := {
  results : list AISearchResult;
  aiResponse : option GeminiAIResponse;
  e_intent : option Intent
}.

(** [a > b] on numbers. *)
Definition Qgtb (a b : Q) : bool := negb (Qle_bool a b).

(** [!query || query.trim().length === 0] *)
Definition isBlank (query : string) : bool :=
  (String.length (trim query) =? 0)%nat.

(** The members of the literal the stop-word [Set] is built from. *)
Definition stopWords : list string :=
  ["the"; "a"; "an"; "and"; "or"; "but"; "in"; "on"; "at"; "to"; "for";
   "of"; "with"; "by"; "from"; "up"; "about"; "into"; "through"; "during";
   "before"; "after"; "above"; "below"; "between"; "among"; "this"; "that";
   "these"; "those"; "i"; "me"; "my"; "myself"; "we"; "our"; "ours"; "ourselves";
   "you"; "your"; "yours"; "yourself"; "yourselves"; "he"; "him"; "his"; "himself";
   "she"; "her"; "hers"; "herself"; "it"; "its"; "itself"; "they"; "them"; "their";
   "theirs"; "themselves"; "what"; "which"; "who"; "whom"; "whose"; "this"; "that";
   "these"; "those"; "am"; "is"; "are"; "was"; "were"; "be"; "been"; "being";
   "have"; "has"; "had"; "having"; "do"; "does"; "did"; "doing"; "will"; "would";
   "could"; "should"; "may"; "might"; "must"; "can"; "find"; "search"; "show"; "get"].

Definition keepTerm (term : string) : bool :=
  (2 <? String.length term)%nat && negb (mem term stopWords).

(** [term.replace(/[^\w]/g, '')] *)
Definition stripPunctuation (term : string) : string := filter_chars is_word term.

Definition extractSearchTerms (query : string) : list string :=
  map stripPunctuation (filter keepTerm (split_ws query)).

Definition popularCategories : list string :=
  ["Finance"; "Security"; "Productivity"; "Social"].

Definition calculateRelevanceScore (app : CSVApp) (searchTerms : list string)
    (fullQuery : string) : Q :=
  let score := 0 in
  let appName := toLowerCase (app_name app) in
  let appDescription := toLowerCase (description app) in
  let appCategory := toLowerCase (category app) in
  let score := if includes appName fullQuery then score + 10 else score in
  let score := if includes appCategory fullQuery then score + 5 else score in
  let score := if includes appDescription fullQuery then score + 3 else score in
  let score :=
    fold_left
      (fun score term =>
         let score := if includes appName term then score + 2 else score in
         let score := if includes appCategory term then score + 1.5 else score in
         if includes appDescription term then score + 1 else score)
      searchTerms score in
  let score := if mem (category app) popularCategories then score + 0.5 else score in
  Qmin (score / 10) 1.

Definition resultOf (app : CSVApp) (relevanceScore : Q) : AISearchResult :=
  {| id := app_id app;
     title := app_name app;
     r_description := description app;
     r_category := category app;
     relevanceScore := relevanceScore;
     type := TypeApplication |}.

(** The comparator [(a, b) => b.relevanceScore - a.relevanceScore]. *)
Definition byScoreDesc (a b : AISearchResult) : bool :=
  Qgtb (relevanceScore b - relevanceScore a) 0.

(** A parameter with a default value. *)
Definition orDefault {A : Type} (d : A) (o : option A) : A :=
  match o with Some x => x | None => d end.

Definition search (csvData : list CSVApp) (query : string) (limit : option Z)
    : list AISearchResult :=
  let limit := orDefault 10%Z limit in
  if isBlank query then []
  else
    let searchTerms := extractSearchTerms (toLowerCase query) in
    let results :=
      fold_left
        (fun results app =>
           let relevanceScore := calculateRelevanceScore app searchTerms (toLowerCase query) in
           if Qgtb relevanceScore 0.1
           then (results ++ [resultOf app relevanceScore])%list
           else results)
        csvData [] in
    slice0 limit (sortBy byScoreDesc results).

Definition getApplicationsByCategory (csvData : list CSVApp) (cat : string)
    : list AISearchResult :=
  map (fun app => resultOf app 1.0)
      (filter (fun app => String.eqb (toLowerCase (category app)) (toLowerCase cat)) csvData).

(** [[...new Set(categories)].sort()]: the default order of strings. *)
Definition getCategories (csvData : list CSVApp) : list string :=
  sortBy (fun a b => String.ltb b a) (unique (map category csvData)).

Record Statistics := {
  totalApplications : nat;
  totalCategories : nat;
  categoryBreakdown : list (string * nat)
}.

Definition getStatistics (csvData : list CSVApp) : Statistics :=
  let categories := getCategories csvData in
  {| totalApplications := List.length csvData;
     totalCategories := List.length categories;
     categoryBreakdown :=
       map (fun cat =>
              (cat, List.length (filter (fun app => String.eqb (category app) cat) csvData)))
           categories |}.

Definition getRecommendations (csvData : list CSVApp) (appId : string) (limit : option Z)
    : list AISearchResult :=
  let limit := orDefault 5%Z limit in
  match find (fun app => String.eqb (app_id app) appId) csvData with
  | None => []
  | Some targetApp =>
      let recommendations :=
        fold_left
          (fun recommendations app =>
             if String.eqb (app_id app) appId then recommendations
             else
               let similarityScore :=
                 if String.eqb (category app) (category targetApp) then 0 + 0.8 else 0 in
               let targetWords := split_ws (toLowerCase (description targetApp)) in
               let appWords := split_ws (toLowerCase (description app)) in
               let commonWords := filter (fun word => mem word appWords) targetWords in
               let similarityScore :=
                 similarityScore
                 + (inject_Z (Z.of_nat (List.length commonWords))
                    / inject_Z (Z.of_nat (List.length targetWords))) * 0.5 in
               if Qgtb similarityScore 0.3
               then (recommendations ++ [resultOf app similarityScore])%list
               else recommendations)
          csvData [] in
      slice0 limit (sortBy byScoreDesc recommendations)
  end.

(** [results.map(result => this.csvData.find(app => app.app_id === result.id)!)
    .filter(Boolean)]: the catalogue rows of the results, those found. *)
Definition relevantAppsOf (csvData : list CSVApp) (results : list AISearchResult)
    : list CSVApp :=
  flat_map
    (fun result =>
       match find (fun app => String.eqb (app_id app) (id result)) csvData with
       | Some app => [app]
       | None => []
       end)
    results.

(** The fields of the service, with two counters that no method reads: how
    many calls went to each provider so far. *)
Record State := {
  csvData : list CSVApp;
  useGemini : bool;
  geminiCalls : nat;
  mockCalls : nat
}.

Definition initial (data : list CSVApp) : State :=
  {| csvData := data; useGemini := true; geminiCalls := 0; mockCalls := 0 |}.

(** [this.useGemini = b] *)
Definition assignUseGemini (b : bool) (st : State) : State :=
  {| csvData := csvData st; useGemini := b;
     geminiCalls := geminiCalls st; mockCalls := mockCalls st |}.

Section Service.

(** The two providers the service holds.  A provider may answer
    differently from one call to the next: it is indexed by the number of
    calls it has received. *)
Variable geminiService : nat -> AIProvider.
Variable mockAIService : nat -> AIProvider.

(** [await this.geminiService.m(...)] *)
Definition askGemini {A : Type} (st : State) (m : AIProvider -> option A)
    : State * option A :=
  ({| csvData := csvData st; useGemini := useGemini st;
      geminiCalls := S (geminiCalls st); mockCalls := mockCalls st |},
   m (geminiService (geminiCalls st))).

(** [await this.mockAIService.m(...)] *)
Definition askMock {A : Type} (st : State) (m : AIProvider -> option A)
    : State * option A :=
  ({| csvData := csvData st; useGemini := useGemini st;
      geminiCalls := geminiCalls st; mockCalls := S (mockCalls st) |},
   m (mockAIService (mockCalls st))).

(** The two calls of the local branch; [None] when one of them throws. *)
Definition answerLocally (st : State) (query : string) (relevantApps : list CSVApp)
    : State * option (Intent * GeminiAIResponse) :=
  let '(st, intent) := askMock st (fun p => p_analyzeIntent p query) in
  match intent with
  | None => (st, None)
  | Some intent =>
      let '(st, aiResponse) :=
        askMock st (fun p => p_generateResponse p query (csvData st) relevantApps) in
      match aiResponse with
      | None => (st, None)
      | Some aiResponse => (st, Some (intent, aiResponse))
      end
  end.

(** The result is [None] when the promise of searchWithAI rejects. *)
Definition searchWithAI (st : State) (query : string) (limit : option Z)
    (useAI : option bool) : State * option EnhancedAISearchResponse :=
  let limit := orDefault 10%Z limit in
  let useAI := orDefault true useAI in
  if isBlank query then
    if useAI then
      let '(st, welcomeResponse) :=
        if useGemini st then
          let '(st, welcomeResponse) :=
            askGemini st (fun p => p_generateWelcomeResponse p (csvData st)) in
          match welcomeResponse with
          | Some welcomeResponse => (st, Some welcomeResponse)
          | None =>
              let st := assignUseGemini false st in
              askMock st (fun p => p_generateWelcomeResponse p (csvData st))
          end
        else askMock st (fun p => p_generateWelcomeResponse p (csvData st)) in
      match welcomeResponse with
      | Some welcomeResponse =>
          (st, Some {| results := []; aiResponse := Some welcomeResponse; e_intent := None |})
      | None => (st, None)
      end
    else (st, Some {| results := []; aiResponse := None; e_intent := None |})
  else
    let results := search (csvData st) query (Some limit) in
    if negb useAI then (st, Some {| results := results; aiResponse := None; e_intent := None |})
    else
      let relevantApps := relevantAppsOf (csvData st) results in
      let '(st, answered) :=
        if useGemini st then
          let '(st, intent) := askGemini st (fun p => p_analyzeIntent p query) in
          match intent with
          | Some intent =>
              let '(st, aiResponse) :=
                askGemini st (fun p => p_generateResponse p query (csvData st) relevantApps) in
              match aiResponse with
              | Some aiResponse => (st, Some (intent, aiResponse))
              | None => answerLocally (assignUseGemini false st) query relevantApps
              end
          | None => answerLocally (assignUseGemini false st) query relevantApps
          end
        else answerLocally st query relevantApps in
      match answered with
      | Some (intent, aiResponse) =>
          (st, Some {| results := results;
                       aiResponse := Some aiResponse;
                       e_intent := Some intent |})
      | None => (st, Some {| results := results; aiResponse := None; e_intent := None |})
      end.

Definition getAISuggestions (st : State) (query : string) : State * list string :=
  let '(st, suggestions) :=
    askGemini st (fun p => p_generateSuggestions p query (csvData st)) in
  match suggestions with
  | Some suggestions => (st, suggestions)
  | None =>
      (st, ["Show me productivity applications";
            "Find finance and banking tools";
            "What security apps are available?";
            "Browse entertainment applications"])
  end.

Definition setUseGemini (st : State) (useGemini : bool) : State :=
  assignUseGemini useGemini st.

Definition isUsingGemini (st : State) : bool := useGemini st.

Definition retryWithGemini (st : State) : State := assignUseGemini true st.

(** The public methods, as calls a client makes. *)
Inductive Call :=
| CallSearchWithAI (query : string) (limit : option Z) (useAI : option bool)
| CallSearch (query : string) (limit : option Z)
| CallGetApplicationsByCategory (cat : string)
| CallGetCategories
| CallGetStatistics
| CallGetAISuggestions (query : string)
| CallGetRecommendations (appId : string) (limit : option Z)
| CallSetUseGemini (useGemini : bool)
| CallIsUsingGemini
| CallRetryWithGemini.

Inductive Reply :=
| Enhanced (response : option EnhancedAISearchResponse)
| Results (results : list AISearchResult)
| Strings (xs : list string)
| Stats (s : Statistics)
| Flag (b : bool)
| Void.

Definition step (st : State) (c : Call) : State * Reply :=
  match c with
  | CallSearchWithAI query limit useAI =>
      let '(st, response) := searchWithAI st query limit useAI in (st, Enhanced response)
  | CallSearch query limit => (st, Results (search (csvData st) query limit))
  | CallGetApplicationsByCategory cat =>
      (st, Results (getApplicationsByCategory (csvData st) cat))
  | CallGetCategories => (st, Strings (getCategories (csvData st)))
  | CallGetStatistics => (st, Stats (getStatistics (csvData st)))
  | CallGetAISuggestions query =>
      let '(st, suggestions) := getAISuggestions st query in (st, Strings suggestions)
  | CallGetRecommendations appId limit =>
      (st, Results (getRecommendations (csvData st) appId limit))
  | CallSetUseGemini useGemini => (setUseGemini st useGemini, Void)
  | CallIsUsingGemini => (st, Flag (isUsingGemini st))
  | CallRetryWithGemini => (retryWithGemini st, Void)
  end.

(** A session: the calls of a client, one after the other. *)
Fixpoint run (st : State) (calls : list Call) : State * list Reply :=
  match calls with
  | [] => (st, [])
  | c :: rest =>
      let '(st, reply) := step st c in
      let '(st, replies) := run st rest in
      (st, reply :: replies)
  end.

End Service.

End RAGSearchService.

(** ** The search bar (SearchBar.tsx): the client of the search service *)

(** The component is modelled by its state variables and its handlers.  A
    handler runs against the values of the render it was created in: a
    [set...] call changes what the next render sees, not the [filters] or
    [isUsingGemini] the running handler reads.  The service object is
    shared and mutated in place; [ragService] holds its current state.  A
    handler is taken as one step: no other handler runs while it awaits. *)
Module SearchBar.

Import Js.

Record SearchFilters := {
  query : string;
  f_type : string;
  department : string;
  tags : list string;
  status : string
}.

Record State := {
  filters : SearchFilters;
  showAdvanced : bool;
  aiResponse : option RAGSearchService.EnhancedAISearchResponse;
  isAIMode : bool;
  isLoadingAI : bool;
  ragService : option RAGSearchService.State;
  isUsingGemini : bool
}.

(** The values of [useState], with the service the effect creates. *)
Definition mounted (service : RAGSearchService.State) : State :=
  {| filters := {| query := ""; f_type := ""; department := ""; tags := []; status := "" |};
     showAdvanced := false;
     aiResponse := None;
     isAIMode := false;
     isLoadingAI := false;
     ragService := Some service;
     isUsingGemini := true |}.

(** The callbacks of the props that a handler calls. *)
Inductive Callback :=
| OnSearch (filters : SearchFilters)
| OnAISearch (response : RAGSearchService.EnhancedAISearchResponse).

(** A string as a condition: true when it is not empty. *)
Definition truthy (s : string) : bool := negb (String.length s =? 0)%nat.

Definition setQuery (st : State) (q : string) : State :=
  {| filters := {| query := q; f_type := f_type (filters st);
                   department := department (filters st); tags := tags (filters st);
                   status := status (filters st) |};
     showAdvanced := showAdvanced st;
     aiResponse := aiResponse st;
     isAIMode := isAIMode st;
     isLoadingAI := isLoadingAI st;
     ragService := ragService st;
     isUsingGemini := isUsingGemini st |}.

Section Component.

Variable geminiService mockAIService : nat -> AIProvider.

(** Whether the optional prop [onAISearch] is given. *)
Variable onAISearch : bool.

(** The regular search of the [else] branch. *)
Definition regularSearch (st : State) : State * list Callback :=
  ({| filters := filters st;
      showAdvanced := showAdvanced st;
      aiResponse := None;
      isAIMode := isAIMode st;
      isLoadingAI := isLoadingAI st;
      ragService := ragService st;
      isUsingGemini := isUsingGemini st |},
   [OnSearch (filters st)]).

Definition handleSearch (st : State) : State * list Callback :=
  if isAIMode st then
    match ragService st with
    | Some service =>
        if truthy (trim (query (filters st))) then
          let '(service, response) :=
            RAGSearchService.searchWithAI geminiService mockAIService service
              (query (filters st)) (Some 10%Z) (Some true) in
          match response with
          | Some response =>
              ({| filters := filters st;
                  showAdvanced := showAdvanced st;
                  aiResponse := Some response;
                  isAIMode := isAIMode st;
                  isLoadingAI := false;
                  ragService := Some service;
                  isUsingGemini := isUsingGemini st |},
               if onAISearch then [OnAISearch response] else [])
          | None =>
              ({| filters := filters st;
                  showAdvanced := showAdvanced st;
                  aiResponse := aiResponse st;
                  isAIMode := isAIMode st;
                  isLoadingAI := false;
                  ragService := Some service;
                  isUsingGemini := isUsingGemini st |},
               [])
          end
        else regularSearch st
    | None => regularSearch st
    end
  else regularSearch st.

Definition toggleAIMode (st : State) : State :=
  {| filters := filters st;
     showAdvanced := showAdvanced st;
     aiResponse := None;
     isAIMode := negb (isAIMode st);
     isLoadingAI := isLoadingAI st;
     ragService := ragService st;
     isUsingGemini := isUsingGemini st |}.

Definition toggleAIService (st : State) : State :=
  let newUseGemini := negb (isUsingGemini st) in
  {| filters := filters st;
     showAdvanced := showAdvanced st;
     aiResponse := aiResponse st;
     isAIMode := isAIMode st;
     isLoadingAI := isLoadingAI st;
     ragService :=
       match ragService st with
       | Some service => Some (RAGSearchService.setUseGemini service newUseGemini)
       | None => None
       end;
     isUsingGemini := newUseGemini |}.

(** The click on a suggested query:
    [setFilters({ ...filters, query: suggestion }); handleSearch();]. *)
Definition clickSuggestion (st : State) (suggestion : string) : State * list Callback :=
  let '(after, callbacks) := handleSearch st in
  ({| filters := {| query := suggestion; f_type := f_type (filters st);
                    department := department (filters st); tags := tags (filters st);
                    status := status (filters st) |};
      showAdvanced := showAdvanced after;
      aiResponse := aiResponse after;
      isAIMode := isAIMode after;
      isLoadingAI := isLoadingAI after;
      ragService := ragService after;
      isUsingGemini := isUsingGemini after |},
   callbacks).

(** What the user does. *)
Inductive Event :=
| Type_ (q : string)
| Search
| ToggleAIMode
| ToggleAIService
| ClickSuggestion (suggestion : string).

Definition handle (st : State) (e : Event) : State * list Callback :=
  match e with
  | Type_ q => (setQuery st q, [])
  | Search => handleSearch st
  | ToggleAIMode => (toggleAIMode st, [])
  | ToggleAIService => (toggleAIService st, [])
  | ClickSuggestion suggestion => clickSuggestion st suggestion
  end.

Fixpoint session (st : State) (events : list Event) : State * list Callback :=
  match events with
  | [] => (st, [])
  | e :: rest =>
      let '(st, callbacks) := handle st e in
      let '(st, more) := session st rest in
      (st, (callbacks ++ more)%list)
  end.

End Component.

End SearchBar.

(** ** The catalogue filter of the application shell (App.tsx) *)

Module App.

Import Js.

(** The fields of a data source that the shell reads. *)
Record DataSource := {
  id : string;
  name : string;
  description : string;
  owner : string;
  tags : list string;
  type : string;
  department : string;
  status : string
}.

(** All the fields but [query] are optional. *)
Record SearchFilters := {
  query : string;
  f_type : option string;
  f_department : option string;
  f_tags : option (list string);
  f_status : option string
}.

(** [!f || value === f] for an optional string [f]: an absent or empty
    filter lets everything through. *)
Definition matchesField (f : option string) (value : string) : bool :=
  match f with
  | None => true
  | Some f => (String.length f =? 0)%nat || String.eqb value f
  end.

Definition matchesQuery (q : string) (ds : DataSource) : bool :=
  (String.length q =? 0)%nat
  || includes (toLowerCase (name ds)) (toLowerCase q)
  || includes (toLowerCase (description ds)) (toLowerCase q)
  || includes (toLowerCase (owner ds)) (toLowerCase q)
  || existsb (fun tag => includes (toLowerCase tag) (toLowerCase q)) (tags ds).

(** [!tags?.length || tags.some(tag => ds.tags.indexOf(tag) !== -1)] *)
Definition matchesTags (f : option (list string)) (ds : DataSource) : bool :=
  match f with
  | None => true
  | Some wanted =>
      (List.length wanted =? 0)%nat || existsb (fun tag => mem tag (tags ds)) wanted
  end.

Definition filteredDataSources (dataSources : list DataSource) (searchFilters : SearchFilters)
    : list DataSource :=
  filter
    (fun ds =>
       let matchesQuery := matchesQuery (query searchFilters) ds in
       let matchesType := matchesField (f_type searchFilters) (type ds) in
       let matchesDepartment := matchesField (f_department searchFilters) (department ds) in
       let matchesStatus := matchesField (f_status searchFilters) (status ds) in
       let matchesTags := matchesTags (f_tags searchFilters) ds in
       matchesQuery && matchesType && matchesDepartment && matchesStatus && matchesTags)
    dataSources.

(** The filters the search bar passes to [onSearch]: every field is set. *)
Definition ofSearchBar (filters : SearchBar.SearchFilters) : SearchFilters :=
  {| query := SearchBar.query filters;
     f_type := Some (SearchBar.f_type filters);
     f_department := Some (SearchBar.department filters);
     f_tags := Some (SearchBar.tags filters);
     f_status := Some (SearchBar.status filters) |}.

(** The filters of [useState]: [{ query: '' }]. *)
Definition noFilters : SearchFilters :=
  {| query := ""; f_type := None; f_department := None; f_tags := None; f_status := None |}.

Definition withQuery (searchFilters : SearchFilters) (q : string) : SearchFilters :=
  {| query := q;
     f_type := f_type searchFilters;
     f_department := f_department searchFilters;
     f_tags := f_tags searchFilters;
     f_status := f_status searchFilters |}.

End App.

(** ** Vocabulary of the properties *)

(** The filter of the schema viewer (SchemaViewer.tsx, "Filter sensitive
    only"): [table.sensitive || table.columns.some(col => col.sensitive)]. *)
Module SchemaViewer.

Definition showsAsSensitive (table : AIDataDiscoveryService.DataTable) : bool :=
  AIDataDiscoveryService.tbl_sensitive table
  || existsb (fun col => AIDataDiscoveryService.truthy (AIDataDiscoveryService.col_sensitive col))
             (AIDataDiscoveryService.tbl_columns table).

End SchemaViewer.

(** The table filter of the schema viewer ([filteredData] of SchemaViewer.tsx). *)

Module SchemaViewerFilters.

Import Js AIDataDiscoveryService.

(** A table with the data source it belongs to, an application with the
    data sources it is connected to. *)
Record Table := {
  table : DataTable;
  sourceId : string
}.

Record App := {
  application : Application;
  connectedDataSources : list string
}.

Record Filters := {
  searchQuery : string;
  selectedApplication : string;
  selectedDataSource : string;
  selectedSchema : string;
  showSensitiveOnly : bool
}.

(** The state after [clearFilters], which is also the initial one. *)
Definition cleared : Filters :=
  {| searchQuery := ""; selectedApplication := ""; selectedDataSource := "";
     selectedSchema := ""; showSensitiveOnly := false |}.

Definition nonEmpty (s : string) : bool := negb (String.length s =? 0)%nat.

Definition matchesSearch (q : string) (t : Table) : bool :=
  includes (toLowerCase (tbl_name (table t))) (toLowerCase q)
  || includes (toLowerCase (tbl_description (table t))) (toLowerCase q)
  || existsb
       (fun col =>
          includes (toLowerCase (col_name col)) (toLowerCase q)
          || match col_description col with
             | Some d => includes (toLowerCase d) (toLowerCase q)
             | None => false
             end)
       (tbl_columns (table t)).

(** The tables that [filteredData] keeps, before the display fields are
    added to each of them. *)
Definition filteredTables (dataTables : list Table) (applications : list App) (f : Filters)
    : list Table :=
  let filteredTables := dataTables in
  let filteredTables :=
    if nonEmpty (selectedApplication f) then
      match find (fun a => String.eqb (app_id (application a)) (selectedApplication f))
                 applications with
      | Some app => filter (fun t => mem (sourceId t) (connectedDataSources app)) filteredTables
      | None => filteredTables
      end
    else filteredTables in
  let filteredTables :=
    if nonEmpty (selectedDataSource f)
    then filter (fun t => String.eqb (sourceId t) (selectedDataSource f)) filteredTables
    else filteredTables in
  let filteredTables :=
    if nonEmpty (selectedSchema f)
    then filter (fun t => String.eqb (tbl_schema (table t)) (selectedSchema f)) filteredTables
    else filteredTables in
  let filteredTables :=
    if nonEmpty (searchQuery f)
    then filter (matchesSearch (searchQuery f)) filteredTables
    else filteredTables in
  let filteredTables :=
    if showSensitiveOnly f
    then filter (fun t => SchemaViewer.showsAsSensitive (table t)) filteredTables
    else filteredTables in
  filteredTables.

End SchemaViewerFilters.

(** A list of discovery results in non-increasing order of score. *)
Definition nonIncreasing (l : list AIDataDiscoveryService.AISearchResult) : Prop :=
  StronglySorted
    (fun a b => (AIDataDiscoveryService.relevanceScore b
                 <= AIDataDiscoveryService.relevanceScore a)%Z) l.

(** [a] stands somewhere before [b] in [l]. *)
Definition before {A : Type} (a b : A) (l : list A) : Prop :=
  exists l1 l2 l3, l = (l1 ++ a :: l2 ++ b :: l3)%list.

(** The rows each scorer contributes, in catalogue order: one row for each
    entity whose score is positive. *)
Definition applicationRows (applications : list AIDataDiscoveryService.Application)
    (keyTerms dataTypes : list string) : list AIDataDiscoveryService.AISearchResult :=
  map (fun app => AIDataDiscoveryService.applicationRow app
                    (AIDataDiscoveryService.scoreApplication app keyTerms dataTypes))
      (filter (fun app => (0 <? AIDataDiscoveryService.score
                                  (AIDataDiscoveryService.scoreApplication app keyTerms dataTypes))%Z)
              applications).

Definition dataSourceRows (dataSources : list AIDataDiscoveryService.DataSource)
    (keyTerms dataTypes : list string) : list AIDataDiscoveryService.AISearchResult :=
  map (fun ds => AIDataDiscoveryService.dataSourceRow ds
                   (AIDataDiscoveryService.scoreDataSource ds keyTerms dataTypes))
      (filter (fun ds => (0 <? AIDataDiscoveryService.score
                                 (AIDataDiscoveryService.scoreDataSource ds keyTerms dataTypes))%Z)
              dataSources).

Definition tableRows (tables : list AIDataDiscoveryService.DataTable)
    (keyTerms dataTypes : list string) : list AIDataDiscoveryService.AISearchResult :=
  map (fun table => AIDataDiscoveryService.tableRow table
                      (AIDataDiscoveryService.scoreTable table keyTerms dataTypes))
      (filter (fun table => (0 <? AIDataDiscoveryService.score
                                    (AIDataDiscoveryService.scoreTable table keyTerms dataTypes))%Z)
              tables).

Definition columnRows (tables : list AIDataDiscoveryService.DataTable)
    (keyTerms dataTypes : list string) : list AIDataDiscoveryService.AISearchResult :=
  flat_map
    (fun table =>
       map (fun column => AIDataDiscoveryService.columnRow table column
                            (AIDataDiscoveryService.scoreColumn table column keyTerms dataTypes))
           (filter (fun column =>
                      (0 <? AIDataDiscoveryService.score
                              (AIDataDiscoveryService.scoreColumn table column keyTerms dataTypes))%Z)
                   (AIDataDiscoveryService.tbl_columns table)))
    tables.

(** The search terms as the specification words them: lower-case the
    query, strip the punctuation, split on white space, then remove the stop
    words and the tokens of length 2 or less.  [strip] is the reading of
    "stripping punctuation": a mark becomes a blank, or a mark is deleted. *)
Definition searchTermsSpec (strip : string -> string) (stopWords : list string)
    (query : string) : list string :=
  filter (fun token => negb (Js.mem token stopWords) && negb (String.length token <=? 2)%nat)
         (Js.split_ws (strip (Js.toLowerCase query))).

Definition deletePunctuation (s : string) : string :=
  Js.filter_chars (fun c => Js.is_word c || Js.is_space c) s.

(** The local intent classifier as a table of rules, the first match
    winning.  [categoryRulesClaimed] is the table of the specification,
    [categoryRules] the one the code tests. *)
Definition categoryRulesClaimed : list (list string * string) :=
  [ (["finance"; "money"; "payment"], "Finance");
    (["security"; "privacy"], "Security");
    (["productivity"; "work"], "Productivity");
    (["entertainment"; "music"; "game"], "Entertainment") ].

Definition categoryRules : list (list string * string) :=
  [ (["finance"; "money"], "Finance");
    (["security"; "privacy"], "Security");
    (["productivity"; "work"], "Productivity");
    (["entertainment"; "music"; "game"], "Entertainment") ].

Definition actionVerbs : list string := ["find"; "show"; "get"; "need"].

Fixpoint firstRule (rules : list (list string * string)) (lowerQuery : string)
    : option string :=
  match rules with
  | [] => None
  | (words, cat) :: rest =>
      if existsb (Js.includes lowerQuery) words then Some cat
      else firstRule rest lowerQuery
  end.

(** Category first; failing that, [Feature] when an action verb is one of
    the keywords of the query; failing that, [General]. *)
Definition classifySpec (rules : list (list string * string)) (query : string)
    : option string * SearchType :=
  match firstRule rules (Js.toLowerCase query) with
  | Some cat => (Some cat, Category)
  | None =>
      if existsb (fun verb => Js.mem verb (longWords query)) actionVerbs
      then (None, Feature)
      else (None, General)
  end.

(** The raw score of the plain search as the specification words it: the
    three whole-query bonuses, the three per-term weights times the number
    of terms found, and the bonus of a popular category. *)
Definition termsFound (text : string) (terms : list string) : Q :=
  inject_Z (Z.of_nat (List.length (filter (Js.includes text) terms))).

Definition rawScoreSpec (app : CSVApp) (searchTerms : list string) (fullQuery : string) : Q :=
  ((if Js.includes (Js.toLowerCase (app_name app)) fullQuery then 10 else 0)
   + (if Js.includes (Js.toLowerCase (category app)) fullQuery then 5 else 0)
   + (if Js.includes (Js.toLowerCase (description app)) fullQuery then 3 else 0)
   + 2 * termsFound (Js.toLowerCase (app_name app)) searchTerms
   + 1.5 * termsFound (Js.toLowerCase (category app)) searchTerms
   + 1 * termsFound (Js.toLowerCase (description app)) searchTerms
   + (if Js.mem (category app) RAGSearchService.popularCategories then 0.5 else 0))%Q.

(** A list of plain-search results in non-increasing order of score. *)
Definition descending (l : list RAGSearchService.AISearchResult) : Prop :=
  StronglySorted
    (fun a b => (RAGSearchService.relevanceScore b <= RAGSearchService.relevanceScore a)%Q) l.

(** A well-formed answer: a confidence between 0 and 1, at most 5 referenced
    applications and at most 5 suggested queries. *)
Definition wellFormed (r : GeminiAIResponse) : Prop :=
  (0 <= confidence r)%Q /\ (confidence r <= 1)%Q
  /\ (List.length (relevantApps r) <= 5)%nat
  /\ (List.length (suggestedQueries r) <= 5)%nat.

(** The two states of the fallback: PRIMARY is [useGemini = true], DEGRADED
    is [useGemini = false].  The calls that reset the service to PRIMARY. *)
Definition isReset (c : RAGSearchService.Call) : bool :=
  match c with
  | RAGSearchService.CallRetryWithGemini => true
  | RAGSearchService.CallSetUseGemini b => b
  | _ => false
  end.

(** The generative provider fails on the query: the welcome call rejects
    for a blank query; for another query the intent call rejects, or the
    response call that follows it does. *)
Definition geminiFails (geminiService : nat -> AIProvider) (st : RAGSearchService.State)
    (query : string) (limit : option Z) : Prop :=
  let n := RAGSearchService.geminiCalls st in
  let data := RAGSearchService.csvData st in
  if RAGSearchService.isBlank query then
    p_generateWelcomeResponse (geminiService n) data = None
  else
    p_analyzeIntent (geminiService n) query = None
    \/ p_generateResponse (geminiService (S n)) query data
         (RAGSearchService.relevantAppsOf data
            (RAGSearchService.search data query
               (Some (RAGSearchService.orDefault 10%Z limit)))) = None.

(** The reply is the answer of the local provider to the query: its
    welcome for a blank query, its intent and its response otherwise. *)
Definition answeredLocally (mockAIService : nat -> AIProvider) (st : RAGSearchService.State)
    (query : string) (limit : option Z)
    (reply : option RAGSearchService.EnhancedAISearchResponse) : Prop :=
  let k := RAGSearchService.mockCalls st in
  let data := RAGSearchService.csvData st in
  let results :=
    RAGSearchService.search data query (Some (RAGSearchService.orDefault 10%Z limit)) in
  if RAGSearchService.isBlank query then
    forall welcome,
      p_generateWelcomeResponse (mockAIService k) data = Some welcome ->
      reply = Some {| RAGSearchService.results := [];
                      RAGSearchService.aiResponse := Some welcome;
                      RAGSearchService.e_intent := None |}
  else
    forall intent response,
      p_analyzeIntent (mockAIService k) query = Some intent ->
      p_generateResponse (mockAIService (S k)) query data
        (RAGSearchService.relevantAppsOf data results) = Some response ->
      reply = Some {| RAGSearchService.results := results;
                      RAGSearchService.aiResponse := Some response;
                      RAGSearchService.e_intent := Some intent |}.

(** A generative provider that rejects every call, and one whose model
    call always throws a network error. *)
Definition rejecting : nat -> AIProvider :=
  fun _ =>
    {| p_analyzeIntent := fun _ => None;
       p_generateResponse := fun _ _ _ => None;
       p_generateWelcomeResponse := fun _ => None;
       p_generateSuggestions := fun _ _ => None |}.

Definition offline : string -> GeminiAIService.Outcome :=
  fun _ => GeminiAIService.Threw (GeminiAIService.ErrorObject "Failed to fetch").

(** ** Sample catalogue entries, used to run the services *)

Module Sample.

Import AIDataDiscoveryService.

Definition cardNumber : DataColumn :=
  {| col_name := "card_number";
     col_type := "varchar(16)";
     col_description := None;
     col_nullable := false;
     col_primaryKey := None;
     col_sensitive := Some true |}.

Definition customers : DataTable :=
  {| tbl_id := "t1";
     tbl_name := "customers";
     tbl_description := "Customer master data";
     tbl_schema := "public";
     tbl_columns := [cardNumber];
     tbl_sensitive := false;
     tbl_tags := [] |}.

Definition portal : Application :=
  {| app_id := "a1";
     app_name := "Credit Card Payment Portal";
     app_description := "Pay by credit card";
     app_tags := [] |}.

Definition cardRow : AISearchResult :=
  {| r_type := TColumn;
     r_id := "t1_card_number";
     r_name := "card_number";
     relevanceScore := 115;
     r_reason :=
       "Matches " ++ Js.dq ++ "card" ++ Js.dq
       ++ " in column. Direct match for credit card number field.";
     r_path := "Column: public.customers.card_number";
     r_sensitive := true;
     r_matchType := Exact |}.

Definition customersRow : AISearchResult :=
  {| r_type := TTable;
     r_id := "t1";
     r_name := "customers";
     relevanceScore := 105;
     r_reason :=
       "Table commonly contains payment information. Contains payment-related columns.";
     r_path := "Table: public.customers";
     r_sensitive := false;
     r_matchType := Exact |}.

End Sample.

Module SampleApps.

Definition budgetBuddy : CSVApp :=
  {| app_id := "1";
     app_name := "Budget Buddy";
     category := "Finance";
     description := "Track money" |}.

Definition notes : CSVApp :=
  {| app_id := "2";
     app_name := "Notes";
     category := "Tools";
     description := "Write notes with budget hints" |}.

End SampleApps.

Module SampleSources.

Definition crm : App.DataSource :=
  {| App.id := "ds-1";
     App.name := "Customer Database";
     App.description := "Customer records";
     App.owner := "Sales";
     App.tags := ["crm"];
     App.type := "database";
     App.department := "Sales";
     App.status := "active" |}.

End SampleSources.

(** ** Vocabulary of the further properties *)

(** Every code unit of a string passes a test. *)
Fixpoint allChars (p : ascii -> bool) (s : string) : bool :=
  match s with
  | EmptyString => true
  | String c s' => p c && allChars p s'
  end.

(** A lower-case letter, a digit or an underscore. *)
Definition isLowerWordChar (c : ascii) : bool :=
  Js.is_lower c || Js.is_digit c || (Js.code c =? 95)%nat.

(** The tests of generateWarnings on one suggestion. *)
Definition isCardColumn (r : AIDataDiscoveryService.AISearchResult) : bool :=
  AIDataDiscoveryService.isType AIDataDiscoveryService.TColumn r
  && AIDataDiscoveryService.test_ci ["card"; "payment"] (AIDataDiscoveryService.r_name r).

(** A list of strings in strictly ascending order. *)
Definition ascending (l : list string) : Prop :=
  StronglySorted (fun a b => String.ltb a b = true) l.

(** * Properties *)

(** ** Strings and arrays *)

Section JsFacts.

Import Js.

Lemma startsWith_spec (s p : string) :
  startsWith s p = true <-> exists rest, s = p ++ rest.
Proof.
  revert s; induction p as [|a p IH]; intros s.
  - split; [intros _; now exists s | intros _; destruct s; reflexivity].
  - destruct s as [|b s]; simpl.
    + split; [discriminate | intros [rest H]; discriminate].
    + rewrite andb_true_iff, IH, Ascii.eqb_eq. split.
      * intros [-> [rest ->]]. now exists rest.
      * intros [rest H]. injection H as -> ->. split; [reflexivity | now exists rest].
Qed.

Lemma append_assoc (a b c : string) : (a ++ b) ++ c = a ++ (b ++ c).
Proof. induction a; simpl; congruence. Qed.

(** [includes] is the search for a substring. *)
Lemma includes_spec (s sub : string) :
  includes s sub = true <-> exists pre post, s = pre ++ sub ++ post.
Proof.
  induction s as [|c s IH].
  - cbn [includes]. rewrite orb_false_r, startsWith_spec. split.
    + intros [rest H]. now exists EmptyString, rest.
    + intros [pre [post H]]. destruct pre; simpl in H.
      * now exists post.
      * discriminate.
  - cbn [includes]. rewrite orb_true_iff, IH, startsWith_spec. split.
    + intros [[rest H] | [pre [post H]]].
      * now exists EmptyString, rest.
      * exists (String c pre), post. simpl. now rewrite H.
    + intros [pre [post H]]. destruct pre as [|c' pre]; simpl in H.
      * left. now exists post.
      * right. injection H as _ H. now exists pre, post.
Qed.

Lemma lower_char_idem (c : ascii) : lower_char (lower_char c) = lower_char c.
Proof.
  destruct c as [[] [] [] [] [] [] [] []]; reflexivity.
Qed.

Lemma toLowerCase_idem (s : string) : toLowerCase (toLowerCase s) = toLowerCase s.
Proof.
  unfold toLowerCase. induction s as [|c s IH]; simpl.
  - reflexivity.
  - now rewrite lower_char_idem, IH.
Qed.

Lemma In_firstn {A : Type} (n : nat) (xs : list A) (x : A) :
  In x (firstn n xs) -> In x xs.
Proof.
  revert n; induction xs as [|y xs IH]; intros [|n]; simpl; try tauto.
  intros [H | H]; [now left | right; now apply (IH n)].
Qed.

Lemma slice0_firstn {A : Type} (n : nat) (xs : list A) :
  slice0 (Z.of_nat n) xs = firstn n xs.
Proof.
  unfold slice0. destruct (Z.ltb_spec (Z.of_nat n) 0); [lia|].
  now rewrite Nat2Z.id.
Qed.

Lemma slice0_length {A : Type} (e : Z) (xs : list A) :
  (0 <= e)%Z -> (List.length (slice0 e xs) <= Z.to_nat e)%nat.
Proof.
  intros He. unfold slice0. destruct (Z.ltb_spec e 0); [lia|].
  rewrite length_firstn. lia.
Qed.

Lemma slice0_incl {A : Type} (e : Z) (xs : list A) (x : A) :
  In x (slice0 e xs) -> In x xs.
Proof.
  unfold slice0. destruct (e <? 0)%Z; intros H; eapply In_firstn; exact H.
Qed.

(** A push inside [forEach], seen from outside the loop. *)
Lemma forEach_push {A B : Type} (keep : A -> bool) (row : A -> B) (xs : list A) (acc : list B) :
  fold_left (fun acc x => if keep x then (acc ++ [row x])%list else acc) xs acc
  = (acc ++ map row (filter keep xs))%list.
Proof.
  revert acc; induction xs as [|x xs IH]; intros acc; simpl.
  - now rewrite app_nil_r.
  - rewrite IH. destruct (keep x); simpl.
    + now rewrite <- app_assoc.
    + reflexivity.
Qed.

End JsFacts.

(** ** The stable sort *)

Section SortFacts.

Import Js.

Context {A : Type} (after : A -> A -> bool).

Lemma insertBy_perm (x : A) (l : list A) : Permutation (x :: l) (insertBy after x l).
Proof.
  induction l as [|y l IH]; simpl.
  - apply Permutation_refl.
  - destruct (after x y).
    + eapply Permutation_trans; [apply perm_swap|]. now apply perm_skip.
    + apply Permutation_refl.
Qed.

Lemma sortBy_perm (l : list A) : Permutation l (sortBy after l).
Proof.
  induction l as [|x l IH]; simpl.
  - apply perm_nil.
  - eapply Permutation_trans; [apply perm_skip, IH|]. apply insertBy_perm.
Qed.

Lemma sortBy_In (l : list A) (x : A) : In x (sortBy after l) <-> In x l.
Proof.
  split; intros H.
  - eapply Permutation_in; [apply Permutation_sym, sortBy_perm | exact H].
  - eapply Permutation_in; [apply sortBy_perm | exact H].
Qed.

(** Elements that the comparator never orders keep their order. *)
Lemma insertBy_tied (p : A -> bool) (x : A) (l : list A) :
  (forall a b, p a = true -> p b = true -> after a b = false) ->
  filter p (insertBy after x l) = filter p (x :: l).
Proof.
  intros tied. induction l as [|y l IH].
  - reflexivity.
  - cbn [insertBy]. destruct (after x y) eqn:Hxy; [|reflexivity].
    cbn [filter] in *. rewrite IH.
    destruct (p x) eqn:Hx, (p y) eqn:Hy; try reflexivity.
    rewrite (tied x y Hx Hy) in Hxy. discriminate.
Qed.

Lemma sortBy_stable (p : A -> bool) (l : list A) :
  (forall a b, p a = true -> p b = true -> after a b = false) ->
  filter p (sortBy after l) = filter p l.
Proof.
  intros tied. induction l as [|x l IH].
  - reflexivity.
  - cbn [sortBy fold_right]. rewrite insertBy_tied by exact tied.
    cbn [filter]. fold (sortBy after l). now rewrite IH.
Qed.

Section Ordered.

Hypothesis asym : forall x y, after x y = true -> after y x = false.
Hypothesis trans : forall x y z, after x y = false -> after y z = false -> after x z = false.

Lemma insertBy_sorted (x : A) (l : list A) :
  StronglySorted (fun a b => after a b = false) l ->
  StronglySorted (fun a b => after a b = false) (insertBy after x l).
Proof.
  induction 1 as [|y l Hs IH Hy]; simpl.
  - repeat constructor.
  - destruct (after x y) eqn:Hxy.
    + constructor; [exact IH|].
      rewrite Forall_forall in *. intros z Hz.
      apply (Permutation_in _ (Permutation_sym (insertBy_perm x l))) in Hz.
      destruct Hz as [<- | Hz]; [now apply asym | now apply Hy].
    + constructor; [now constructor|].
      constructor; [exact Hxy|].
      rewrite Forall_forall in *. intros z Hz. eapply trans; [exact Hxy | now apply Hy].
Qed.

Lemma sortBy_sorted (l : list A) :
  StronglySorted (fun a b => after a b = false) (sortBy after l).
Proof.
  induction l as [|x l IH]; simpl.
  - constructor.
  - now apply insertBy_sorted.
Qed.

End Ordered.

End SortFacts.

(** ** Lists cut and filtered *)

Lemma StronglySorted_firstn {A : Type} (R : A -> A -> Prop) (n : nat) (l : list A) :
  StronglySorted R l -> StronglySorted R (firstn n l).
Proof.
  intros H. revert n. induction H as [|x l Hs IH Hx]; intros [|n]; simpl; try constructor.
  - apply IH.
  - rewrite Forall_forall in *. intros y Hy. apply Hx. eapply In_firstn; exact Hy.
Qed.

Lemma filter_firstn_prefix {A : Type} (p : A -> bool) (n : nat) (l : list A) :
  filter p l = (filter p (firstn n l) ++ filter p (skipn n l))%list.
Proof. now rewrite <- filter_app, firstn_skipn. Qed.

(** A cut of a filtered list is the image of a cut of the list. *)
Lemma filter_split {A : Type} (p : A -> bool) (l : list A) (u v : list A) (a : A) :
  filter p l = (u ++ a :: v)%list ->
  exists l1 l2, l = (l1 ++ a :: l2)%list /\ filter p l1 = u /\ filter p l2 = v.
Proof.
  revert u. induction l as [|x l IH]; intros u H; simpl in H.
  - destruct u; discriminate.
  - destruct (p x) eqn:Hx.
    + destruct u as [|y u]; simpl in H.
      * injection H as -> <-. exists [], l. simpl. auto.
      * injection H as -> H. destruct (IH _ H) as [l1 [l2 [-> [<- <-]]]].
        exists (y :: l1), l2. simpl. rewrite Hx. auto.
    + destruct (IH _ H) as [l1 [l2 [-> [<- <-]]]].
      exists (x :: l1), l2. simpl. rewrite Hx. auto.
Qed.

(** The order of two members of a filtered list is their order in the list. *)
Lemma before_filter {A : Type} (p : A -> bool) (a b : A) (l : list A) :
  before a b (filter p l) -> before a b l.
Proof.
  intros [u [v [w H]]].
  destruct (filter_split p l u _ a H) as [l1 [l2 [-> [_ H2]]]].
  destruct (filter_split p l2 v _ b H2) as [m1 [m2 [-> _]]].
  now exists l1, m1, m2.
Qed.

Lemma before_filter_in {A : Type} (p : A -> bool) (a b : A) (l : list A) :
  p a = true -> p b = true -> before a b l -> before a b (filter p l).
Proof.
  intros Ha Hb [l1 [l2 [l3 ->]]].
  exists (filter p l1), (filter p l2), (filter p l3).
  rewrite filter_app. cbn [filter]. rewrite Ha, filter_app. cbn [filter]. now rewrite Hb.
Qed.

Lemma before_app_l {A : Type} (a b : A) (l rest : list A) :
  before a b l -> before a b (l ++ rest).
Proof.
  intros [l1 [l2 [l3 ->]]]. exists l1, l2, (l3 ++ rest)%list.
  now rewrite <- !app_assoc, <- !app_comm_cons, <- app_assoc, <- app_comm_cons.
Qed.

Lemma StronglySorted_impl {A : Type} (R R' : A -> A -> Prop) (l : list A) :
  (forall a b, R a b -> R' a b) -> StronglySorted R l -> StronglySorted R' l.
Proof.
  intros HR. induction 1 as [|x l Hs IH Hx]; constructor.
  - exact IH.
  - eapply Forall_impl; [|exact Hx]. intros b. apply HR.
Qed.

(** ** The discovery service *)

Section DiscoveryFacts.

Import Js AIDataDiscoveryService.

Lemma searchApplications_rows applications keyTerms dataTypes results :
  searchApplications applications keyTerms dataTypes results
  = (results ++ applicationRows applications keyTerms dataTypes)%list.
Proof.
  exact (forEach_push
      (fun app => (0 <? score (scoreApplication app keyTerms dataTypes))%Z)
      (fun app => applicationRow app (scoreApplication app keyTerms dataTypes))
      applications results).
Qed.

Lemma searchDataSources_rows dataSources keyTerms dataTypes results :
  searchDataSources dataSources keyTerms dataTypes results
  = (results ++ dataSourceRows dataSources keyTerms dataTypes)%list.
Proof.
  exact (forEach_push
      (fun ds => (0 <? score (scoreDataSource ds keyTerms dataTypes))%Z)
      (fun ds => dataSourceRow ds (scoreDataSource ds keyTerms dataTypes))
      dataSources results).
Qed.

Lemma searchTables_rows tables keyTerms dataTypes results :
  searchTables tables keyTerms dataTypes results
  = (results ++ tableRows tables keyTerms dataTypes)%list.
Proof.
  exact (forEach_push
      (fun table => (0 <? score (scoreTable table keyTerms dataTypes))%Z)
      (fun table => tableRow table (scoreTable table keyTerms dataTypes))
      tables results).
Qed.

Lemma searchColumns_rows tables keyTerms dataTypes results :
  searchColumns tables keyTerms dataTypes results
  = (results ++ columnRows tables keyTerms dataTypes)%list.
Proof.
  unfold searchColumns, columnRows. revert results.
  induction tables as [|table tables IH]; intros results; cbn [fold_left flat_map].
  - now rewrite app_nil_r.
  - rewrite IH.
    rewrite (forEach_push
        (fun column => (0 <? score (scoreColumn table column keyTerms dataTypes))%Z)
        (fun column => columnRow table column (scoreColumn table column keyTerms dataTypes))).
    now rewrite <- app_assoc.
Qed.

(** Before the sort, [results] holds the rows of the applications, then of
    the data sources, then of the tables, then of the columns. *)
Lemma discover_rows dataSources tables applications keyTerms dataTypes :
  discover dataSources tables applications keyTerms dataTypes
  = (applicationRows applications keyTerms dataTypes
    ++ dataSourceRows dataSources keyTerms dataTypes
    ++ tableRows tables keyTerms dataTypes
    ++ columnRows tables keyTerms dataTypes)%list.
Proof.
  unfold discover.
  rewrite searchColumns_rows, searchTables_rows, searchDataSources_rows,
    searchApplications_rows.
  cbn [app]. now rewrite <- !app_assoc.
Qed.

Lemma discover_positive dataSources tables applications keyTerms dataTypes r :
  In r (discover dataSources tables applications keyTerms dataTypes) ->
  (0 < relevanceScore r)%Z.
Proof.
  rewrite discover_rows, !in_app_iff.
  unfold applicationRows, dataSourceRows, tableRows, columnRows.
  rewrite in_flat_map, !in_map_iff.
  intros [[x [<- H]] | [[x [<- H]] | [[x [<- H]] | [t [_ H]]]]].
  - apply filter_In in H. cbn. now apply Z.ltb_lt.
  - apply filter_In in H. cbn. now apply Z.ltb_lt.
  - apply filter_In in H. cbn. now apply Z.ltb_lt.
  - apply in_map_iff in H. destruct H as [x [<- H]].
    apply filter_In in H. cbn. now apply Z.ltb_lt.
Qed.

Lemma matchTerms_score_ge text pts place keyTerms t :
  (0 <= pts)%Z -> (score t <= score (matchTerms text pts place keyTerms t))%Z.
Proof.
  intros Hpts. unfold matchTerms. revert t.
  induction keyTerms as [|term keyTerms IH]; intros t; cbn [fold_left].
  - lia.
  - destruct (includes text term).
    + etransitivity; [|apply IH]. cbn. lia.
    + apply IH.
Qed.

Ltac score_cases :=
    repeat match goal with
    | |- context [if ?c then _ else _] => destruct c
    end;
    cbn [score add tag].

Lemma scoreApplication_nonneg app keyTerms dataTypes :
  (0 <= score (scoreApplication app keyTerms dataTypes))%Z.
Proof.
  unfold scoreApplication.
  match goal with
  | |- context [matchTerms ?text ?pts ?place ?kt ?t] =>
    pose proof (matchTerms_score_ge text pts place kt t)
  end.
  score_cases; cbn [score start] in *; lia.
Qed.

Lemma scoreDataSource_nonneg ds keyTerms dataTypes :
  (0 <= score (scoreDataSource ds keyTerms dataTypes))%Z.
Proof.
  unfold scoreDataSource.
  match goal with
  | |- context [matchTerms ?text ?pts ?place ?kt ?t] =>
    pose proof (matchTerms_score_ge text pts place kt t)
  end.
  score_cases; cbn [score start] in *; lia.
Qed.

Lemma scoreTable_nonneg table keyTerms dataTypes :
  (0 <= score (scoreTable table keyTerms dataTypes))%Z.
Proof.
  unfold scoreTable.
  match goal with
  | |- context [matchTerms ?text ?pts ?place ?kt ?t] =>
    pose proof (matchTerms_score_ge text pts place kt t)
  end.
  score_cases; cbn [score start] in *; lia.
Qed.

Lemma scoreColumn_nonneg table column keyTerms dataTypes :
  (0 <= score (scoreColumn table column keyTerms dataTypes))%Z.
Proof.
  unfold scoreColumn.
  match goal with
  | |- context [matchTerms ?text ?pts ?place ?kt ?t] =>
    pose proof (matchTerms_score_ge text pts place kt t)
  end.
  score_cases; cbn [score start] in *; lia.
Qed.

Lemma byScoreDesc_false a b :
  byScoreDesc a b = false <-> (relevanceScore b <= relevanceScore a)%Z.
Proof. unfold byScoreDesc. rewrite Z.ltb_ge. lia. Qed.

Lemma byScoreDesc_true a b :
  byScoreDesc a b = true <-> (relevanceScore a < relevanceScore b)%Z.
Proof. unfold byScoreDesc. rewrite Z.ltb_lt. lia. Qed.

Lemma sorted_nonIncreasing (l : list AISearchResult) :
  nonIncreasing (sortBy byScoreDesc l).
Proof.
  unfold nonIncreasing.
  apply StronglySorted_impl with (R := fun a b => byScoreDesc a b = false).
  - intros a b. apply byScoreDesc_false.
  - apply sortBy_sorted.
    + intros x y. rewrite byScoreDesc_true, byScoreDesc_false. lia.
    + intros x y z. rewrite !byScoreDesc_false. lia.
Qed.

Lemma suggestions_eq query dataSources tables applications :
  suggestions (searchData query dataSources tables applications)
  = firstn 10
  (sortBy byScoreDesc
      (discover dataSources tables applications
        (extractKeyTerms (toLowerCase query)) (identifyDataTypes (toLowerCase query)))).
Proof.
  unfold searchData. cbn [suggestions].
  change 10%Z with (Z.of_nat 10). apply slice0_firstn.
Qed.

(** The results of one score keep their discovery order through the sort
    and the cut. *)
Lemma suggestions_stable query dataSources tables applications (s : Z) :
  let tiedAt := fun r => (relevanceScore r =? s)%Z in
  exists rest,
  filter tiedAt
  (discover dataSources tables applications
      (extractKeyTerms (toLowerCase query)) (identifyDataTypes (toLowerCase query)))
  = (filter tiedAt (suggestions (searchData query dataSources tables applications))
    ++ rest)%list.
Proof.
  intros tiedAt. rewrite suggestions_eq.
  set (found := discover _ _ _ _ _).
  exists (filter tiedAt (skipn 10 (sortBy byScoreDesc found))).
  rewrite <- filter_firstn_prefix. symmetry. apply sortBy_stable.
  intros a b Ha Hb. unfold tiedAt in *. apply Z.eqb_eq in Ha, Hb.
  apply byScoreDesc_false. lia.
Qed.

End DiscoveryFacts.

(** ** Claims about searchData *)

(** C2.  For every query and catalogue, the suggestions of searchData are
    at most 10, they are in non-increasing order of relevanceScore, and
    results of equal score stand in the order the scorers produced them:
    the rows of the applications, then of the data sources, then of the
    tables, then of the columns, each in catalogue order. *)
Theorem C2_suggestions_ranked
    (query : string)
    (dataSources : list AIDataDiscoveryService.DataSource)
    (tables : list AIDataDiscoveryService.DataTable)
    (applications : list AIDataDiscoveryService.Application) :
  let keyTerms := AIDataDiscoveryService.extractKeyTerms (Js.toLowerCase query) in
  let dataTypes := AIDataDiscoveryService.identifyDataTypes (Js.toLowerCase query) in
  let found :=
    AIDataDiscoveryService.discover dataSources tables applications keyTerms dataTypes in
  let out :=
    AIDataDiscoveryService.suggestions
      (AIDataDiscoveryService.searchData query dataSources tables applications) in
  (List.length out <= 10)%nat
  /\ nonIncreasing out
  /\ (forall a b,
        AIDataDiscoveryService.relevanceScore a = AIDataDiscoveryService.relevanceScore b ->
        before a b out -> before a b found)
  /\ (forall s, exists rest,
        filter (fun r => (AIDataDiscoveryService.relevanceScore r =? s)%Z) found
        = (filter (fun r => (AIDataDiscoveryService.relevanceScore r =? s)%Z) out ++ rest)%list)
  /\ found
     = (applicationRows applications keyTerms dataTypes
        ++ dataSourceRows dataSources keyTerms dataTypes
        ++ tableRows tables keyTerms dataTypes
        ++ columnRows tables keyTerms dataTypes)%list.
Proof.
  intros keyTerms dataTypes found out.
  assert (Hout : out = firstn 10 (Js.sortBy AIDataDiscoveryService.byScoreDesc found))
    by apply suggestions_eq.
  assert (Hstable : forall s, exists rest,
      filter (fun r => (AIDataDiscoveryService.relevanceScore r =? s)%Z) found
      = (filter (fun r => (AIDataDiscoveryService.relevanceScore r =? s)%Z) out
        ++ rest)%list)
    by (intros s; apply (suggestions_stable query dataSources tables applications s)).
  repeat split.
  - rewrite Hout. apply firstn_le_length.
  - rewrite Hout. apply StronglySorted_firstn, sorted_nonIncreasing.
  - intros a b Hab Hbefore.
    destruct (Hstable (AIDataDiscoveryService.relevanceScore a)) as [rest Hrest].
    apply before_filter
      with (p := fun r => (AIDataDiscoveryService.relevanceScore r
          =? AIDataDiscoveryService.relevanceScore a)%Z).
    rewrite Hrest. apply before_app_l. apply before_filter_in.
    + apply Z.eqb_refl.
    + apply Z.eqb_eq. now symmetry.
    + exact Hbefore.
  - exact Hstable.
  - apply discover_rows.
Qed.

(** The order of the two results of the query "credit card" on the sample
    table: the column row (115) stands before the table row (105). *)
Lemma C2_suggestions_ranked_witness :
  nonIncreasing [Sample.cardRow; Sample.customersRow]
  /\ (List.length [Sample.cardRow; Sample.customersRow] <= 10)%nat.
Proof.
  pose proof (C2_suggestions_ranked "credit card" [] [Sample.customers] []) as H.
  cbv zeta in H. destruct H as [Hlen [Hsorted _]].
  split; [exact Hsorted | exact Hlen].
Defined.

(** C3.  For every query and catalogue, every suggestion of searchData has
    a relevanceScore above 0.  No scorer gives a negative score, and an
    entity whose score is 0 gets no row: the rows are those of the entities
    of positive score, one each. *)
Theorem C3_suggestions_score_positive
    (query : string)
    (dataSources : list AIDataDiscoveryService.DataSource)
    (tables : list AIDataDiscoveryService.DataTable)
    (applications : list AIDataDiscoveryService.Application) :
  let keyTerms := AIDataDiscoveryService.extractKeyTerms (Js.toLowerCase query) in
  let dataTypes := AIDataDiscoveryService.identifyDataTypes (Js.toLowerCase query) in
  (forall r,
      In r (AIDataDiscoveryService.suggestions
        (AIDataDiscoveryService.searchData query dataSources tables applications)) ->
      (0 < AIDataDiscoveryService.relevanceScore r)%Z)
  /\ (forall app,
      (0 <= AIDataDiscoveryService.score
        (AIDataDiscoveryService.scoreApplication app keyTerms dataTypes))%Z)
  /\ (forall ds,
      (0 <= AIDataDiscoveryService.score
        (AIDataDiscoveryService.scoreDataSource ds keyTerms dataTypes))%Z)
  /\ (forall table,
      (0 <= AIDataDiscoveryService.score
        (AIDataDiscoveryService.scoreTable table keyTerms dataTypes))%Z)
  /\ (forall table column,
      (0 <= AIDataDiscoveryService.score
        (AIDataDiscoveryService.scoreColumn table column keyTerms dataTypes))%Z)
  /\ AIDataDiscoveryService.discover dataSources tables applications keyTerms dataTypes
  = (applicationRows applications keyTerms dataTypes
    ++ dataSourceRows dataSources keyTerms dataTypes
    ++ tableRows tables keyTerms dataTypes
    ++ columnRows tables keyTerms dataTypes)%list.
Proof.
  intros keyTerms dataTypes. repeat split.
  - intros r Hr. rewrite suggestions_eq in Hr. apply In_firstn in Hr.
    apply sortBy_In in Hr.
    eapply discover_positive; exact Hr.
  - intros app. apply scoreApplication_nonneg.
  - intros ds. apply scoreDataSource_nonneg.
  - intros table. apply scoreTable_nonneg.
  - intros table column. apply scoreColumn_nonneg.
  - apply discover_rows.
Qed.

Lemma C3_suggestions_score_positive_witness :
  (0 < AIDataDiscoveryService.relevanceScore Sample.cardRow)%Z.
Proof.
  apply (proj1 (C3_suggestions_score_positive "credit card" [] [Sample.customers] [])).
  vm_compute. left. reflexivity.
Defined.

(** ** Rank of a result after the sort *)

Lemma filter_In_length {A : Type} (p : A -> bool) (x : A) (l : list A) :
  In x l -> p x = true -> (0 < List.length (filter p l))%nat.
Proof.
  intros Hin Hp.
  assert (H : In x (filter p l)) by (apply filter_In; auto).
  destruct (filter p l); [contradiction | simpl; lia].
Qed.

Lemma insertBy_count {A : Type} (after : A -> A -> bool) (p : A -> bool) (x : A) (l : list A) :
  List.length (filter p (Js.insertBy after x l)) = List.length (filter p (x :: l)).
Proof.
  induction l as [|y l IH]; [reflexivity|].
  cbn [Js.insertBy]. destruct (after x y); [|reflexivity].
  cbn [filter] in *. destruct (p y), (p x); cbn [List.length] in *; lia.
Qed.

Lemma sortBy_count {A : Type} (after : A -> A -> bool) (p : A -> bool) (l : list A) :
  List.length (filter p (Js.sortBy after l)) = List.length (filter p l).
Proof.
  induction l as [|x l IH]; [reflexivity|].
  cbn [Js.sortBy fold_right]. rewrite insertBy_count.
  fold (Js.sortBy after l). cbn [filter]. destruct (p x); cbn [List.length]; lia.
Qed.

(** In a sorted list, a member that has at most [n] members at its level or
    above is among the first [n]. *)
Lemma sorted_rank {A : Type} (R : A -> A -> Prop) (p : A -> bool) (x : A) (n : nat)
    (l : list A) :
  StronglySorted R l ->
  (forall a, R a x -> p a = true) ->
  p x = true ->
  In x l ->
  (List.length (filter p l) <= n)%nat ->
  In x (firstn n l).
Proof.
  intros Hs Hp Hx. revert n. induction Hs as [|y l Hs IH Hy]; intros n Hin Hlen.
  - contradiction.
  - destruct n as [|n].
    + pose proof (filter_In_length p x (y :: l) Hin Hx). lia.
    + cbn [firstn]. destruct Hin as [-> | Hin]; [now left|].
      right. apply IH; [exact Hin|].
      rewrite Forall_forall in Hy. specialize (Hp y (Hy x Hin)).
      cbn [filter] in Hlen. rewrite Hp in Hlen. cbn [List.length] in Hlen. lia.
Qed.

(** ** Claims about sensitivity and the credit-card scenario *)

Section ScenarioFacts.

Import Js AIDataDiscoveryService.

Lemma creditCard_keyTerms :
  extractKeyTerms (toLowerCase "credit card") = ["credit"; "card"].
Proof. reflexivity. Qed.

Lemma creditCard_dataTypes :
  identifyDataTypes (toLowerCase "credit card") = ["credit_card"].
Proof. reflexivity. Qed.

(** The tally of a column named card_number under the query "credit card". *)
Lemma cardNumber_tally table column :
  col_name column = "card_number" ->
  let t := scoreColumn table column ["credit"; "card"] ["credit_card"] in
  matchType t = Exact
  /\ score t
  = (score (matchTerms
        (toLowerCase (col_name column ++ " " ++ or_empty (col_description column)
          ++ " " ++ col_type column))
        15 " in column. " ["credit"; "card"] start) + 100)%Z
  /\ (115 <= score t)%Z.
Proof.
  intros Hname t. subst t. unfold scoreColumn. rewrite Hname.
  change (mem "credit_card" ["credit_card"]) with true.
  change (test_whole_ci ["card_number"; "credit_card"; "cc_number"; "payment_card"]
      "card_number") with true.
  cbv iota. cbn [matchType score tag add].
  repeat split.
  set (text := toLowerCase _).
  assert (Hcard : includes text "card" = true).
  { apply includes_spec. exists EmptyString.
    exists ("_number" ++ toLowerCase (" " ++ or_empty (col_description column)
          ++ " " ++ col_type column)).
    reflexivity. }
  unfold matchTerms. cbn [fold_left]. rewrite Hcard.
  destruct (includes text "credit"); cbn [score add tag start]; lia.
Qed.

Lemma pci_warning_emitted (out : list AISearchResult) (row : AISearchResult) :
  In row out -> r_type row = TColumn -> r_name row = "card_number" ->
  In pciWarning (generateWarnings out).
Proof.
  intros Hin Hty Hname. unfold generateWarnings.
  set (cc := fun s => isType TColumn s && test_ci ["card"; "payment"] (r_name s)).
  assert (Hcc : (0 < List.length (filter cc out))%nat).
  { apply filter_In_length with (x := row); [exact Hin|].
    unfold cc, isType. rewrite Hty, Hname. reflexivity. }
  apply Nat.ltb_lt in Hcc. rewrite Hcc.
  apply in_or_app. right. now left.
Qed.

End ScenarioFacts.

(** C4.  The claim: a table whose stored flag is false and that owns a
    sensitive column is treated as sensitive by the table-level result and
    by the warnings of searchData.  What searchData does: the row of a table
    carries the stored flag alone.  On the sample table (flag false, column
    card_number sensitive), which the filter of the schema viewer shows as
    sensitive, the query "customers" returns the table row with
    sensitive = false and no sensitivity warning. *)
Theorem C4_table_row_keeps_stored_flag :
  (forall table t,
     AIDataDiscoveryService.r_sensitive (AIDataDiscoveryService.tableRow table t)
     = AIDataDiscoveryService.tbl_sensitive table)
  /\ AIDataDiscoveryService.tbl_sensitive Sample.customers = false
  /\ existsb (fun col => AIDataDiscoveryService.truthy (AIDataDiscoveryService.col_sensitive col))
       (AIDataDiscoveryService.tbl_columns Sample.customers) = true
  /\ SchemaViewer.showsAsSensitive Sample.customers = true
  /\ map (fun r => (AIDataDiscoveryService.r_path r, AIDataDiscoveryService.r_sensitive r))
       (AIDataDiscoveryService.suggestions
          (AIDataDiscoveryService.searchData "customers" [] [Sample.customers] []))
     = [("Table: public.customers", false)]
  /\ AIDataDiscoveryService.warnings
       (AIDataDiscoveryService.searchData "customers" [] [Sample.customers] [])
     = [AIDataDiscoveryService.noExactWarning].
Proof.
  repeat split.
Qed.

(** C5, as stated, fails: with ten applications that outscore the column
    (140 each against 115), the ten suggestions for "credit card" are the
    applications; no column is among them and the only warning is the one
    about missing exact matches. *)
Lemma C5_counterexample :
  let response :=
    AIDataDiscoveryService.searchData "credit card" [] [Sample.customers]
      (repeat Sample.portal 10) in
  AIDataDiscoveryService.tbl_name Sample.customers = "customers"
  /\ AIDataDiscoveryService.tbl_schema Sample.customers = "public"
  /\ AIDataDiscoveryService.tbl_columns Sample.customers = [Sample.cardNumber]
  /\ AIDataDiscoveryService.col_name Sample.cardNumber = "card_number"
  /\ map AIDataDiscoveryService.relevanceScore (AIDataDiscoveryService.suggestions response)
     = repeat 140%Z 10
  /\ existsb (AIDataDiscoveryService.isType AIDataDiscoveryService.TColumn)
       (AIDataDiscoveryService.suggestions response) = false
  /\ AIDataDiscoveryService.warnings response = [AIDataDiscoveryService.noExactWarning].
Proof.
  cbv zeta. vm_compute. repeat split.
Qed.

(** C5, amended.  For the query "credit card" and any catalogue with a table
    customers (schema public) that has a column card_number, the scorers
    produce the row of that column with matchType exact and a score that
    includes the +100 bonus (115 at least).  Whenever that row is among the
    suggestions, the warnings contain the PCI DSS entry; and it is among the
    suggestions whenever at most 10 results score as much as it or more. *)
Theorem C5_card_number_scenario
    (dataSources : list AIDataDiscoveryService.DataSource)
    (tables : list AIDataDiscoveryService.DataTable)
    (applications : list AIDataDiscoveryService.Application)
    (table : AIDataDiscoveryService.DataTable)
    (column : AIDataDiscoveryService.DataColumn) :
  In table tables ->
  AIDataDiscoveryService.tbl_name table = "customers" ->
  AIDataDiscoveryService.tbl_schema table = "public" ->
  In column (AIDataDiscoveryService.tbl_columns table) ->
  AIDataDiscoveryService.col_name column = "card_number" ->
  let keyTerms := AIDataDiscoveryService.extractKeyTerms (Js.toLowerCase "credit card") in
  let dataTypes := AIDataDiscoveryService.identifyDataTypes (Js.toLowerCase "credit card") in
  let tally := AIDataDiscoveryService.scoreColumn table column keyTerms dataTypes in
  let row := AIDataDiscoveryService.columnRow table column tally in
  let found :=
    AIDataDiscoveryService.discover dataSources tables applications keyTerms dataTypes in
  let response :=
    AIDataDiscoveryService.searchData "credit card" dataSources tables applications in
  In row found
  /\ AIDataDiscoveryService.r_type row = AIDataDiscoveryService.TColumn
  /\ AIDataDiscoveryService.r_name row = "card_number"
  /\ AIDataDiscoveryService.r_path row = "Column: public.customers.card_number"
  /\ AIDataDiscoveryService.r_matchType row = AIDataDiscoveryService.Exact
  /\ AIDataDiscoveryService.relevanceScore row
  = (AIDataDiscoveryService.score
      (AIDataDiscoveryService.matchTerms
        (Js.toLowerCase
          (AIDataDiscoveryService.col_name column ++ " "
          ++ AIDataDiscoveryService.or_empty
            (AIDataDiscoveryService.col_description column)
          ++ " " ++ AIDataDiscoveryService.col_type column))
        15 " in column. " keyTerms AIDataDiscoveryService.start) + 100)%Z
  /\ (115 <= AIDataDiscoveryService.relevanceScore row)%Z
  /\ (In row (AIDataDiscoveryService.suggestions response) ->
      In AIDataDiscoveryService.pciWarning (AIDataDiscoveryService.warnings response))
  /\ ((List.length
        (filter (fun r => (AIDataDiscoveryService.relevanceScore row
            <=? AIDataDiscoveryService.relevanceScore r)%Z) found)
      <= 10)%nat ->
      In row (AIDataDiscoveryService.suggestions response)
    /\ In AIDataDiscoveryService.pciWarning (AIDataDiscoveryService.warnings response)).
Proof.
  intros Htable Hname Hschema Hcolumn Hcol keyTerms dataTypes tally row found response.
  assert (Hkt : keyTerms = ["credit"; "card"]) by reflexivity.
  assert (Hdt : dataTypes = ["credit_card"]) by reflexivity.
  destruct (cardNumber_tally table column Hcol) as [Hexact [Hscore Hge]].
  assert (Hfound : In row found).
  { unfold found. rewrite discover_rows, !in_app_iff. right; right; right.
    unfold columnRows. apply in_flat_map. exists table. split; [exact Htable|].
    apply in_map_iff. exists column. split; [reflexivity|].
    apply filter_In. split; [exact Hcolumn|].
    apply Z.ltb_lt. rewrite Hkt, Hdt. lia. }
  assert (Hwarn : In row (AIDataDiscoveryService.suggestions response) ->
      In AIDataDiscoveryService.pciWarning
      (AIDataDiscoveryService.warnings response)).
  { intros Hin. unfold response, AIDataDiscoveryService.searchData.
    cbn [AIDataDiscoveryService.warnings].
    apply pci_warning_emitted with (row := row); [exact Hin | reflexivity | exact Hcol]. }
  repeat split.
  - exact Hfound.
  - cbn. now rewrite Hcol.
  - cbn. now rewrite Hschema, Hname, Hcol.
  - cbn. unfold tally. rewrite Hkt, Hdt. exact Hexact.
  - cbn [row AIDataDiscoveryService.columnRow AIDataDiscoveryService.relevanceScore].
    unfold tally. rewrite Hkt, Hdt. exact Hscore.
  - cbn [row AIDataDiscoveryService.columnRow AIDataDiscoveryService.relevanceScore].
    unfold tally. rewrite Hkt, Hdt. exact Hge.
  - exact Hwarn.
  - unfold response. rewrite suggestions_eq. fold keyTerms dataTypes found.
    apply sorted_rank
      with (R := fun a b => (AIDataDiscoveryService.relevanceScore b
          <= AIDataDiscoveryService.relevanceScore a)%Z)
      (p := fun r => (AIDataDiscoveryService.relevanceScore row
          <=? AIDataDiscoveryService.relevanceScore r)%Z).
    + apply sorted_nonIncreasing.
    + intros a Ha. now apply Z.leb_le.
    + apply Z.leb_refl.
    + now apply sortBy_In.
    + now rewrite sortBy_count.
  - apply Hwarn. unfold response. rewrite suggestions_eq. fold keyTerms dataTypes found.
    apply sorted_rank
      with (R := fun a b => (AIDataDiscoveryService.relevanceScore b
          <= AIDataDiscoveryService.relevanceScore a)%Z)
      (p := fun r => (AIDataDiscoveryService.relevanceScore row
          <=? AIDataDiscoveryService.relevanceScore r)%Z).
    + apply sorted_nonIncreasing.
    + intros a Ha. now apply Z.leb_le.
    + apply Z.leb_refl.
    + now apply sortBy_In.
    + now rewrite sortBy_count.
Qed.

(** The scenario on the sample table alone: the column row comes first and
    the PCI DSS warning is emitted. *)
Lemma C5_card_number_scenario_witness :
  In Sample.cardRow
  (AIDataDiscoveryService.suggestions
      (AIDataDiscoveryService.searchData "credit card" [] [Sample.customers] []))
  /\ In AIDataDiscoveryService.pciWarning
  (AIDataDiscoveryService.warnings
      (AIDataDiscoveryService.searchData "credit card" [] [Sample.customers] [])).
Proof.
  pose proof (C5_card_number_scenario [] [Sample.customers] [] Sample.customers Sample.cardNumber
      (or_introl eq_refl) eq_refl eq_refl (or_introl eq_refl) eq_refl) as H.
  cbv zeta in H.
  destruct H as (_ & _ & _ & _ & _ & _ & _ & _ & H).
  apply H. vm_compute. lia.
Defined.

(** ** Claims about search terms and the local intent classifier *)

Lemma mem_true_iff (x : string) (xs : list string) : Js.mem x xs = true <-> In x xs.
Proof.
  unfold Js.mem. rewrite existsb_exists. split.
  - intros [y [Hy Heq]]. apply String.eqb_eq in Heq. now subst.
  - intros H. exists x. split; [exact H | apply String.eqb_refl].
Qed.

Lemma some_mem_swap (xs ys : list string) :
  existsb (fun x => Js.mem x ys) xs = existsb (fun y => Js.mem y xs) ys.
Proof.
  apply eq_true_iff_eq. rewrite !existsb_exists. split.
  - intros [x [Hx Hm]]. apply mem_true_iff in Hm. exists x. split; [exact Hm|].
    now apply mem_true_iff.
  - intros [y [Hy Hm]]. apply mem_true_iff in Hm. exists y. split; [exact Hm|].
    now apply mem_true_iff.
Qed.

(** The key terms of the discovery service are the terms of the
    specification, a mark being read as a blank. *)
Lemma extractKeyTerms_spec (query : string) :
  AIDataDiscoveryService.extractKeyTerms query
  = searchTermsSpec AIDataDiscoveryService.blankPunctuation
  AIDataDiscoveryService.stopWords query.
Proof.
  unfold AIDataDiscoveryService.extractKeyTerms, searchTermsSpec.
  apply filter_ext. intros token. unfold AIDataDiscoveryService.keepTerm.
  rewrite andb_comm. f_equal. rewrite Nat.ltb_antisym. reflexivity.
Qed.

(** C7.  The claim: the search terms are what is left after lower-casing,
    stripping punctuation, splitting on white space and removing the stop
    words and the tokens of length 2 or less, also for a token that becomes
    a stop word or a short token once its punctuation is gone.  The key
    terms of searchData are built that way.  The terms of the plain search
    are not: extractSearchTerms filters the tokens first and strips the
    punctuation afterwards, so that the query "get, apps" keeps the stop
    word get, the query "a?! apps" keeps the token a, the search for
    "get, apps" returns Budget Buddy on the strength of the stop word, and
    the query "!!!" leaves the empty term, which every text contains, so
    that every application is returned. *)
Theorem C7_plain_search_keeps_stop_word :
  RAGSearchService.extractSearchTerms (Js.toLowerCase "get, apps") = ["get"; "apps"]
  /\ Js.mem "get" RAGSearchService.stopWords = true
  /\ searchTermsSpec deletePunctuation RAGSearchService.stopWords "get, apps" = ["apps"]
  /\ searchTermsSpec AIDataDiscoveryService.blankPunctuation RAGSearchService.stopWords
       "get, apps" = ["apps"]
  /\ RAGSearchService.extractSearchTerms (Js.toLowerCase "a?! apps") = ["a"; "apps"]
  /\ searchTermsSpec deletePunctuation RAGSearchService.stopWords "a?! apps" = ["apps"]
  /\ map RAGSearchService.title
       (RAGSearchService.search [SampleApps.budgetBuddy] "get, apps" None) = ["Budget Buddy"]
  /\ RAGSearchService.extractSearchTerms (Js.toLowerCase "!!!") = [EmptyString]
  /\ searchTermsSpec deletePunctuation RAGSearchService.stopWords "!!!" = []
  /\ map RAGSearchService.title
       (RAGSearchService.search [SampleApps.budgetBuddy; SampleApps.notes] "!!!" None)
     = ["Budget Buddy"; "Notes"]
  /\ (forall query,
        AIDataDiscoveryService.extractKeyTerms query
        = searchTermsSpec AIDataDiscoveryService.blankPunctuation
            AIDataDiscoveryService.stopWords query)
  /\ (forall query,
        AIDataDiscoveryService.extractKeyTerms (Js.toLowerCase query)
        = searchTermsSpec AIDataDiscoveryService.blankPunctuation
            AIDataDiscoveryService.stopWords query).
Proof.
  repeat split.
  - apply extractKeyTerms_spec.
  - intros query. rewrite extractKeyTerms_spec. unfold searchTermsSpec.
    now rewrite toLowerCase_idem.
Qed.

(** C9, as stated, fails: the query "payment" matches the claimed Finance
    rule, and the classifier returns no category and searchType general. *)
Lemma C9_counterexample :
  classifySpec categoryRulesClaimed "payment" = (Some "Finance", Category)
  /\ i_category (MockAIService.analyzeIntent "payment") = None
  /\ searchType (MockAIService.analyzeIntent "payment") = General.
Proof.
  repeat split.
Qed.

(** C9, amended.  For every query, the local intent classifier lower-cases
    the query and tests the category rules in order, the first match winning
    and setting searchType category: finance/money -> Finance,
    security/privacy -> Security, productivity/work -> Productivity,
    entertainment/music/game -> Entertainment (payment is no Finance word).
    With no category, searchType is feature when one of the keywords is
    find, show, get or need, and general otherwise.  The keywords are the
    pieces of the lower-cased query between single blanks that are longer
    than 2 characters.  The call always returns. *)
Theorem C9_analyzeIntent_rules (shuffle : list string -> list string) (query : string) :
  (i_category (MockAIService.analyzeIntent query),
   searchType (MockAIService.analyzeIntent query)) = classifySpec categoryRules query
  /\ keywords (MockAIService.analyzeIntent query)
     = filter (fun word => (2 <? String.length word)%nat)
         (Js.split_char " "%char (Js.toLowerCase query))
  /\ p_analyzeIntent (MockAIService.provider shuffle) query
     = Some (MockAIService.analyzeIntent query).
Proof.
  split; [|split; [|reflexivity]].
  - unfold classifySpec, MockAIService.analyzeIntent, categoryRules, firstRule, actionVerbs.
    fold (longWords query). rewrite <- (some_mem_swap (longWords query)).
    cbn [existsb]. rewrite !orb_false_r.
    set (q := Js.toLowerCase query).
    destruct (Js.includes q "finance"), (Js.includes q "money"),
      (Js.includes q "security"), (Js.includes q "privacy"),
      (Js.includes q "productivity"), (Js.includes q "work"),
      (Js.includes q "entertainment"), (Js.includes q "music"), (Js.includes q "game");
      cbn [orb]; try reflexivity;
      destruct (existsb (fun x => Js.mem x ["find"; "show"; "get"; "need"]) (longWords query));
      reflexivity.
  - unfold MockAIService.analyzeIntent.
    repeat match goal with
    | |- context [if ?c then _ else _] => destruct c
    end; reflexivity.
Qed.

(** ** The plain relevance search *)

Section PlainSearchFacts.

Import Js RAGSearchService.

Local Open Scope Q_scope.

Lemma Qgtb_true (a b : Q) : Qgtb a b = true <-> b < a.
Proof.
  unfold Qgtb. rewrite negb_true_iff. split.
  - intros H. apply Qnot_le_lt. intros Hle. apply Qle_bool_iff in Hle. congruence.
  - intros H. destruct (Qle_bool a b) eqn:E; [|reflexivity].
    apply Qle_bool_iff in E. lra.
Qed.

Lemma Qgtb_false (a b : Q) : Qgtb a b = false <-> a <= b.
Proof.
  unfold Qgtb. rewrite negb_false_iff. apply Qle_bool_iff.
Qed.

Lemma byScoreDesc_Q_false a b :
  byScoreDesc a b = false <-> relevanceScore b <= relevanceScore a.
Proof. unfold byScoreDesc. rewrite Qgtb_false. split; intros; lra. Qed.

Lemma byScoreDesc_Q_true a b :
  byScoreDesc a b = true <-> relevanceScore a < relevanceScore b.
Proof. unfold byScoreDesc. rewrite Qgtb_true. split; intros; lra. Qed.

Lemma sorted_descending (l : list AISearchResult) : descending (sortBy byScoreDesc l).
Proof.
  unfold descending.
  apply StronglySorted_impl with (R := fun a b => byScoreDesc a b = false).
  - intros a b. apply byScoreDesc_Q_false.
  - apply sortBy_sorted.
    + intros x y. rewrite byScoreDesc_Q_true, byScoreDesc_Q_false. lra.
    + intros x y z. rewrite !byScoreDesc_Q_false. lra.
Qed.

Lemma termsFound_cons (text term : string) (terms : list string) :
  termsFound text (term :: terms)
  == (if includes text term then 1 else 0) + termsFound text terms.
Proof.
  unfold termsFound. cbn [filter]. destruct (includes text term).
  - cbn [List.length]. rewrite Nat2Z.inj_succ. unfold Z.succ. rewrite inject_Z_plus.
    change (inject_Z 1) with 1. ring.
  - ring.
Qed.

(** The loop over the terms adds the three weights once for each term
    found. *)
Lemma term_loop (name cat desc : string) (terms : list string) (score : Q) :
  fold_left
    (fun score term =>
       let score := if includes name term then score + 2 else score in
       let score := if includes cat term then score + 1.5 else score in
       if includes desc term then score + 1 else score)
    terms score
  == score + 2 * termsFound name terms + 1.5 * termsFound cat terms
     + 1 * termsFound desc terms.
Proof.
  revert score. induction terms as [|term terms IH]; intros score.
  - cbn [fold_left]. unfold termsFound. cbn. ring.
  - cbn [fold_left]. rewrite IH, !termsFound_cons. cbv zeta.
    destruct (includes name term), (includes cat term), (includes desc term); ring.
Qed.

Lemma calculateRelevanceScore_spec (app : CSVApp) (searchTerms : list string)
    (fullQuery : string) :
  calculateRelevanceScore app searchTerms fullQuery
  == Qmin (rawScoreSpec app searchTerms fullQuery / 10) 1.
Proof.
  unfold calculateRelevanceScore, rawScoreSpec. cbv zeta.
  set (name := toLowerCase (app_name app)).
  set (cat := toLowerCase (category app)).
  set (desc := toLowerCase (description app)).
  set (loop := fold_left _ _ _).
  assert (Hloop : loop ==
            (if includes desc fullQuery
             then (if includes cat fullQuery
                   then (if includes name fullQuery then 0 + 10 else 0) + 5
                   else if includes name fullQuery then 0 + 10 else 0) + 3
             else if includes cat fullQuery
                  then (if includes name fullQuery then 0 + 10 else 0) + 5
                  else if includes name fullQuery then 0 + 10 else 0)
            + 2 * termsFound name searchTerms + 1.5 * termsFound cat searchTerms
            + 1 * termsFound desc searchTerms)
    by apply term_loop.
  apply Q.min_compat; [|reflexivity].
  apply Qmult_comp; [|reflexivity].
  destruct (mem (category app) popularCategories); rewrite Hloop;
    destruct (includes name fullQuery), (includes cat fullQuery), (includes desc fullQuery);
    ring.
Qed.

Lemma calculateRelevanceScore_le_1 (app : CSVApp) (searchTerms : list string)
    (fullQuery : string) :
  calculateRelevanceScore app searchTerms fullQuery <= 1.
Proof. unfold calculateRelevanceScore. cbv zeta. apply Q.le_min_r. Qed.

(** The results of a query that is not blank, before and after the cut. *)
Lemma search_eq (csvData : list CSVApp) (query : string) (limit : option Z) :
  isBlank query = false ->
  search csvData query limit
  = slice0 (orDefault 10%Z limit)
      (sortBy byScoreDesc
         (map (fun app =>
                 resultOf app
                   (calculateRelevanceScore app (extractSearchTerms (toLowerCase query))
                      (toLowerCase query)))
              (filter (fun app =>
                         Qgtb (calculateRelevanceScore app
                                 (extractSearchTerms (toLowerCase query)) (toLowerCase query))
                              0.1)
                      csvData))).
Proof.
  intros Hq. unfold search. rewrite Hq. cbv zeta.
  rewrite (forEach_push
             (fun app =>
                Qgtb (calculateRelevanceScore app (extractSearchTerms (toLowerCase query))
                        (toLowerCase query)) 0.1)
             (fun app =>
                resultOf app
                  (calculateRelevanceScore app (extractSearchTerms (toLowerCase query))
                     (toLowerCase query)))).
  reflexivity.
Qed.

End PlainSearchFacts.

(** C8.  For every query and every application, the plain search scores the
    application with +10, +5 and +3 for the whole query found in the name,
    the category and the description, +2, +1.5 and +1 for each search term
    found in the name, the category and the description, and +0.5 for a
    category of the popular list; the sum is divided by 10 and capped at 1.
    Every result has a score above the threshold 0.1 (so none is below it)
    and is the row of an application of the catalogue; the output is in
    non-increasing order of score and, for a limit that is not negative, no
    longer than the limit, which is 10 when the caller gives none.  For a
    query that is not blank the output is the first [limit] rows of the
    sorted list of all applications above the threshold. *)
Theorem C8_plain_search (csvData : list CSVApp) (query : string) (limit : option Z) :
  let fullQuery := Js.toLowerCase query in
  let searchTerms := RAGSearchService.extractSearchTerms fullQuery in
  let scoreOf := fun app => RAGSearchService.calculateRelevanceScore app searchTerms fullQuery in
  let out := RAGSearchService.search csvData query limit in
  (forall app terms q,
     RAGSearchService.calculateRelevanceScore app terms q
     == Qmin (rawScoreSpec app terms q / 10) 1)
  /\ (forall r, In r out ->
        exists app,
          In app csvData
          /\ r = RAGSearchService.resultOf app (scoreOf app)
          /\ 0.1 < scoreOf app
          /\ scoreOf app <= 1)
  /\ descending out
  /\ ((0 <= RAGSearchService.orDefault 10%Z limit)%Z ->
      (List.length out <= Z.to_nat (RAGSearchService.orDefault 10%Z limit))%nat)
  /\ RAGSearchService.orDefault 10%Z None = 10%Z
  /\ (RAGSearchService.isBlank query = false ->
      out = Js.slice0 (RAGSearchService.orDefault 10%Z limit)
              (Js.sortBy RAGSearchService.byScoreDesc
                 (map (fun app => RAGSearchService.resultOf app (scoreOf app))
                      (filter (fun app => RAGSearchService.Qgtb (scoreOf app) 0.1) csvData)))).
Proof.
  intros fullQuery searchTerms scoreOf out.
  assert (Hcases : RAGSearchService.isBlank query = true /\ out = []
                   \/ RAGSearchService.isBlank query = false
                      /\ out = Js.slice0 (RAGSearchService.orDefault 10%Z limit)
                                 (Js.sortBy RAGSearchService.byScoreDesc
                                    (map (fun app => RAGSearchService.resultOf app (scoreOf app))
                                         (filter (fun app =>
                                                    RAGSearchService.Qgtb (scoreOf app) 0.1)
                                                 csvData)))).
  { destruct (RAGSearchService.isBlank query) eqn:Hq.
    - left. split; [reflexivity|]. unfold out, RAGSearchService.search. now rewrite Hq.
    - right. split; [reflexivity|]. now apply search_eq. }
  split; [intros app terms q; apply calculateRelevanceScore_spec|].
  split; [|split; [|split; [|split; [reflexivity|]]]].
  - intros r Hr. destruct Hcases as [[_ Hout] | [_ Hout]]; rewrite Hout in Hr.
    + contradiction.
    + apply slice0_incl, sortBy_In, in_map_iff in Hr. destruct Hr as [app [<- Happ]].
      apply filter_In in Happ. destruct Happ as [Hin Hgt].
      exists app. repeat split.
      * exact Hin.
      * now apply Qgtb_true.
      * apply calculateRelevanceScore_le_1.
  - destruct Hcases as [[_ Hout] | [_ Hout]]; rewrite Hout.
    + constructor.
    + unfold descending, Js.slice0.
      destruct (RAGSearchService.orDefault 10%Z limit <? 0)%Z;
        apply StronglySorted_firstn, sorted_descending.
  - intros Hlimit. destruct Hcases as [[_ Hout] | [_ Hout]]; rewrite Hout.
    + cbn. lia.
    + now apply slice0_length.
  - intros Hq. destruct Hcases as [[Hq' _] | [_ Hout]]; [congruence | exact Hout].
Qed.

(** The search for "Budget" with limit 1 on the two sample applications:
    one row at most. *)
Lemma C8_plain_search_witness :
  (List.length
     (RAGSearchService.search [SampleApps.budgetBuddy; SampleApps.notes] "Budget" (Some 1%Z))
   <= 1)%nat
  /\ map RAGSearchService.title
       (RAGSearchService.search [SampleApps.budgetBuddy; SampleApps.notes] "Budget" (Some 1%Z))
     = ["Budget Buddy"].
Proof.
  pose proof (C8_plain_search [SampleApps.budgetBuddy; SampleApps.notes] "Budget" (Some 1%Z))
    as H.
  cbv zeta in H. destruct H as (_ & _ & _ & Hlen & _ & Heq).
  split.
  - apply Hlen. cbn. lia.
  - rewrite Heq by reflexivity. reflexivity.
Defined.

(** ** The generative provider absorbs its failures *)

Section GeminiFacts.

Import Js GeminiAIService.

Lemma ids_length (n : nat) (apps : list CSVApp) :
  (List.length (ids (Z.of_nat n) apps) <= n)%nat.
Proof.
  unfold ids. rewrite length_map, slice0_firstn. apply firstn_le_length.
Qed.

Lemma generateSuggestedQueries_length (response : string) (apps : list CSVApp) :
  (List.length (generateSuggestedQueries response apps) <= 4)%nat.
Proof.
  unfold generateSuggestedQueries. cbv zeta.
  change 4%Z with (Z.of_nat 4). rewrite slice0_firstn. apply firstn_le_length.
Qed.

Lemma parseResponse_wellFormed (text : string) (apps : list CSVApp) :
  wellFormed (parseResponse text apps).
Proof.
  unfold wellFormed, parseResponse. cbv zeta.
  cbn [confidence relevantApps suggestedQueries].
  pose proof (ids_length 5 apps) as Hids.
  pose proof (generateSuggestedQueries_length text apps) as Hsugg.
  change (Z.of_nat 5) with 5%Z in Hids.
  repeat split; try lia;
    repeat match goal with
           | |- context [if ?c then _ else _] => destruct c
           end; unfold Qle; cbn; lia.
Qed.

Lemma failure_wellFormed (text : string) (c : Q) (apps : list CSVApp) :
  (0 <= c)%Q -> (c <= 1)%Q ->
  wellFormed {| answer := text; relevantApps := ids 3 apps;
                suggestedQueries := standardSuggestions; confidence := c |}.
Proof.
  intros H0 H1. unfold wellFormed. cbn [confidence relevantApps suggestedQueries].
  pose proof (ids_length 3 apps) as Hids. change (Z.of_nat 3) with 3%Z in Hids.
  repeat split; try assumption; cbn [List.length standardSuggestions]; lia.
Qed.

Lemma generateResponse_wellFormed model query csvData apps :
  wellFormed (generateResponse model query csvData apps).
Proof.
  unfold generateResponse. cbv zeta.
  destruct (model _) as [text | [message |]].
  - apply parseResponse_wellFormed.
  - destruct (includes message "CORS" || includes message "fetch");
      [|destruct (includes message "API key")];
      apply failure_wellFormed; unfold Qle; cbn; lia.
  - apply failure_wellFormed; unfold Qle; cbn; lia.
Qed.

End GeminiFacts.

(** C6.  For every query, generateResponse of the generative provider
    returns a well-formed answer and the promise never rejects, whatever the
    model call does.  When the call throws an Error whose message contains
    CORS or fetch, the answer is the fixed network warning with confidence
    0.8; when the message contains API key instead, it is the fixed API-key
    answer, another text, with confidence 0.1; for any other thrown Error
    the answer embeds the message of the error, with confidence 0.1; a
    thrown value that is no Error is reported as an unknown error, with
    confidence 0.1. *)
Theorem C6_generateResponse_absorbs_failure
    (model : string -> GeminiAIService.Outcome)
    (parseJson : string -> option Intent)
    (query : string) (csvData apps : list CSVApp) :
  let prompt := GeminiAIService.buildPrompt query (GeminiAIService.buildContext csvData apps) in
  let r := GeminiAIService.generateResponse model query csvData apps in
  p_generateResponse (GeminiAIService.provider model parseJson) query csvData apps = Some r
  /\ wellFormed r
  /\ (forall message,
        model prompt = GeminiAIService.Threw (GeminiAIService.ErrorObject message) ->
        Js.includes message "CORS" || Js.includes message "fetch" = true ->
        answer r = GeminiAIService.networkAnswer /\ confidence r = 0.8%Q)
  /\ (forall message,
        model prompt = GeminiAIService.Threw (GeminiAIService.ErrorObject message) ->
        Js.includes message "CORS" || Js.includes message "fetch" = false ->
        Js.includes message "API key" = true ->
        answer r = GeminiAIService.apiKeyAnswer /\ confidence r = 0.1%Q)
  /\ GeminiAIService.apiKeyAnswer <> GeminiAIService.networkAnswer
  /\ (forall message,
        model prompt = GeminiAIService.Threw (GeminiAIService.ErrorObject message) ->
        Js.includes message "CORS" || Js.includes message "fetch" = false ->
        Js.includes message "API key" = false ->
        answer r = "❌ AI Service Error: " ++ message
                   ++ ". Using fallback search results instead."
        /\ Js.includes (answer r) message = true
        /\ confidence r = 0.1%Q)
  /\ (model prompt = GeminiAIService.Threw GeminiAIService.OtherValue ->
      answer r = "❌ AI Service Error: Unknown error occurred. Using fallback search results instead."
      /\ confidence r = 0.1%Q).
Proof.
  intros prompt r.
  split; [reflexivity|].
  split; [apply generateResponse_wellFormed|].
  unfold r, GeminiAIService.generateResponse. cbv zeta. fold prompt.
  repeat split.
  - rewrite H. cbn. now rewrite H0.
  - rewrite H. cbn. now rewrite H0.
  - rewrite H. cbn. now rewrite H0, H1.
  - rewrite H. cbn. now rewrite H0, H1.
  - discriminate.
  - rewrite H. cbn. now rewrite H0, H1.
  - rewrite H. cbn. rewrite H0, H1.
    apply includes_spec.
    exists "❌ AI Service Error: ", ". Using fallback search results instead.".
    reflexivity.
  - rewrite H. cbn. now rewrite H0, H1.
  - rewrite H. reflexivity.
  - rewrite H. reflexivity.
Qed.

(** The model call fails with "Failed to fetch": the network warning comes
    back, with confidence 0.8. *)
Lemma C6_generateResponse_absorbs_failure_witness :
  answer (GeminiAIService.generateResponse offline "crm" [] []) = GeminiAIService.networkAnswer
  /\ confidence (GeminiAIService.generateResponse offline "crm" [] []) = 0.8%Q.
Proof.
  pose proof (C6_generateResponse_absorbs_failure offline (fun _ => None) "crm" [] []) as H.
  cbv zeta in H. destruct H as (_ & _ & Hnet & _).
  apply (Hnet "Failed to fetch"); reflexivity.
Defined.

(** ** The provider fallback *)

Section FallbackFacts.

Import Js RAGSearchService.

Variable geminiService : nat -> AIProvider.
Variable mockAIService : nat -> AIProvider.

Ltac split_calls :=
  repeat match goal with
         | |- context [match ?x with Some _ => _ | None => _ end] =>
             destruct x eqn:?; cbn
         end.

(** In DEGRADED a query leaves the flag and the count of generative calls
    as they are. *)
Lemma searchWithAI_degraded st query limit useAI :
  useGemini st = false ->
  let st' := fst (searchWithAI geminiService mockAIService st query limit useAI) in
  useGemini st' = false /\ geminiCalls st' = geminiCalls st.
Proof.
  intros Hd. unfold searchWithAI. cbv zeta. rewrite Hd.
  destruct (isBlank query), (orDefault true useAI); cbn; try (split; [exact Hd | reflexivity]).
  - unfold askMock. cbn. split_calls; split; (exact Hd || reflexivity).
  - unfold answerLocally, askMock. cbn. split_calls; split; (exact Hd || reflexivity).
Qed.

(** In DEGRADED the reply and the next state do not depend on the
    generative provider. *)
Lemma searchWithAI_degraded_independent (other : nat -> AIProvider) st query limit useAI :
  useGemini st = false ->
  searchWithAI other mockAIService st query limit useAI
  = searchWithAI geminiService mockAIService st query limit useAI.
Proof.
  intros Hd. unfold searchWithAI. cbv zeta. rewrite Hd. reflexivity.
Qed.

(** In DEGRADED a query that asks for the AI calls the local provider. *)
Lemma searchWithAI_degraded_local st query limit useAI :
  useGemini st = false ->
  orDefault true useAI = true ->
  let r := searchWithAI geminiService mockAIService st query limit useAI in
  (mockCalls st < mockCalls (fst r))%nat
  /\ answeredLocally mockAIService st query limit (snd r).
Proof.
  intros Hd Hai. unfold searchWithAI, answeredLocally. cbv zeta. rewrite Hd, Hai.
  destruct (isBlank query); cbn.
  - unfold askMock. cbn.
    destruct (p_generateWelcomeResponse (mockAIService (mockCalls st)) (csvData st));
      cbn; split; try lia; intros welcome Hw; congruence.
  - unfold answerLocally, askMock. cbn.
    destruct (p_analyzeIntent (mockAIService (mockCalls st)) query); cbn.
    + destruct (p_generateResponse (mockAIService (S (mockCalls st))) query (csvData st) _);
        cbn; split; try lia; intros intent response Hi Hr; congruence.
    + split; try lia. intros intent response Hi Hr; congruence.
Qed.

(** PRIMARY to DEGRADED: one query on which the generative provider fails. *)
Lemma searchWithAI_degrades st query limit useAI :
  useGemini st = true ->
  orDefault true useAI = true ->
  geminiFails geminiService st query limit ->
  let r := searchWithAI geminiService mockAIService st query limit useAI in
  useGemini (fst r) = false
  /\ snd r = snd (searchWithAI geminiService mockAIService (assignUseGemini false st)
                    query limit useAI)
  /\ answeredLocally mockAIService st query limit (snd r).
Proof.
  intros Hp Hai Hfail.
  pose proof (searchWithAI_degraded_local (assignUseGemini false st) query limit useAI
                eq_refl Hai) as Hlocal.
  cbv zeta in Hlocal. destruct Hlocal as [_ Hlocal].
  change (answeredLocally mockAIService (assignUseGemini false st) query limit)
    with (answeredLocally mockAIService st query limit) in Hlocal.
  assert (Hsame :
            searchWithAI geminiService mockAIService st query limit useAI
            = (let r := searchWithAI geminiService mockAIService (assignUseGemini false st)
                          query limit useAI in
               ({| csvData := csvData (fst r); useGemini := false;
                   geminiCalls := geminiCalls (fst r)
                                  + (if isBlank query then 1
                                     else match p_analyzeIntent
                                                  (geminiService (geminiCalls st)) query with
                                          | Some _ => 2
                                          | None => 1
                                          end);
                   mockCalls := mockCalls (fst r) |}, snd r))).
  { unfold geminiFails in Hfail. unfold searchWithAI. cbv zeta in *.
    rewrite Hp, Hai. cbn [useGemini assignUseGemini]. cbv iota.
    destruct (isBlank query); cbn.
    - unfold askGemini, askMock. cbn. rewrite Hfail. cbn.
      destruct (p_generateWelcomeResponse (mockAIService (mockCalls st)) (csvData st));
        cbn; repeat f_equal; lia.
    - unfold askGemini. cbn.
      destruct (p_analyzeIntent (geminiService (geminiCalls st)) query) as [intent|] eqn:Hi.
      + destruct Hfail as [Hfail | Hfail]; [discriminate|]. cbn. rewrite Hfail.
        unfold answerLocally, askMock. cbn. split_calls; repeat f_equal; lia.
      + unfold answerLocally, askMock. cbn. split_calls; repeat f_equal; lia. }
  rewrite Hsame. cbv zeta. cbn [fst snd useGemini]. repeat split. exact Hlocal.
Qed.

Lemma step_flag st c :
  useGemini (fst (step geminiService mockAIService st c))
  = if isReset c then true
    else match c with
         | CallSetUseGemini b => b
         | CallSearchWithAI query limit useAI =>
             useGemini (fst (searchWithAI geminiService mockAIService st query limit useAI))
         | _ => useGemini st
         end.
Proof.
  destruct c as [query limit useAI | | | | | query | | b | |]; cbn; try reflexivity.
  - destruct (searchWithAI _ _ _ _ _ _); reflexivity.
  - unfold getAISuggestions, askGemini. cbn. split_calls; reflexivity.
  - destruct b; reflexivity.
Qed.

(** DEGRADED is left by a reset only. *)
Lemma step_stays_degraded st c :
  useGemini st = false -> isReset c = false ->
  useGemini (fst (step geminiService mockAIService st c)) = false.
Proof.
  intros Hd Hc. rewrite step_flag, Hc.
  destruct c; try exact Hd.
  - now apply searchWithAI_degraded.
  - exact Hc.
Qed.

Lemma run_stays_degraded st calls :
  useGemini st = false -> forallb (fun c => negb (isReset c)) calls = true ->
  useGemini (fst (run geminiService mockAIService st calls)) = false.
Proof.
  revert st. induction calls as [|c calls IH]; intros st Hd Hcalls; [exact Hd|].
  cbn [forallb] in Hcalls. apply andb_true_iff in Hcalls. destruct Hcalls as [Hc Hcalls].
  apply negb_true_iff in Hc.
  cbn [run]. pose proof (step_stays_degraded st c Hd Hc) as Hstep.
  destruct (step geminiService mockAIService st c) as [st1 reply]. cbn [fst] in Hstep.
  specialize (IH st1 Hstep Hcalls).
  destruct (run geminiService mockAIService st1 calls) as [st2 replies]. exact IH.
Qed.

End FallbackFacts.

(** With the generative provider as it is written no call rejects (its
    methods catch what the model call throws), so a query leaves a service
    that is in PRIMARY in PRIMARY. *)
Lemma shipped_provider_stays_primary
    (model : nat -> string -> GeminiAIService.Outcome)
    (parseJson : string -> option Intent)
    (mockAIService : nat -> AIProvider)
    (st : RAGSearchService.State) (query : string) (limit : option Z) (useAI : option bool) :
  RAGSearchService.useGemini st = true ->
  RAGSearchService.useGemini
    (fst (RAGSearchService.searchWithAI
            (fun n => GeminiAIService.provider (model n) parseJson) mockAIService
            st query limit useAI)) = true.
Proof.
  intros Hp. unfold RAGSearchService.searchWithAI. cbv zeta. rewrite Hp.
  destruct (RAGSearchService.isBlank query), (RAGSearchService.orDefault true useAI);
    cbn; exact Hp.
Qed.

(** The local provider never rejects: the generic answer reads the first
    relevant application only when there is one. *)
Lemma mock_provider_answers (shuffle : list string -> list string)
    (query : string) (csvData apps : list CSVApp) :
  exists response,
    p_generateResponse (MockAIService.provider shuffle) query csvData apps = Some response
    /\ confidence response = 0.85%Q.
Proof.
  cbn [p_generateResponse MockAIService.provider].
  unfold MockAIService.generateResponse, MockAIService.generateContextualResponse.
  cbv zeta. destruct apps as [|app apps]; cbn [List.length Nat.eqb].
  - eexists. split; reflexivity.
  - repeat match goal with
           | |- context [if ?c then _ else _] => destruct c
           end;
      cbn [MockAIService.generateGenericResponse]; eexists; split; reflexivity.
Qed.

(** C1.  The fallback is a machine of two states, PRIMARY (useGemini true,
    the initial state) and DEGRADED (useGemini false).  In PRIMARY, one
    query on which a call to the generative provider fails leaves the
    service in DEGRADED, and the reply to that query is the reply the local
    provider gives to it.  From DEGRADED, through any calls other than
    retryWithGemini() and setUseGemini(true), the service stays in DEGRADED,
    and each query leaves the count of generative calls as it is, gets a
    reply that does not depend on the generative provider and, when it asks
    for the AI, is answered by the local provider.  A call that takes the
    service from DEGRADED to PRIMARY is retryWithGemini() or
    setUseGemini(true), and both do. *)
Theorem C1_fallback_state_machine (geminiService mockAIService : nat -> AIProvider) :
  (forall data, RAGSearchService.useGemini (RAGSearchService.initial data) = true)
  /\ (forall st query limit useAI,
        RAGSearchService.useGemini st = true ->
        RAGSearchService.orDefault true useAI = true ->
        geminiFails geminiService st query limit ->
        let r := RAGSearchService.searchWithAI geminiService mockAIService st query limit useAI in
        RAGSearchService.useGemini (fst r) = false
        /\ snd r = snd (RAGSearchService.searchWithAI geminiService mockAIService
                          (RAGSearchService.assignUseGemini false st) query limit useAI)
        /\ answeredLocally mockAIService st query limit (snd r))
  /\ (forall st calls,
        RAGSearchService.useGemini st = false ->
        forallb (fun c => negb (isReset c)) calls = true ->
        RAGSearchService.useGemini
          (fst (RAGSearchService.run geminiService mockAIService st calls)) = false)
  /\ (forall st calls query limit useAI,
        RAGSearchService.useGemini st = false ->
        forallb (fun c => negb (isReset c)) calls = true ->
        let st1 := fst (RAGSearchService.run geminiService mockAIService st calls) in
        let r := RAGSearchService.searchWithAI geminiService mockAIService st1 query limit useAI in
        RAGSearchService.geminiCalls (fst r) = RAGSearchService.geminiCalls st1
        /\ RAGSearchService.useGemini (fst r) = false
        /\ (forall other,
              RAGSearchService.searchWithAI other mockAIService st1 query limit useAI = r)
        /\ (RAGSearchService.orDefault true useAI = true ->
            (RAGSearchService.mockCalls st1 < RAGSearchService.mockCalls (fst r))%nat
            /\ answeredLocally mockAIService st1 query limit (snd r)))
  /\ (forall st c,
        RAGSearchService.useGemini st = false ->
        RAGSearchService.useGemini
          (fst (RAGSearchService.step geminiService mockAIService st c)) = true ->
        c = RAGSearchService.CallRetryWithGemini
        \/ c = RAGSearchService.CallSetUseGemini true)
  /\ (forall st,
        RAGSearchService.useGemini (RAGSearchService.retryWithGemini st) = true
        /\ RAGSearchService.useGemini (RAGSearchService.setUseGemini st true) = true).
Proof.
  split; [reflexivity|].
  split; [intros st query limit useAI; apply searchWithAI_degrades|].
  split; [intros st calls; apply run_stays_degraded|].
  split; [|split].
  - intros st calls query limit useAI Hd Hcalls st1 r.
    assert (Hd1 : RAGSearchService.useGemini st1 = false)
      by (apply run_stays_degraded; assumption).
    destruct (searchWithAI_degraded geminiService mockAIService st1 query limit useAI Hd1)
      as [Hflag Hcount].
    repeat split.
    + exact Hcount.
    + exact Hflag.
    + intros other. now apply searchWithAI_degraded_independent.
    + now apply searchWithAI_degraded_local.
    + now apply searchWithAI_degraded_local.
  - intros st c Hd Hp.
    destruct (isReset c) eqn:Hc.
    + destruct c; try discriminate.
      * cbn in Hc. subst. now right.
      * now left.
    + rewrite (step_stays_degraded geminiService mockAIService st c Hd Hc) in Hp.
      discriminate.
  - intros st. split; reflexivity.
Qed.

(** A generative provider that rejects every call: the first query on the
    sample catalogue leaves the service in DEGRADED. *)
Lemma C1_fallback_state_machine_witness :
  RAGSearchService.useGemini
    (fst (RAGSearchService.searchWithAI rejecting (fun _ => MockAIService.provider (fun l => l))
            (RAGSearchService.initial [SampleApps.budgetBuddy; SampleApps.notes])
            "budget" None None)) = false.
Proof.
  pose proof (C1_fallback_state_machine rejecting
                (fun _ => MockAIService.provider (fun l => l))) as H.
  destruct H as (_ & Hdegrade & _).
  apply Hdegrade.
  - reflexivity.
  - reflexivity.
  - left. reflexivity.
Defined.

(** C10.  For a query that is empty or white space only, with the AI asked
    for, searchWithAI returns no result and a welcome answer of confidence 1
    with exactly 4 suggested queries, in PRIMARY and in DEGRADED alike: the
    welcome of the generative provider (whether its model call returns or
    throws) and the welcome of the local provider, which answers in DEGRADED
    and when the generative call rejects, are all of that form. *)
Theorem C10_blank_query_welcome
    (model : nat -> string -> GeminiAIService.Outcome)
    (shuffle : nat -> list string -> list string)
    (geminiService : nat -> AIProvider)
    (st : RAGSearchService.State) (query : string) (limit : option Z) (useAI : option bool) :
  (forall n data,
     p_generateWelcomeResponse (geminiService n) data = None
     \/ p_generateWelcomeResponse (geminiService n) data
        = Some (GeminiAIService.generateWelcomeResponse (model n) data)) ->
  RAGSearchService.isBlank query = true ->
  RAGSearchService.orDefault true useAI = true ->
  exists welcome,
    snd (RAGSearchService.searchWithAI geminiService
           (fun n => MockAIService.provider (shuffle n)) st query limit useAI)
    = Some {| RAGSearchService.results := [];
              RAGSearchService.aiResponse := Some welcome;
              RAGSearchService.e_intent := None |}
    /\ confidence welcome == 1
    /\ List.length (suggestedQueries welcome) = 4%nat.
Proof.
  intros Hgemini Hblank Hai.
  unfold RAGSearchService.searchWithAI. cbv zeta. rewrite Hblank, Hai.
  destruct (RAGSearchService.useGemini st).
  - unfold RAGSearchService.askGemini. cbn.
    destruct (Hgemini (RAGSearchService.geminiCalls st) (RAGSearchService.csvData st))
      as [Hg | Hg]; rewrite Hg; cbn.
    + eexists. split; [reflexivity|]. split; reflexivity.
    + eexists. split; [reflexivity|].
      unfold GeminiAIService.generateWelcomeResponse. cbv zeta.
      destruct (model _ _); split; reflexivity.
  - cbn. eexists. split; [reflexivity|]. split; reflexivity.
Qed.

(** The empty query on the real wiring, the model call failing: the welcome
    comes back with confidence 1 and 4 suggested queries. *)
Lemma C10_blank_query_welcome_witness :
  exists welcome,
    snd (RAGSearchService.searchWithAI
           (fun _ => GeminiAIService.provider offline (fun _ => None))
           (fun _ => MockAIService.provider (fun l => l))
           (RAGSearchService.initial [SampleApps.budgetBuddy; SampleApps.notes])
           EmptyString None None)
    = Some {| RAGSearchService.results := [];
              RAGSearchService.aiResponse := Some welcome;
              RAGSearchService.e_intent := None |}
    /\ confidence welcome == 1
    /\ List.length (suggestedQueries welcome) = 4%nat.
Proof.
  apply (C10_blank_query_welcome (fun _ => offline) (fun _ l => l)
           (fun _ => GeminiAIService.provider offline (fun _ => None))).
  - intros n data. right. reflexivity.
  - reflexivity.
  - reflexivity.
Defined.

(** * Further properties of the services *)

(** ** Key terms, data types and intent of the discovery service *)

Section DiscoveryInputFacts.

Import Js AIDataDiscoveryService.

Lemma allChars_app (p : ascii -> bool) (a b : string) :
  allChars p (a ++ b) = allChars p a && allChars p b.
Proof.
  induction a as [|c a IH]; cbn [allChars append].
  - reflexivity.
  - now rewrite IH, andb_assoc.
Qed.

Lemma allChars_impl (p q : ascii -> bool) (s : string) :
  (forall c, p c = true -> q c = true) -> allChars p s = true -> allChars q s = true.
Proof.
  intros Hpq. induction s as [|c s IH]; cbn [allChars]; [reflexivity|].
  rewrite !andb_true_iff. intros [Hc Hs]. split; [now apply Hpq | now apply IH].
Qed.

Lemma allChars_map (p : ascii -> bool) (f : ascii -> ascii) (s : string) :
  (forall c, p (f c) = true) -> allChars p (map_chars f s) = true.
Proof.
  intros Hf. induction s as [|c s IH]; cbn [allChars map_chars]; [reflexivity|].
  now rewrite Hf, IH.
Qed.

(** The pieces of a split hold no white space, and nothing that the text
    did not hold. *)
Lemma split_ws_from_pieces (q : ascii -> bool) (in_run : bool) (cur s : string) :
  allChars (fun c => negb (is_space c) && q c) cur = true ->
  allChars q s = true ->
  Forall (fun piece => allChars (fun c => negb (is_space c) && q c) piece = true)
         (split_ws_from in_run cur s).
Proof.
  revert in_run cur. induction s as [|c s IH]; intros in_run cur Hcur Hs; cbn [split_ws_from].
  - constructor; [exact Hcur | constructor].
  - cbn [allChars] in Hs. apply andb_true_iff in Hs. destruct Hs as [Hc Hs].
    destruct (is_space c) eqn:Hsp.
    + destruct in_run.
      * now apply IH.
      * constructor; [exact Hcur|]. now apply IH.
    + apply IH; [|exact Hs].
      rewrite allChars_app, Hcur. cbn [allChars]. now rewrite Hsp, Hc.
Qed.

Lemma normalized_chars (query : string) :
  allChars (fun c => (is_word c || is_space c) && negb (is_upper c))
           (blankPunctuation (toLowerCase query)) = true.
Proof.
  unfold blankPunctuation, toLowerCase.
  induction query as [|c query IH]; cbn [allChars map_chars]; [reflexivity|].
  rewrite IH, andb_true_r.
  destruct c as [[] [] [] [] [] [] [] []]; reflexivity.
Qed.

Lemma lower_word_char (c : ascii) :
  negb (is_space c) && ((is_word c || is_space c) && negb (is_upper c)) = true ->
  isLowerWordChar c = true.
Proof.
  destruct c as [[] [] [] [] [] [] [] []]; cbn; intros H; (reflexivity || discriminate).
Qed.

End DiscoveryInputFacts.

(** X1.  Every key term that extractKeyTerms returns is at least 3
    characters long, is made of lower-case letters, digits and underscores
    only (no blank, no punctuation, no capital), and is no stop word. *)
Theorem X1_key_terms_are_clean_words (query term : string) :
  In term (AIDataDiscoveryService.extractKeyTerms query) ->
  (3 <= String.length term)%nat
  /\ allChars isLowerWordChar term = true
  /\ Js.mem term AIDataDiscoveryService.stopWords = false.
Proof.
  unfold AIDataDiscoveryService.extractKeyTerms. intros Hin.
  apply filter_In in Hin. destruct Hin as [Hpiece Hkeep].
  unfold AIDataDiscoveryService.keepTerm in Hkeep.
  apply andb_true_iff in Hkeep. destruct Hkeep as [Hlen Hstop].
  apply Nat.ltb_lt in Hlen. apply negb_true_iff in Hstop.
  split; [lia|]. split; [|exact Hstop].
  pose proof (split_ws_from_pieces
                (fun c => (Js.is_word c || Js.is_space c) && negb (Js.is_upper c))
                false EmptyString
                (AIDataDiscoveryService.blankPunctuation (Js.toLowerCase query))
                eq_refl (normalized_chars query)) as Hpieces.
  rewrite Forall_forall in Hpieces. specialize (Hpieces term Hpiece).
  eapply allChars_impl; [|exact Hpieces]. apply lower_word_char.
Qed.

Lemma X1_key_terms_are_clean_words_witness :
  (3 <= String.length "credit")%nat
  /\ allChars isLowerWordChar "credit" = true
  /\ Js.mem "credit" AIDataDiscoveryService.stopWords = false.
Proof.
  apply (X1_key_terms_are_clean_words "Find the Credit-Card, please!" "credit").
  vm_compute. left. reflexivity.
Defined.

Section DataTypeFacts.

Import Js AIDataDiscoveryService.

Lemma identifyDataTypes_eq (query : string) :
  identifyDataTypes query
  = map snd (filter (fun p => test_ci (fst p) query) dataTypePatterns).
Proof.
  unfold identifyDataTypes.
  exact (forEach_push (fun p => test_ci (fst p) query) snd dataTypePatterns []).
Qed.

Lemma NoDup_map_filter {A B : Type} (g : A -> B) (f : A -> bool) (l : list A) :
  NoDup (map g l) -> NoDup (map g (filter f l)).
Proof.
  induction l as [|x l IH]; cbn [map filter]; intros Hnd; [constructor|].
  inversion Hnd as [|? ? Hnotin Hnd']; subst.
  destruct (f x); [|now apply IH].
  cbn [map]. constructor; [|now apply IH].
  intros Hin. apply Hnotin. apply in_map_iff in Hin. destruct Hin as [y [Hy Hin]].
  apply filter_In in Hin. apply in_map_iff. exists y. tauto.
Qed.

Lemma NoDup_snd_unique {A B : Type} (l : list (A * B)) (a a' : A) (b : B) :
  NoDup (map snd l) -> In (a, b) l -> In (a', b) l -> a = a'.
Proof.
  induction l as [|[x y] l IH]; cbn [map snd]; intros Hnd Ha Ha'; [contradiction|].
  inversion Hnd as [|? ? Hnotin Hnd']; subst.
  destruct Ha as [Ha | Ha], Ha' as [Ha' | Ha'].
  - congruence.
  - injection Ha as -> ->. exfalso. apply Hnotin. apply in_map_iff. now exists (a', b).
  - injection Ha' as -> ->. exfalso. apply Hnotin. apply in_map_iff. now exists (a, b).
  - now apply IH.
Qed.

Lemma dataTypes_distinct : NoDup (map snd dataTypePatterns).
Proof.
  cbn. repeat constructor; cbn; intros H;
    repeat (destruct H as [H | H]; [discriminate|]); exact H.
Qed.

Lemma firstIntent_general (ps : list (list string * string)) (query : string) :
  Forall (fun p => snd p <> "General data search") ps ->
  firstIntent ps query = "General data search"
  <-> (forall p, In p ps -> test_ci (fst p) query = false).
Proof.
  induction 1 as [|[alts intent] ps Hp Hps IH]; cbn [firstIntent].
  - split; [intros _ p [] | reflexivity].
  - cbn [snd] in Hp. destruct (test_ci alts query) eqn:Htest.
    + split; [intros H; contradiction|].
      intros H. specialize (H (alts, intent) (or_introl eq_refl)). cbn [fst] in H. congruence.
    + rewrite IH. split.
      * intros H p [<- | Hin]; [exact Htest | now apply H].
      * intros H p Hin. apply H. now right.
Qed.

Lemma firstIntent_first (pre post : list (list string * string)) (alts : list string)
    (intent query : string) :
  (forall p, In p pre -> test_ci (fst p) query = false) ->
  test_ci alts query = true ->
  firstIntent (pre ++ (alts, intent) :: post) query = intent.
Proof.
  induction pre as [|[a i] pre IH]; intros Hpre Htest; cbn [app firstIntent].
  - now rewrite Htest.
  - pose proof (Hpre (a, i) (or_introl eq_refl)) as Ha. cbn [fst] in Ha. rewrite Ha.
    apply IH; [|exact Htest].
    intros p Hin. apply Hpre. now right.
Qed.

End DataTypeFacts.

(** X2.  identifyDataTypes returns each sensitive-data type at most once,
    and a type of its table is returned exactly when the lower-cased query
    contains one of the words of that type.  The words are looked for as
    substrings: a query that contains the letters cc anywhere (account,
    access) is taken for a credit-card query. *)
Theorem X2_data_types_detected (query : string) :
  NoDup (AIDataDiscoveryService.identifyDataTypes query)
  /\ (forall words type,
        In (words, type) AIDataDiscoveryService.dataTypePatterns ->
        (In type (AIDataDiscoveryService.identifyDataTypes query)
         <-> AIDataDiscoveryService.test_ci words query = true))
  /\ (Js.includes (Js.toLowerCase query) "cc" = true ->
      In "credit_card" (AIDataDiscoveryService.identifyDataTypes query)).
Proof.
  rewrite identifyDataTypes_eq.
  assert (Hiff : forall words type,
             In (words, type) AIDataDiscoveryService.dataTypePatterns ->
             (In type
                (map snd
                   (filter (fun p => AIDataDiscoveryService.test_ci (fst p) query)
                      AIDataDiscoveryService.dataTypePatterns))
              <-> AIDataDiscoveryService.test_ci words query = true)).
  { intros words type Hin. rewrite in_map_iff. split.
    - intros [[words' type'] [Heq Hf]]. cbn [snd] in Heq. subst type'.
      apply filter_In in Hf. destruct Hf as [Hin' Htest]. cbn [fst] in Htest.
      now rewrite (NoDup_snd_unique _ words words' type dataTypes_distinct Hin Hin').
    - intros Htest. exists (words, type). split; [reflexivity|].
      apply filter_In. split; [exact Hin | exact Htest]. }
  split; [apply NoDup_map_filter, dataTypes_distinct|].
  split; [exact Hiff|].
  intros Hcc.
  apply (Hiff ["credit card"; "card number"; "payment card"; "cc"] "credit_card").
  - now left.
  - unfold AIDataDiscoveryService.test_ci. cbn [existsb]. rewrite Hcc.
    now rewrite !orb_true_r.
Qed.

Lemma X2_data_types_detected_witness :
  In "credit_card" (AIDataDiscoveryService.identifyDataTypes "my account").
Proof.
  apply (proj2 (proj2 (X2_data_types_detected "my account"))). reflexivity.
Defined.

(** X3.  detectIntent returns the intent of the first pattern of its table
    that matches the query, whatever later patterns match, and it returns
    "General data search" exactly when no pattern matches. *)
Theorem X3_intent_first_match (query : string) :
  (AIDataDiscoveryService.detectIntent query = "General data search"
   <-> (forall p, In p AIDataDiscoveryService.intentPatterns ->
                  AIDataDiscoveryService.test_ci (fst p) query = false))
  /\ (forall pre words intent post,
        AIDataDiscoveryService.intentPatterns = (pre ++ (words, intent) :: post)%list ->
        (forall p, In p pre -> AIDataDiscoveryService.test_ci (fst p) query = false) ->
        AIDataDiscoveryService.test_ci words query = true ->
        AIDataDiscoveryService.detectIntent query = intent).
Proof.
  unfold AIDataDiscoveryService.detectIntent. split.
  - apply firstIntent_general.
    unfold AIDataDiscoveryService.intentPatterns.
    repeat constructor; cbn; discriminate.
  - intros pre words intent post Heq Hpre Htest. rewrite Heq.
    now apply firstIntent_first.
Qed.

(** A query about customer orders: the customer pattern stands before the
    order pattern and wins. *)
Lemma X3_intent_first_match_witness :
  AIDataDiscoveryService.detectIntent "customer orders" = "Find customer information".
Proof.
  apply (proj2 (X3_intent_first_match "customer orders")
           [(["credit card"; "payment"; "billing"; "card number"],
             "Find payment/credit card data")]
           ["customer"; "user"; "client"; "person"] "Find customer information"
           (tl (tl AIDataDiscoveryService.intentPatterns))).
  - reflexivity.
  - intros p [<- | []]. reflexivity.
  - reflexivity.
Defined.

(** ** The response of searchData *)

(** X4.  searchData does not look at the case of the query: two queries
    that differ only in the case of their letters get the same intent, the
    same suggestions, the same alternative queries and the same warnings. *)
Theorem X4_searchData_ignores_case
    (query query' : string)
    (dataSources : list AIDataDiscoveryService.DataSource)
    (tables : list AIDataDiscoveryService.DataTable)
    (applications : list AIDataDiscoveryService.Application) :
  Js.toLowerCase query = Js.toLowerCase query' ->
  let a := AIDataDiscoveryService.searchData query dataSources tables applications in
  let b := AIDataDiscoveryService.searchData query' dataSources tables applications in
  AIDataDiscoveryService.sr_intent a = AIDataDiscoveryService.sr_intent b
  /\ AIDataDiscoveryService.suggestions a = AIDataDiscoveryService.suggestions b
  /\ AIDataDiscoveryService.alternativeQueries a = AIDataDiscoveryService.alternativeQueries b
  /\ AIDataDiscoveryService.warnings a = AIDataDiscoveryService.warnings b.
Proof.
  intros Hcase. unfold AIDataDiscoveryService.searchData. cbv zeta.
  cbn [AIDataDiscoveryService.sr_intent AIDataDiscoveryService.suggestions
       AIDataDiscoveryService.alternativeQueries AIDataDiscoveryService.warnings].
  unfold AIDataDiscoveryService.generateAlternativeQueries.
  rewrite Hcase. repeat split.
Qed.

Lemma X4_searchData_ignores_case_witness :
  AIDataDiscoveryService.suggestions
    (AIDataDiscoveryService.searchData "Credit CARD" [] [Sample.customers] [Sample.portal])
  = AIDataDiscoveryService.suggestions
      (AIDataDiscoveryService.searchData "credit card" [] [Sample.customers] [Sample.portal]).
Proof.
  apply (X4_searchData_ignores_case "Credit CARD" "credit card" [] [Sample.customers]
           [Sample.portal] eq_refl).
Defined.

(** X5.  generateAlternativeQueries returns at most 5 phrases.  For a query
    that contains "credit card" (in any case) it returns the five payment
    phrases and nothing else: the three customer phrases are cut off even
    when customer is a key term.  For any other query it returns the three
    customer phrases when customer is a key term and nothing otherwise. *)
Theorem X5_alternative_queries (originalQuery : string) (keyTerms : list string) :
  let alternatives :=
    AIDataDiscoveryService.generateAlternativeQueries originalQuery keyTerms in
  (List.length alternatives <= 5)%nat
  /\ (Js.includes (Js.toLowerCase originalQuery) "credit card" = true ->
      alternatives
      = ["payment information"; "billing data"; "customer payment methods";
         "card number fields"; "financial transaction data"])
  /\ (Js.includes (Js.toLowerCase originalQuery) "credit card" = false ->
      alternatives
      = if Js.mem "customer" keyTerms
        then ["user profile data"; "client information"; "customer records"]
        else []).
Proof.
  unfold AIDataDiscoveryService.generateAlternativeQueries. cbv zeta.
  destruct (Js.includes (Js.toLowerCase originalQuery) "credit card");
    destruct (Js.mem "customer" keyTerms);
    (split; [apply Nat.leb_le; reflexivity|]); split; intros H;
    (discriminate H || reflexivity).
Qed.

Lemma X5_alternative_queries_witness :
  AIDataDiscoveryService.generateAlternativeQueries "customer Credit Card" ["customer"; "credit"; "card"]
  = ["payment information"; "billing data"; "customer payment methods";
     "card number fields"; "financial transaction data"].
Proof.
  apply (proj1 (proj2 (X5_alternative_queries "customer Credit Card"
                         ["customer"; "credit"; "card"]))).
  reflexivity.
Defined.

Section WarningFacts.

Import Js AIDataDiscoveryService.

Lemma filter_length_pos {A : Type} (p : A -> bool) (l : list A) :
  (0 <? List.length (filter p l))%nat = existsb p l.
Proof.
  induction l as [|x l IH]; cbn [filter existsb]; [reflexivity|].
  destruct (p x); cbn [List.length orb]; [reflexivity | exact IH].
Qed.

Lemma filter_length_zero {A : Type} (p : A -> bool) (l : list A) :
  (List.length (filter p l) =? 0)%nat = forallb (fun x => negb (p x)) l.
Proof.
  induction l as [|x l IH]; cbn [filter forallb]; [reflexivity|].
  destruct (p x); cbn [List.length negb andb]; [reflexivity | exact IH].
Qed.

(** The three warnings are three different texts. *)
Lemma warnings_distinct (n : nat) :
  sensitivityWarning n <> noExactWarning
  /\ sensitivityWarning n <> pciWarning
  /\ noExactWarning <> pciWarning.
Proof.
  unfold sensitivityWarning, noExactWarning, pciWarning. cbn [append].
  repeat split; discriminate.
Qed.

(** generateWarnings, as the three optional entries it is made of. *)
Lemma generateWarnings_eq (suggestions : list AISearchResult) :
  generateWarnings suggestions
  = ((if existsb r_sensitive suggestions
      then [sensitivityWarning (List.length (filter r_sensitive suggestions))] else [])
     ++ (if forallb (fun r => negb (isExact r)) suggestions then [noExactWarning] else [])
     ++ (if existsb isCardColumn suggestions then [pciWarning] else []))%list.
Proof.
  unfold generateWarnings. cbv zeta.
  rewrite !filter_length_pos, filter_length_zero.
  fold isCardColumn.
  change (fun s => isType TColumn s && test_ci ["card"; "payment"] (r_name s))
    with isCardColumn.
  destruct (existsb r_sensitive suggestions), (forallb _ suggestions),
    (existsb isCardColumn suggestions); reflexivity.
Qed.

End WarningFacts.

(** X6.  generateWarnings returns at most three warnings, in the fixed order
    sensitivity, missing exact match, PCI DSS, each present exactly when its
    condition holds: the sensitivity warning, which carries the number of
    sensitive suggestions, when at least one suggestion is sensitive; the
    missing-exact-match warning when no suggestion is an exact match (so
    also for an empty list); the PCI DSS warning when a column suggestion
    has card or payment in its name. *)
Theorem X6_warnings (suggestions : list AIDataDiscoveryService.AISearchResult) :
  let warnings := AIDataDiscoveryService.generateWarnings suggestions in
  let sensitive := List.length (filter AIDataDiscoveryService.r_sensitive suggestions) in
  (List.length warnings <= 3)%nat
  /\ (In (AIDataDiscoveryService.sensitivityWarning sensitive) warnings
      <-> (0 < sensitive)%nat)
  /\ (In AIDataDiscoveryService.noExactWarning warnings
      <-> forallb (fun r => negb (AIDataDiscoveryService.isExact r)) suggestions = true)
  /\ (In AIDataDiscoveryService.pciWarning warnings
      <-> existsb isCardColumn suggestions = true)
  /\ (exists sensitivity noExact pci,
        warnings = (sensitivity ++ noExact ++ pci)%list
        /\ (sensitivity = [] \/ sensitivity = [AIDataDiscoveryService.sensitivityWarning sensitive])
        /\ (noExact = [] \/ noExact = [AIDataDiscoveryService.noExactWarning])
        /\ (pci = [] \/ pci = [AIDataDiscoveryService.pciWarning])).
Proof.
  intros warnings sensitive. unfold warnings. rewrite generateWarnings_eq.
  fold sensitive.
  destruct (warnings_distinct sensitive) as [Hse [Hsp Hep]].
  assert (Hpos : existsb AIDataDiscoveryService.r_sensitive suggestions = true
                 <-> (0 < sensitive)%nat).
  { unfold sensitive. rewrite <- filter_length_pos. apply Nat.ltb_lt. }
  set (es := existsb AIDataDiscoveryService.r_sensitive suggestions) in *.
  set (fe := forallb (fun r => negb (AIDataDiscoveryService.isExact r)) suggestions).
  set (ep := existsb isCardColumn suggestions).
  split; [destruct es, fe, ep; cbn [app List.length]; lia|].
  split; [|split; [|split]].
  - rewrite <- Hpos. destruct es, fe, ep; cbn [app In]; split; intros H;
      try reflexivity; try discriminate; auto;
      repeat (destruct H as [H | H]; try (symmetry in H; contradiction));
      try contradiction.
  - destruct es, fe, ep; cbn [app In]; split; intros H;
      try reflexivity; try discriminate; auto;
      repeat (destruct H as [H | H]; try contradiction;
              try (symmetry in H; contradiction)).
  - destruct es, fe, ep; cbn [app In]; split; intros H;
      try reflexivity; try discriminate; auto;
      repeat (destruct H as [H | H]; try contradiction;
              try (symmetry in H; contradiction)).
  - eexists _, _, _. split; [reflexivity|].
    destruct es, fe, ep; auto.
Qed.

Lemma X6_warnings_witness :
  In AIDataDiscoveryService.pciWarning
     (AIDataDiscoveryService.generateWarnings [Sample.cardRow; Sample.customersRow]).
Proof.
  apply (X6_warnings [Sample.cardRow; Sample.customersRow]). reflexivity.
Defined.

(** ** Scores, match types and provenance of the suggestions *)

Section RowFacts.

Import Js AIDataDiscoveryService.

Lemma matchTerms_not_exact text pts place keyTerms t :
  matchType t <> Exact -> matchType (matchTerms text pts place keyTerms t) <> Exact.
Proof.
  unfold matchTerms. revert t.
  induction keyTerms as [|term keyTerms IH]; intros t Ht; cbn [fold_left]; [exact Ht|].
  destruct (includes text term); apply IH; [cbn; discriminate | exact Ht].
Qed.

Lemma matchTerms_score text pts place keyTerms t :
  score (matchTerms text pts place keyTerms t)
  = (score t + pts * Z.of_nat (List.length (filter (includes text) keyTerms)))%Z.
Proof.
  unfold matchTerms. revert t.
  induction keyTerms as [|term keyTerms IH]; intros t; cbn [fold_left filter].
  - cbn. lia.
  - destruct (includes text term); rewrite IH; cbn [score add tag List.length]; lia.
Qed.

Ltac tally_cases :=
  repeat match goal with
         | |- context [if ?c then _ else _] => destruct c eqn:?
         end;
  cbn [matchType score add tag].

Lemma scoreApplication_not_exact app keyTerms dataTypes :
  matchType (scoreApplication app keyTerms dataTypes) <> Exact.
Proof.
  unfold scoreApplication.
  match goal with
  | |- context [matchTerms ?text ?pts ?place ?kt ?t] =>
      pose proof (matchTerms_not_exact text pts place kt t) as H
  end.
  tally_cases; try discriminate; apply H; discriminate.
Qed.

Lemma scoreDataSource_not_exact ds keyTerms dataTypes :
  matchType (scoreDataSource ds keyTerms dataTypes) <> Exact.
Proof.
  unfold scoreDataSource.
  match goal with
  | |- context [matchTerms ?text ?pts ?place ?kt ?t] =>
      pose proof (matchTerms_not_exact text pts place kt t) as H
  end.
  tally_cases; try discriminate; apply H; discriminate.
Qed.

Lemma scoreTable_exact table keyTerms dataTypes :
  matchType (scoreTable table keyTerms dataTypes) = Exact ->
  mem "credit_card" dataTypes = true.
Proof.
  unfold scoreTable.
  match goal with
  | |- context [matchTerms ?text ?pts ?place ?kt ?t] =>
      pose proof (matchTerms_not_exact text pts place kt t) as H
  end.
  destruct (mem "credit_card" dataTypes); [reflexivity|].
  intros He. exfalso. apply H; [discriminate | exact He].
Qed.

Lemma scoreColumn_exact table column keyTerms dataTypes :
  matchType (scoreColumn table column keyTerms dataTypes) = Exact ->
  mem "credit_card" dataTypes = true.
Proof.
  unfold scoreColumn.
  match goal with
  | |- context [matchTerms ?text ?pts ?place ?kt ?t] =>
      pose proof (matchTerms_not_exact text pts place kt t) as H
  end.
  destruct (mem "credit_card" dataTypes); [reflexivity|].
  intros He. exfalso. apply H; [discriminate | exact He].
Qed.

(** Where a row of the discovery list comes from. *)
Lemma discover_origin dataSources tables applications keyTerms dataTypes r :
  In r (discover dataSources tables applications keyTerms dataTypes) ->
  (exists app,
      In app applications
      /\ r = applicationRow app (scoreApplication app keyTerms dataTypes))
  \/ (exists ds,
         In ds dataSources
         /\ r = dataSourceRow ds (scoreDataSource ds keyTerms dataTypes))
  \/ (exists table,
         In table tables
         /\ r = tableRow table (scoreTable table keyTerms dataTypes))
  \/ (exists table column,
         In table tables /\ In column (tbl_columns table)
         /\ r = columnRow table column (scoreColumn table column keyTerms dataTypes)).
Proof.
  rewrite discover_rows, !in_app_iff.
  unfold applicationRows, dataSourceRows, tableRows, columnRows.
  rewrite in_flat_map, !in_map_iff.
  intros [[x [<- H]] | [[x [<- H]] | [[x [<- H]] | [t [Ht H]]]]].
  - apply filter_In in H. left. exists x. tauto.
  - apply filter_In in H. right; left. exists x. tauto.
  - apply filter_In in H. right; right; left. exists x. tauto.
  - apply in_map_iff in H. destruct H as [x [<- H]]. apply filter_In in H.
    right; right; right. exists t, x. tauto.
Qed.

Lemma suggestions_in_discover query dataSources tables applications r :
  In r (suggestions (searchData query dataSources tables applications)) ->
  In r (discover dataSources tables applications
          (extractKeyTerms (toLowerCase query)) (identifyDataTypes (toLowerCase query))).
Proof.
  rewrite suggestions_eq. intros H. apply In_firstn in H. now apply sortBy_In in H.
Qed.

End RowFacts.

(** X7.  An exact match is a table or a column, and it arises only for a
    query that identifyDataTypes takes for a credit-card query; rows of
    applications and data sources are never exact.  So the response to any
    other query carries the warning about missing exact matches. *)
Theorem X7_exact_only_for_credit_card
    (query : string)
    (dataSources : list AIDataDiscoveryService.DataSource)
    (tables : list AIDataDiscoveryService.DataTable)
    (applications : list AIDataDiscoveryService.Application) :
  let response := AIDataDiscoveryService.searchData query dataSources tables applications in
  let dataTypes := AIDataDiscoveryService.identifyDataTypes (Js.toLowerCase query) in
  (forall r,
     In r (AIDataDiscoveryService.suggestions response) ->
     AIDataDiscoveryService.r_matchType r = AIDataDiscoveryService.Exact ->
     (AIDataDiscoveryService.r_type r = AIDataDiscoveryService.TTable
      \/ AIDataDiscoveryService.r_type r = AIDataDiscoveryService.TColumn)
     /\ Js.mem "credit_card" dataTypes = true)
  /\ (Js.mem "credit_card" dataTypes = false ->
      In AIDataDiscoveryService.noExactWarning (AIDataDiscoveryService.warnings response)).
Proof.
  intros response dataTypes.
  assert (Hexact : forall r,
             In r (AIDataDiscoveryService.suggestions response) ->
             AIDataDiscoveryService.r_matchType r = AIDataDiscoveryService.Exact ->
             (AIDataDiscoveryService.r_type r = AIDataDiscoveryService.TTable
              \/ AIDataDiscoveryService.r_type r = AIDataDiscoveryService.TColumn)
             /\ Js.mem "credit_card" dataTypes = true).
  { intros r Hin He. apply suggestions_in_discover, discover_origin in Hin.
    destruct Hin as [[x [_ ->]] | [[x [_ ->]] | [[x [_ ->]] | [t [x [_ [_ ->]]]]]]];
      cbn in He |- *.
    - now apply scoreApplication_not_exact in He.
    - now apply scoreDataSource_not_exact in He.
    - split; [now left | now apply scoreTable_exact in He].
    - split; [now right | now apply scoreColumn_exact in He]. }
  split; [exact Hexact|].
  intros Hcc. unfold response, AIDataDiscoveryService.searchData.
  cbn [AIDataDiscoveryService.warnings]. rewrite generateWarnings_eq.
  match goal with
  | |- context [forallb ?f ?l] => assert (Hall : forallb f l = true)
  end.
  { apply forallb_forall. intros r Hin. unfold AIDataDiscoveryService.isExact.
    destruct (AIDataDiscoveryService.r_matchType r) eqn:He; try reflexivity.
    destruct (Hexact r Hin He) as [_ H]. congruence. }
  cbv zeta in Hall. rewrite Hall. apply in_or_app. right. now left.
Qed.

Lemma X7_exact_only_for_credit_card_witness :
  In AIDataDiscoveryService.noExactWarning
     (AIDataDiscoveryService.warnings
        (AIDataDiscoveryService.searchData "customers" [] [Sample.customers] [Sample.portal])).
Proof.
  apply (proj2 (X7_exact_only_for_credit_card "customers" [] [Sample.customers]
                  [Sample.portal])).
  reflexivity.
Defined.

(** X8.  For a query that is not taken for a credit-card query, the score of
    an entity is the weight of its kind (30 for an application, 25 for a
    data source, 20 for a table, 15 for a column) times the number of key
    terms that occur in its text, and nothing else.  So a query without key
    terms (only stop words and short words, or empty) has no suggestion,
    and its one warning is the one about missing exact matches. *)
Theorem X8_scores_count_key_terms
    (query : string)
    (dataSources : list AIDataDiscoveryService.DataSource)
    (tables : list AIDataDiscoveryService.DataTable)
    (applications : list AIDataDiscoveryService.Application) :
  let keyTerms := AIDataDiscoveryService.extractKeyTerms (Js.toLowerCase query) in
  let dataTypes := AIDataDiscoveryService.identifyDataTypes (Js.toLowerCase query) in
  let found := fun text => Z.of_nat (List.length (filter (Js.includes text) keyTerms)) in
  Js.mem "credit_card" dataTypes = false ->
  (forall app,
     AIDataDiscoveryService.score
       (AIDataDiscoveryService.scoreApplication app keyTerms dataTypes)
     = (30 * found (Js.toLowerCase
                      (AIDataDiscoveryService.app_name app ++ " "
                       ++ AIDataDiscoveryService.app_description app ++ " "
                       ++ Js.join " " (AIDataDiscoveryService.app_tags app))))%Z)
  /\ (forall ds,
        AIDataDiscoveryService.score
          (AIDataDiscoveryService.scoreDataSource ds keyTerms dataTypes)
        = (25 * found (Js.toLowerCase
                         (AIDataDiscoveryService.ds_name ds ++ " "
                          ++ AIDataDiscoveryService.ds_description ds ++ " "
                          ++ Js.join " " (AIDataDiscoveryService.ds_tags ds) ++ " "
                          ++ AIDataDiscoveryService.ds_department ds)))%Z)
  /\ (forall table,
        AIDataDiscoveryService.score
          (AIDataDiscoveryService.scoreTable table keyTerms dataTypes)
        = (20 * found (Js.toLowerCase
                         (AIDataDiscoveryService.tbl_name table ++ " "
                          ++ AIDataDiscoveryService.tbl_description table ++ " "
                          ++ Js.join " " (AIDataDiscoveryService.tbl_tags table))))%Z)
  /\ (forall table column,
        AIDataDiscoveryService.score
          (AIDataDiscoveryService.scoreColumn table column keyTerms dataTypes)
        = (15 * found (Js.toLowerCase
                         (AIDataDiscoveryService.col_name column ++ " "
                          ++ AIDataDiscoveryService.or_empty
                               (AIDataDiscoveryService.col_description column) ++ " "
                          ++ AIDataDiscoveryService.col_type column)))%Z)
  /\ (keyTerms = [] ->
      AIDataDiscoveryService.suggestions
        (AIDataDiscoveryService.searchData query dataSources tables applications) = []
      /\ AIDataDiscoveryService.warnings
           (AIDataDiscoveryService.searchData query dataSources tables applications)
         = [AIDataDiscoveryService.noExactWarning]).
Proof.
  intros keyTerms dataTypes found Hcc.
  assert (Happ : forall app,
             AIDataDiscoveryService.score
               (AIDataDiscoveryService.scoreApplication app keyTerms dataTypes)
             = (30 * found (Js.toLowerCase
                              (AIDataDiscoveryService.app_name app ++ " "
                               ++ AIDataDiscoveryService.app_description app ++ " "
                               ++ Js.join " " (AIDataDiscoveryService.app_tags app))))%Z).
  { intros app. unfold AIDataDiscoveryService.scoreApplication. cbv zeta.
    rewrite Hcc, matchTerms_score. reflexivity. }
  assert (Hds : forall ds,
             AIDataDiscoveryService.score
               (AIDataDiscoveryService.scoreDataSource ds keyTerms dataTypes)
             = (25 * found (Js.toLowerCase
                              (AIDataDiscoveryService.ds_name ds ++ " "
                               ++ AIDataDiscoveryService.ds_description ds ++ " "
                               ++ Js.join " " (AIDataDiscoveryService.ds_tags ds) ++ " "
                               ++ AIDataDiscoveryService.ds_department ds)))%Z).
  { intros ds. unfold AIDataDiscoveryService.scoreDataSource. cbv zeta.
    rewrite Hcc, matchTerms_score. reflexivity. }
  assert (Htbl : forall table,
             AIDataDiscoveryService.score
               (AIDataDiscoveryService.scoreTable table keyTerms dataTypes)
             = (20 * found (Js.toLowerCase
                              (AIDataDiscoveryService.tbl_name table ++ " "
                               ++ AIDataDiscoveryService.tbl_description table ++ " "
                               ++ Js.join " " (AIDataDiscoveryService.tbl_tags table))))%Z).
  { intros table. unfold AIDataDiscoveryService.scoreTable. cbv zeta.
    rewrite Hcc, matchTerms_score. reflexivity. }
  assert (Hcol : forall table column,
             AIDataDiscoveryService.score
               (AIDataDiscoveryService.scoreColumn table column keyTerms dataTypes)
             = (15 * found (Js.toLowerCase
                              (AIDataDiscoveryService.col_name column ++ " "
                               ++ AIDataDiscoveryService.or_empty
                                    (AIDataDiscoveryService.col_description column) ++ " "
                               ++ AIDataDiscoveryService.col_type column)))%Z).
  { intros table column. unfold AIDataDiscoveryService.scoreColumn. cbv zeta.
    rewrite Hcc, matchTerms_score. reflexivity. }
  split; [exact Happ|]. split; [exact Hds|]. split; [exact Htbl|]. split; [exact Hcol|].
  intros Hkt.
  assert (Hnone : AIDataDiscoveryService.discover dataSources tables applications
                    keyTerms dataTypes = []).
  { destruct (AIDataDiscoveryService.discover dataSources tables applications
                keyTerms dataTypes) as [|r rest] eqn:Hd; [reflexivity|].
    assert (Hin : In r (AIDataDiscoveryService.discover dataSources tables applications
                          keyTerms dataTypes)) by (rewrite Hd; now left).
    pose proof (discover_positive _ _ _ _ _ _ Hin) as Hpos.
    apply discover_origin in Hin. unfold found in *. rewrite Hkt in *.
    destruct Hin as [[x [_ ->]] | [[x [_ ->]] | [[x [_ ->]] | [t [x [_ [_ ->]]]]]]];
      cbn in Hpos; [rewrite Happ in Hpos | rewrite Hds in Hpos
                    | rewrite Htbl in Hpos | rewrite Hcol in Hpos];
      cbn in Hpos; lia. }
  split.
  - rewrite suggestions_eq. fold keyTerms dataTypes. rewrite Hnone. reflexivity.
  - unfold AIDataDiscoveryService.searchData. cbv zeta.
    cbn [AIDataDiscoveryService.warnings].
    fold keyTerms dataTypes. rewrite Hnone. reflexivity.
Qed.

(** A query of stop words only: no suggestion. *)
Lemma X8_scores_count_key_terms_witness :
  AIDataDiscoveryService.suggestions
    (AIDataDiscoveryService.searchData "find the data" [] [Sample.customers] [Sample.portal])
  = [].
Proof.
  pose proof (X8_scores_count_key_terms "find the data" [] [Sample.customers] [Sample.portal])
    as H.
  cbv zeta in H. specialize (H eq_refl).
  destruct H as (_ & _ & _ & _ & H). apply H. reflexivity.
Defined.

(** X9.  Every suggestion of searchData is the row of an entity of the
    catalogue it was given: an application, a data source, a table, or a
    column of one of the tables, with the id, the name and the path of that
    entity.  A table row carries the stored flag of the table; a column row
    is sensitive when the column or its table is. *)
Theorem X9_suggestions_come_from_catalog
    (query : string)
    (dataSources : list AIDataDiscoveryService.DataSource)
    (tables : list AIDataDiscoveryService.DataTable)
    (applications : list AIDataDiscoveryService.Application)
    (r : AIDataDiscoveryService.AISearchResult) :
  In r (AIDataDiscoveryService.suggestions
          (AIDataDiscoveryService.searchData query dataSources tables applications)) ->
  (AIDataDiscoveryService.r_type r = AIDataDiscoveryService.TApplication
   /\ exists app,
        In app applications
        /\ AIDataDiscoveryService.r_id r = AIDataDiscoveryService.app_id app
        /\ AIDataDiscoveryService.r_name r = AIDataDiscoveryService.app_name app
        /\ AIDataDiscoveryService.r_path r
           = "Application: " ++ AIDataDiscoveryService.app_name app)
  \/ (AIDataDiscoveryService.r_type r = AIDataDiscoveryService.TDataSource
      /\ exists ds,
           In ds dataSources
           /\ AIDataDiscoveryService.r_id r = AIDataDiscoveryService.ds_id ds
           /\ AIDataDiscoveryService.r_name r = AIDataDiscoveryService.ds_name ds
           /\ AIDataDiscoveryService.r_path r
              = "Data Source: " ++ AIDataDiscoveryService.ds_name ds)
  \/ (AIDataDiscoveryService.r_type r = AIDataDiscoveryService.TTable
      /\ exists table,
           In table tables
           /\ AIDataDiscoveryService.r_id r = AIDataDiscoveryService.tbl_id table
           /\ AIDataDiscoveryService.r_name r = AIDataDiscoveryService.tbl_name table
           /\ AIDataDiscoveryService.r_path r
              = "Table: " ++ AIDataDiscoveryService.tbl_schema table ++ "."
                ++ AIDataDiscoveryService.tbl_name table
           /\ AIDataDiscoveryService.r_sensitive r
              = AIDataDiscoveryService.tbl_sensitive table)
  \/ (AIDataDiscoveryService.r_type r = AIDataDiscoveryService.TColumn
      /\ exists table column,
           In table tables
           /\ In column (AIDataDiscoveryService.tbl_columns table)
           /\ AIDataDiscoveryService.r_id r
              = AIDataDiscoveryService.tbl_id table ++ "_"
                ++ AIDataDiscoveryService.col_name column
           /\ AIDataDiscoveryService.r_name r = AIDataDiscoveryService.col_name column
           /\ AIDataDiscoveryService.r_path r
              = "Column: " ++ AIDataDiscoveryService.tbl_schema table ++ "."
                ++ AIDataDiscoveryService.tbl_name table ++ "."
                ++ AIDataDiscoveryService.col_name column
           /\ AIDataDiscoveryService.r_sensitive r
              = AIDataDiscoveryService.truthy (AIDataDiscoveryService.col_sensitive column)
                || AIDataDiscoveryService.tbl_sensitive table).
Proof.
  intros Hin. apply suggestions_in_discover, discover_origin in Hin.
  destruct Hin as [[x [Hx ->]] | [[x [Hx ->]] | [[x [Hx ->]] | [t [x [Ht [Hx ->]]]]]]].
  - left. split; [reflexivity|]. exists x. repeat split. exact Hx.
  - right; left. split; [reflexivity|]. exists x. repeat split. exact Hx.
  - right; right; left. split; [reflexivity|]. exists x. repeat split. exact Hx.
  - right; right; right. split; [reflexivity|]. exists t, x. repeat split; assumption.
Qed.

Lemma X9_suggestions_come_from_catalog_witness :
  exists table column,
    In table [Sample.customers]
    /\ In column (AIDataDiscoveryService.tbl_columns table)
    /\ AIDataDiscoveryService.r_name Sample.cardRow = AIDataDiscoveryService.col_name column.
Proof.
  destruct (X9_suggestions_come_from_catalog "credit card" [] [Sample.customers] []
              Sample.cardRow (or_introl eq_refl))
    as [[H _] | [[H _] | [[H _] | [_ [table [column H]]]]]]; try discriminate H.
  exists table, column. tauto.
Defined.

(** * Further properties of the providers *)

Section ProviderAnswerFacts.

Import Js.

(** A loop that pushes under a bound on the length keeps the bound. *)
Lemma bounded_push_length {A : Type} (limit : nat) (test : A -> bool) (item : A -> string)
    (xs : list A) (acc : list string) :
  (List.length acc <= limit)%nat ->
  (List.length
     (fold_left
        (fun acc x =>
           if test x && (List.length acc <? limit)%nat
           then (acc ++ [item x])%list else acc)
        xs acc) <= limit)%nat.
Proof.
  revert acc. induction xs as [|x xs IH]; intros acc Hacc; cbn [fold_left]; [exact Hacc|].
  apply IH. destruct (test x); cbn [andb]; [|exact Hacc].
  destruct (Nat.ltb_spec (List.length acc) limit); [|exact Hacc].
  rewrite length_app. cbn. lia.
Qed.

(** A loop that may push one item for each element. *)
Lemma guarded_push_length {A : Type} (test : list string -> bool) (item : A -> string)
    (xs : list A) (acc : list string) :
  let out :=
    fold_left (fun acc x => if test acc then (acc ++ [item x])%list else acc) xs acc in
  (List.length acc <= List.length out <= List.length acc + List.length xs)%nat.
Proof.
  revert acc. induction xs as [|x xs IH]; intros acc; cbn [fold_left List.length].
  - lia.
  - specialize (IH (if test acc then (acc ++ [item x])%list else acc)). cbv zeta in IH.
    destruct (test acc); [rewrite length_app in IH; cbn in IH|]; lia.
Qed.

Lemma slice0_all {A : Type} (e : Z) (xs : list A) :
  (Z.of_nat (List.length xs) <= e)%Z -> slice0 e xs = xs.
Proof.
  intros He. unfold slice0. destruct (Z.ltb_spec e 0); [lia|].
  apply firstn_all2. lia.
Qed.

End ProviderAnswerFacts.

(** X10.  parseResponse of the generative provider: the answer is the
    trimmed text and the referenced applications are the ids of the first 5
    relevant ones.  The confidence is 0.4 when the text (in any case) says
    "not sure" or "unclear", even beside a weaker hedge; failing that 0.6
    when it says "might", "possibly" or "perhaps"; and 0.8 otherwise.  The
    suggested queries are between 2 and 4, and "What are the most popular
    applications?" is always one of them. *)
Theorem X10_parseResponse (text : string) (apps : list CSVApp) :
  let r := GeminiAIService.parseResponse text apps in
  let lowerText := Js.toLowerCase text in
  let unsure := Js.includes lowerText "not sure" || Js.includes lowerText "unclear" in
  let hedged :=
    Js.includes lowerText "might" || Js.includes lowerText "possibly"
    || Js.includes lowerText "perhaps" in
  answer r = Js.trim text
  /\ relevantApps r = map app_id (firstn 5 apps)
  /\ confidence r = (if unsure then 0.4%Q else if hedged then 0.6%Q else 0.8%Q)
  /\ (2 <= List.length (suggestedQueries r) <= 4)%nat
  /\ In "What are the most popular applications?" (suggestedQueries r).
Proof.
  intros r lowerText unsure hedged.
  split; [reflexivity|].
  split; [unfold r, GeminiAIService.parseResponse, GeminiAIService.ids; cbv zeta;
          cbn [relevantApps]; change 5%Z with (Z.of_nat 5); now rewrite slice0_firstn|].
  split.
  { unfold r, GeminiAIService.parseResponse. cbv zeta. cbn [confidence].
    fold lowerText. fold hedged. fold unsure. destruct unsure, hedged; reflexivity. }
  unfold r, GeminiAIService.parseResponse. cbv zeta. cbn [suggestedQueries].
  unfold GeminiAIService.generateSuggestedQueries. cbv zeta.
  set (loop := fold_left _ _ _).
  assert (Hloop : (List.length loop <= 3)%nat).
  { apply (bounded_push_length 3
             (fun category => negb (String.eqb category EmptyString))
             (fun category => "Show me more " ++ Js.toLowerCase category ++ " applications")).
    cbn. lia. }
  assert (H4 : (List.length loop <? 4)%nat = true) by (apply Nat.ltb_lt; lia).
  rewrite H4. rewrite length_app. cbn [List.length].
  destruct (Nat.ltb_spec (List.length loop + 1) 4).
  - rewrite slice0_all by (rewrite !length_app; cbn [List.length]; lia).
    rewrite !length_app. cbn [List.length]. split; [lia|].
    apply in_or_app. left. apply in_or_app. right. now left.
  - rewrite slice0_all by (rewrite !length_app; cbn [List.length]; lia).
    rewrite !length_app. cbn [List.length]. split; [lia|].
    apply in_or_app. right. now left.
Qed.

(** X11.  generateSuggestions of the generative provider returns at most 5
    suggestions, none of them empty and none starting with a digit: the
    lines of the model's text are trimmed, and blank lines and lines that
    begin with a digit (a numbered list) are dropped, not renumbered.  When
    the model call throws, the four fixed suggestions come back. *)
Theorem X11_generated_suggestions
    (model : string -> GeminiAIService.Outcome) (query : string) (csvData : list CSVApp) :
  let suggestions := GeminiAIService.generateSuggestions model query csvData in
  (List.length suggestions <= 5)%nat
  /\ (forall line,
        In line suggestions ->
        line <> EmptyString
        /\ (forall c rest, line = String c rest -> Js.is_digit c = false))
  /\ (forall text,
        model (GeminiAIService.suggestionsPrompt query csvData) = GeminiAIService.Returned text ->
        forall line,
          In line suggestions ->
          In line (map Js.trim (Js.split_char (ascii_of_nat 10) text)))
  /\ (forall error,
        model (GeminiAIService.suggestionsPrompt query csvData) = GeminiAIService.Threw error ->
        suggestions
        = ["Show me productivity applications"; "Find finance and banking tools";
           "What entertainment apps are available?"; "Security and privacy applications"]).
Proof.
  intros suggestions. unfold suggestions, GeminiAIService.generateSuggestions.
  destruct (model (GeminiAIService.suggestionsPrompt query csvData)) as [text | error].
  - split; [change 5%Z with (Z.of_nat 5); rewrite slice0_firstn; apply firstn_le_length|].
    split; [|split; [|discriminate]].
    + intros line Hin. apply slice0_incl, filter_In in Hin. destruct Hin as [_ Hkeep].
      unfold GeminiAIService.keepLine in Hkeep.
      apply andb_true_iff in Hkeep. destruct Hkeep as [Hlen Hdigit].
      split.
      * intros ->. discriminate Hlen.
      * intros c rest ->. now apply negb_true_iff in Hdigit.
    + intros text' Heq line Hin. injection Heq as <-.
      apply slice0_incl, filter_In in Hin. tauto.
  - split; [cbn; lia|]. split; [|split; [discriminate|reflexivity]].
    intros line Hin. cbn in Hin.
    repeat (destruct Hin as [<- | Hin];
            [split; [discriminate | intros c rest H; injection H as <- _; reflexivity]|]).
    contradiction.
Qed.


Section MockFacts.

Import Js MockAIService.

Lemma mock_suggestions_length (shuffle : list string -> list string) (query : string)
    (csvData : list CSVApp) :
  (2 <= List.length (generateSuggestions shuffle query csvData) <= 4)%nat.
Proof.
  unfold generateSuggestions. cbv zeta.
  set (initial := if includes query "finance" then _ else _).
  assert (Hinit : List.length initial = 2%nat).
  { unfold initial. destruct (includes query "finance"), (includes query "security"),
      (includes query "productivity"); reflexivity. }
  set (picked := slice0 2 (shuffle (unique (map category csvData)))).
  assert (Hpicked : (List.length picked <= 2)%nat).
  { unfold picked. change 2%Z with (Z.of_nat 2). rewrite slice0_firstn.
    apply firstn_le_length. }
  pose proof (guarded_push_length (fun acc => (List.length acc <? 4)%nat)
                (fun category => "Explore " ++ category ++ " applications")
                picked initial) as Hloop.
  cbv zeta in Hloop.
  rewrite slice0_all by lia. lia.
Qed.

End MockFacts.

(** X12.  generateResponse of the local provider never rejects, whatever
    order the random comparator leaves the categories in.  Its answer has
    confidence 0.85, references the ids of the first 5 relevant
    applications and suggests between 2 and 4 queries; when there is no
    relevant application the answer quotes the query. *)
Theorem X12_local_response (shuffle : list string -> list string)
    (query : string) (csvData apps : list CSVApp) :
  exists r,
    MockAIService.generateResponse shuffle query csvData apps = Some r
    /\ confidence r = 0.85%Q
    /\ relevantApps r = map app_id (firstn 5 apps)
    /\ (2 <= List.length (suggestedQueries r) <= 4)%nat
    /\ wellFormed r
    /\ (apps = [] -> Js.includes (answer r) query = true).
Proof.
  unfold MockAIService.generateResponse. cbv zeta.
  assert (Hanswer : exists text,
             MockAIService.generateContextualResponse query apps = Some text
             /\ (apps = [] -> Js.includes text query = true)).
  { unfold MockAIService.generateContextualResponse. cbv zeta.
    destruct apps as [|app apps]; cbn [List.length Nat.eqb].
    - eexists. split; [reflexivity|]. intros _. apply includes_spec.
      exists ("I couldn't find any applications that directly match " ++ Js.dq).
      eexists. unfold Js.dq. cbn [append]. reflexivity.
    - repeat match goal with
             | |- context [if ?c then _ else _] => destruct c
             end;
        cbn [MockAIService.generateGenericResponse]; eexists;
        (split; [reflexivity | discriminate]). }
  destruct Hanswer as [text [-> Hquote]].
  pose proof (mock_suggestions_length shuffle (Js.toLowerCase query) csvData) as Hlen.
  assert (Hids : map app_id (Js.slice0 5 apps) = map app_id (firstn 5 apps))
    by (change 5%Z with (Z.of_nat 5); now rewrite slice0_firstn).
  eexists. split; [reflexivity|]. cbn [confidence relevantApps suggestedQueries answer].
  split; [reflexivity|]. split; [exact Hids|]. split; [exact Hlen|].
  split; [|exact Hquote].
  unfold wellFormed. cbn [confidence relevantApps suggestedQueries].
  rewrite Hids, length_map.
  pose proof (firstn_le_length 5 apps).
  repeat split; try lia; unfold Qle; cbn; lia.
Qed.

Lemma X12_local_response_witness :
  exists r,
    MockAIService.generateResponse (fun l => l) "zebra" [SampleApps.notes] [] = Some r
    /\ Js.includes (answer r) "zebra" = true.
Proof.
  destruct (X12_local_response (fun l => l) "zebra" [SampleApps.notes] [])
    as [r (Hr & _ & _ & _ & _ & Hq)].
  exists r. split; [exact Hr | now apply Hq].
Defined.

(** * Further properties of the search service *)

(** ** Categories and statistics *)

Section CatalogueFacts.

Import Js.

Lemma unique_from_In (seen xs : list string) (x : string) :
  In x (unique_from seen xs) <-> In x xs /\ ~ In x seen.
Proof.
  revert seen. induction xs as [|y xs IH]; intros seen; cbn [unique_from].
  - cbn. tauto.
  - destruct (mem y seen) eqn:Hy.
    + apply mem_true_iff in Hy. rewrite IH. cbn [In]. split.
      * intros [H1 H2]. tauto.
      * intros [[-> | H1] H2]; [contradiction | tauto].
    + assert (Hny : ~ In y seen) by (rewrite <- mem_true_iff; congruence).
      cbn [In]. rewrite IH. cbn [In]. split.
      * intros [-> | [H1 H2]]; [tauto|]. split; [tauto|]. intros H. apply H2. now right.
      * intros [[-> | H1] H2]; [now left|].
        destruct (String.eqb_spec y x) as [-> | Hne]; [now left|].
        right. split; [exact H1|]. intros [H | H]; [contradiction | now apply H2].
Qed.

Lemma unique_from_NoDup (seen xs : list string) : NoDup (unique_from seen xs).
Proof.
  revert seen. induction xs as [|y xs IH]; intros seen; cbn [unique_from].
  - constructor.
  - destruct (mem y seen); [apply IH|].
    constructor; [|apply IH].
    rewrite unique_from_In. cbn [In]. tauto.
Qed.

Lemma unique_In (xs : list string) (x : string) : In x (unique xs) <-> In x xs.
Proof. unfold unique. rewrite unique_from_In. cbn. tauto. Qed.

Lemma unique_NoDup (xs : list string) : NoDup (unique xs).
Proof. apply unique_from_NoDup. Qed.

Lemma ltb_true_iff (a b : string) : String.ltb a b = true <-> String_as_OT.lt a b.
Proof.
  rewrite <- String_as_OT.cmp_lt. unfold String.ltb, String_as_OT.cmp.
  destruct (String.compare a b); split; congruence.
Qed.

Lemma ltb_false_le (a b : string) :
  String.ltb b a = false <-> a = b \/ String.ltb a b = true.
Proof.
  unfold String.ltb. rewrite (String.compare_antisym b a).
  destruct (String.compare a b) eqn:Hc; cbn [CompOpp].
  - split; [intros _; left; now apply String.compare_eq_iff | reflexivity].
  - split; [intros _; now right | reflexivity].
  - split; [discriminate|]. intros [-> | H]; [|discriminate].
    assert (He : String_as_OT.cmp b b = Eq) by now apply String_as_OT.cmp_eq.
    unfold String_as_OT.cmp in He. congruence.
Qed.

Lemma ltb_trans (a b c : string) :
  String.ltb a b = true -> String.ltb b c = true -> String.ltb a c = true.
Proof.
  rewrite !ltb_true_iff. apply String_as_OT.lt_trans.
Qed.

Lemma sorted_strings (l : list string) :
  StronglySorted (fun a b => String.ltb b a = false) (sortBy (fun a b => String.ltb b a) l).
Proof.
  apply sortBy_sorted.
  - intros x y Hyx. apply ltb_false_le. right. exact Hyx.
  - intros x y z. rewrite !ltb_false_le.
    intros [-> | Hxy] [-> | Hyz]; auto. right. eapply ltb_trans; eassumption.
Qed.

Lemma sorted_NoDup_ascending (l : list string) :
  StronglySorted (fun a b => String.ltb b a = false) l -> NoDup l -> ascending l.
Proof.
  unfold ascending. induction 1 as [|x l Hs IH Hx]; intros Hnd; constructor.
  - apply IH. now inversion Hnd.
  - inversion Hnd as [|? ? Hnotin _]; subst.
    rewrite Forall_forall in *. intros y Hy.
    destruct (proj1 (ltb_false_le x y) (Hx y Hy)) as [-> | Hlt]; [contradiction | exact Hlt].
Qed.

(** Counting the rows of each category of a duplicate-free list that
    holds every category counts every row once. *)
Lemma count_by_category (data : list CSVApp) (cats : list string) :
  NoDup cats ->
  (forall app, In app data -> In (category app) cats) ->
  list_sum
    (map (fun cat => List.length (filter (fun app => String.eqb (category app) cat) data)) cats)
  = List.length data.
Proof.
  intros Hnd. induction data as [|app data IH]; intros Hall.
  - cbn [filter List.length]. clear. induction cats; cbn; [reflexivity | assumption].
  - cbn [List.length]. rewrite <- IH by (intros a Ha; apply Hall; now right).
    specialize (Hall app (or_introl eq_refl)).
    clear IH. induction cats as [|c cats IHc]; [contradiction|].
    inversion Hnd as [|? ? Hnotin Hnd']; subst.
    cbn [map list_sum filter].
    destruct (String.eqb_spec (category app) c) as [Heq | Hne].
    + cbn [List.length]. unfold list_sum. cbn [fold_right Nat.add]. do 3 f_equal.
      apply map_ext_in. intros c' Hc'.
      destruct (String.eqb_spec (category app) c') as [Heq' | _]; [|reflexivity].
      exfalso. apply Hnotin. congruence.
    + destruct Hall as [Hc | Hin]; [congruence|].
      specialize (IHc Hnd' Hin). cbn [filter] in IHc.
      unfold list_sum in *. cbn [fold_right]. rewrite IHc. lia.
Qed.

End CatalogueFacts.

(** X13.  getApplicationsByCategory returns, in catalogue order, one row
    with relevanceScore 1 for each application whose category is the given
    one up to the case of the letters, and nothing else; the case of the
    argument does not matter. *)
Theorem X13_applications_by_category (csvData : list CSVApp) (cat : string) :
  (forall r,
     In r (RAGSearchService.getApplicationsByCategory csvData cat)
     <-> exists app,
           In app csvData
           /\ Js.toLowerCase (category app) = Js.toLowerCase cat
           /\ r = RAGSearchService.resultOf app 1.0%Q)
  /\ RAGSearchService.getApplicationsByCategory csvData (Js.toLowerCase cat)
     = RAGSearchService.getApplicationsByCategory csvData cat
  /\ map RAGSearchService.id (RAGSearchService.getApplicationsByCategory csvData cat)
     = map app_id
         (filter (fun app => String.eqb (Js.toLowerCase (category app)) (Js.toLowerCase cat))
                 csvData).
Proof.
  unfold RAGSearchService.getApplicationsByCategory. split; [|split].
  - intros r. rewrite in_map_iff. split.
    + intros [app [<- Hin]]. apply filter_In in Hin. destruct Hin as [Hin Heq].
      apply String.eqb_eq in Heq. now exists app.
    + intros [app [Hin [Heq ->]]]. exists app. split; [reflexivity|].
      apply filter_In. split; [exact Hin | now apply String.eqb_eq].
  - now rewrite toLowerCase_idem.
  - rewrite map_map. reflexivity.
Qed.

Lemma getCategories_members (csvData : list CSVApp) :
  NoDup (RAGSearchService.getCategories csvData)
  /\ (forall cat,
        In cat (RAGSearchService.getCategories csvData)
        <-> exists app, In app csvData /\ category app = cat).
Proof.
  unfold RAGSearchService.getCategories. split.
  - eapply Permutation_NoDup; [apply sortBy_perm | apply unique_NoDup].
  - intros cat. rewrite sortBy_In, unique_In, in_map_iff. split.
    + intros [app [Heq Hin]]. now exists app.
    + intros [app [Hin Heq]]. now exists app.
Qed.

(** X14.  getCategories returns the categories of the catalogue in strictly
    ascending order of their strings, so each of them once; a string is
    returned exactly when it is the category of an application. *)
Theorem X14_categories_sorted (csvData : list CSVApp) :
  ascending (RAGSearchService.getCategories csvData)
  /\ NoDup (RAGSearchService.getCategories csvData)
  /\ (forall cat,
        In cat (RAGSearchService.getCategories csvData)
        <-> exists app, In app csvData /\ category app = cat).
Proof.
  destruct (getCategories_members csvData) as [Hnd Hin].
  split; [|split; [exact Hnd | exact Hin]].
  apply sorted_NoDup_ascending; [apply sorted_strings | exact Hnd].
Qed.

(** X15.  getStatistics is consistent: totalApplications is the number of
    rows, totalCategories the number of distinct categories, the breakdown
    lists the categories of getCategories in order, every count in it is at
    least 1, and the counts add up to totalApplications. *)
Theorem X15_statistics_add_up (csvData : list CSVApp) :
  let stats := RAGSearchService.getStatistics csvData in
  RAGSearchService.totalApplications stats = List.length csvData
  /\ RAGSearchService.totalCategories stats
     = List.length (RAGSearchService.getCategories csvData)
  /\ map fst (RAGSearchService.categoryBreakdown stats)
     = RAGSearchService.getCategories csvData
  /\ (forall cat count,
        In (cat, count) (RAGSearchService.categoryBreakdown stats) -> (1 <= count)%nat)
  /\ list_sum (map snd (RAGSearchService.categoryBreakdown stats))
     = RAGSearchService.totalApplications stats.
Proof.
  intros stats. unfold stats, RAGSearchService.getStatistics. cbv zeta.
  cbn [RAGSearchService.totalApplications RAGSearchService.totalCategories
       RAGSearchService.categoryBreakdown].
  destruct (getCategories_members csvData) as [Hnd Hin].
  split; [reflexivity|]. split; [reflexivity|].
  split; [rewrite map_map; cbn [fst]; apply map_id|].
  split.
  - intros cat count Hc. apply in_map_iff in Hc. destruct Hc as [c [Heq Hc]].
    injection Heq as -> <-. apply Hin in Hc. destruct Hc as [app [Happ Hcat]].
    apply (filter_In_length _ app); [exact Happ | now apply String.eqb_eq].
  - rewrite map_map. cbn [snd]. apply count_by_category; [exact Hnd|].
    intros app Happ. apply Hin. now exists app.
Qed.

(** ** Recommendations and relevant applications *)

Section RecommendationFacts.

Import Js RAGSearchService.

(** What holds of an accumulator before a loop and is kept by each round
    holds after the loop. *)
Lemma fold_left_Forall {A B : Type} (P : B -> Prop) (step : list B -> A -> list B)
    (xs : list A) (acc : list B) :
  (forall acc x, In x xs -> Forall P acc -> Forall P (step acc x)) ->
  Forall P acc -> Forall P (fold_left step xs acc).
Proof.
  revert acc. induction xs as [|x xs IH]; intros acc Hstep Hacc; cbn [fold_left].
  - exact Hacc.
  - apply IH.
    + intros acc' y Hy. apply Hstep. now right.
    + apply Hstep; [now left | exact Hacc].
Qed.

Lemma search_results_from_catalogue (data : list CSVApp) (query : string) (limit : option Z)
    (r : AISearchResult) :
  In r (search data query limit) ->
  exists app score, In app data /\ r = resultOf app score.
Proof.
  destruct (isBlank query) eqn:Hq.
  - unfold search. rewrite Hq. contradiction.
  - rewrite search_eq by exact Hq. intros Hin.
    apply slice0_incl, sortBy_In, in_map_iff in Hin. destruct Hin as [app [<- Hin]].
    apply filter_In in Hin. eexists app, _. split; [tauto | reflexivity].
Qed.

Lemma relevantAppsOf_ids (data : list CSVApp) (results : list AISearchResult) :
  (forall r, In r results -> exists app, In app data /\ app_id app = id r) ->
  map app_id (relevantAppsOf data results) = map id results.
Proof.
  unfold relevantAppsOf. induction results as [|r results IH]; intros Hall; [reflexivity|].
  cbn [flat_map map]. rewrite map_app, IH by (intros r' Hr'; apply Hall; now right).
  destruct (Hall r (or_introl eq_refl)) as [app [Hin Hid]].
  destruct (find (fun app => String.eqb (app_id app) (id r)) data) as [found|] eqn:Hfind.
  - apply find_some in Hfind. destruct Hfind as [_ Heq]. apply String.eqb_eq in Heq.
    cbn [map List.app]. now rewrite Heq.
  - exfalso. pose proof (find_none _ _ Hfind app Hin) as Hne. cbn in Hne.
    rewrite Hid, String.eqb_refl in Hne. discriminate.
Qed.

End RecommendationFacts.

(** X16.  getRecommendations never recommends the application it was asked
    about, recommends only applications of the catalogue, returns nothing
    for an id the catalogue does not hold, and returns at most [limit]
    rows (5 when no limit is given) for a limit that is not negative. *)
Theorem X16_recommendations (csvData : list CSVApp) (appId : string) (limit : option Z) :
  let out := RAGSearchService.getRecommendations csvData appId limit in
  (forall r,
     In r out ->
     RAGSearchService.id r <> appId
     /\ exists app score, In app csvData /\ r = RAGSearchService.resultOf app score)
  /\ ((forall app, In app csvData -> app_id app <> appId) -> out = [])
  /\ ((0 <= RAGSearchService.orDefault 5%Z limit)%Z ->
      (List.length out <= Z.to_nat (RAGSearchService.orDefault 5%Z limit))%nat).
Proof.
  intros out. unfold out, RAGSearchService.getRecommendations. cbv zeta.
  destruct (find (fun app => String.eqb (app_id app) appId) csvData) as [target|] eqn:Hfind.
  - split; [|split].
    + intros r Hin. apply slice0_incl, sortBy_In in Hin. revert r Hin.
      apply Forall_forall. apply fold_left_Forall; [|constructor].
      intros acc app Happ Hacc.
      destruct (String.eqb_spec (app_id app) appId) as [Heq | Hne]; [exact Hacc|].
      match goal with
      | |- context [if ?c then _ else _] => destruct c
      end; [|exact Hacc].
      apply Forall_app. split; [exact Hacc|]. constructor; [|constructor].
      split; [exact Hne|]. eexists app, _. split; [exact Happ | reflexivity].
    + intros Hnone. apply find_some in Hfind. destruct Hfind as [Hin Heq].
      apply String.eqb_eq in Heq. now apply Hnone in Hin.
    + intros Hlimit. now apply slice0_length.
  - split; [intros r []|]. split; [reflexivity|]. intros _. cbn. lia.
Qed.

Lemma X16_recommendations_witness :
  RAGSearchService.getRecommendations [SampleApps.budgetBuddy; SampleApps.notes] "7" None = [].
Proof.
  apply (proj1 (proj2 (X16_recommendations [SampleApps.budgetBuddy; SampleApps.notes]
                         "7" None))).
  intros app [<- | [<- | []]]; discriminate.
Defined.

(** X17.  The applications that searchWithAI hands to the provider match
    the results of the search one for one: the ids of the relevant
    applications are the ids of the results, in the same order (an id that
    several rows share is resolved to the first row that has it). *)
Theorem X17_relevant_apps_match_results (csvData : list CSVApp) (query : string)
    (limit : option Z) :
  let results := RAGSearchService.search csvData query limit in
  map app_id (RAGSearchService.relevantAppsOf csvData results)
  = map RAGSearchService.id results
  /\ (forall app,
        In app (RAGSearchService.relevantAppsOf csvData results) -> In app csvData).
Proof.
  intros results. split.
  - apply relevantAppsOf_ids. intros r Hr.
    destruct (search_results_from_catalogue _ _ _ _ Hr) as [app [score [Hin ->]]].
    now exists app.
  - intros app Hin. unfold RAGSearchService.relevantAppsOf in Hin.
    apply in_flat_map in Hin. destruct Hin as [r [_ Hin]].
    destruct (find _ csvData) as [found|] eqn:Hfind; [|contradiction].
    apply find_some in Hfind. destruct Hin as [<- | []]. tauto.
Qed.

(** ** The plain search: case, limit and scores *)

Section PlainSearchInputFacts.

Import Js RAGSearchService.

Lemma is_space_lower_char (c : ascii) : is_space (lower_char c) = is_space c.
Proof.
  destruct c as [b0 b1 b2 b3 b4 b5 b6 b7].
  destruct b0, b1, b2, b3, b4, b5, b6, b7; reflexivity.
Qed.

Lemma trimStart_map_chars (f : ascii -> ascii) (s : string) :
  (forall c, is_space (f c) = is_space c) ->
  trimStart (map_chars f s) = map_chars f (trimStart s).
Proof.
  intros Hf. induction s as [|c s IH]; cbn [map_chars trimStart]; [reflexivity|].
  rewrite Hf. now destruct (is_space c).
Qed.

Lemma trimEnd_map_chars (f : ascii -> ascii) (s : string) :
  (forall c, is_space (f c) = is_space c) ->
  trimEnd (map_chars f s) = map_chars f (trimEnd s).
Proof.
  intros Hf. induction s as [|c s IH]; cbn [map_chars trimEnd]; [reflexivity|].
  rewrite IH, Hf. destruct (trimEnd s); cbn [map_chars]; [|reflexivity].
  now destruct (is_space c).
Qed.

Lemma length_map_chars (f : ascii -> ascii) (s : string) :
  String.length (map_chars f s) = String.length s.
Proof. induction s as [|c s IH]; cbn; [reflexivity | now rewrite IH]. Qed.

Lemma trim_toLowerCase (s : string) : trim (toLowerCase s) = toLowerCase (trim s).
Proof.
  unfold trim, toLowerCase.
  rewrite trimStart_map_chars, trimEnd_map_chars by apply is_space_lower_char.
  reflexivity.
Qed.

Lemma isBlank_toLowerCase (query : string) : isBlank (toLowerCase query) = isBlank query.
Proof.
  unfold isBlank. rewrite trim_toLowerCase. unfold toLowerCase.
  now rewrite length_map_chars.
Qed.

Lemma termsFound_nonneg (text : string) (terms : list string) : (0 <= termsFound text terms)%Q.
Proof. unfold termsFound, Qle. cbn. lia. Qed.

Lemma termsFound_pos (text term : string) (terms : list string) :
  In term terms -> includes text term = true -> (1 <= termsFound text terms)%Q.
Proof.
  intros Hin Hinc. induction terms as [|t terms IH]; [contradiction|].
  rewrite termsFound_cons. pose proof (termsFound_nonneg text terms) as H0.
  destruct Hin as [-> | Hin].
  - rewrite Hinc. lra.
  - specialize (IH Hin). destruct (includes text t); lra.
Qed.

Lemma rawScoreSpec_bounds (app : CSVApp) (searchTerms : list string) (fullQuery : string) :
  (2 * termsFound (toLowerCase (app_name app)) searchTerms
   + (if includes (toLowerCase (app_name app)) fullQuery then 10 else 0)
   <= rawScoreSpec app searchTerms fullQuery)%Q.
Proof.
  unfold rawScoreSpec.
  pose proof (termsFound_nonneg (toLowerCase (category app)) searchTerms).
  pose proof (termsFound_nonneg (toLowerCase (description app)) searchTerms).
  repeat match goal with
         | |- context [if ?c then _ else _] => destruct c
         end; lra.
Qed.

End PlainSearchInputFacts.

(** X18.  The plain search ignores the case of the query: two queries that
    are equal once lowered give the same results, with the same scores, in
    the same order. *)
Theorem X18_search_ignores_case (csvData : list CSVApp) (query query' : string)
    (limit : option Z) :
  Js.toLowerCase query = Js.toLowerCase query' ->
  RAGSearchService.search csvData query limit = RAGSearchService.search csvData query' limit.
Proof.
  intros Heq. unfold RAGSearchService.search. cbv zeta.
  rewrite <- (isBlank_toLowerCase query), <- (isBlank_toLowerCase query'), Heq.
  reflexivity.
Qed.

Lemma X18_search_ignores_case_witness :
  RAGSearchService.search [SampleApps.budgetBuddy; SampleApps.notes] "BUDGET Buddy" None
  = RAGSearchService.search [SampleApps.budgetBuddy; SampleApps.notes] "budget buddy" None.
Proof.
  apply (X18_search_ignores_case [SampleApps.budgetBuddy; SampleApps.notes]
           "BUDGET Buddy" "budget buddy" None).
  reflexivity.
Defined.

(** X19.  Raising the limit of the plain search only adds rows at the end:
    for limits 0 <= n <= m the results with limit n are the first n results
    with limit m.  A limit that is not below the number of rows of the
    catalogue cuts nothing. *)
Theorem X19_search_limit_prefix (csvData : list CSVApp) (query : string) (n m : Z) :
  (0 <= n <= m)%Z ->
  RAGSearchService.search csvData query (Some n)
  = firstn (Z.to_nat n) (RAGSearchService.search csvData query (Some m))
  /\ ((Z.of_nat (List.length csvData) <= m)%Z ->
      forall k, (m <= k)%Z ->
      RAGSearchService.search csvData query (Some k)
      = RAGSearchService.search csvData query (Some m)).
Proof.
  intros Hnm. destruct (RAGSearchService.isBlank query) eqn:Hq.
  - unfold RAGSearchService.search. rewrite Hq. split; [now rewrite firstn_nil | reflexivity].
  - rewrite !search_eq by exact Hq. cbn [RAGSearchService.orDefault].
    set (rows := Js.sortBy RAGSearchService.byScoreDesc _).
    split.
    + unfold Js.slice0.
      destruct (Z.ltb_spec n 0); [lia|]. destruct (Z.ltb_spec m 0); [lia|].
      rewrite firstn_firstn. f_equal. lia.
    + intros Hm k Hk. rewrite search_eq by exact Hq. cbn [RAGSearchService.orDefault].
      fold rows.
      assert (Hlen : (List.length rows <= List.length csvData)%nat).
      { unfold rows. rewrite <- (Permutation_length (sortBy_perm _ _)), length_map.
        apply filter_length_le. }
      rewrite !slice0_all by lia. reflexivity.
Qed.

Lemma X19_search_limit_prefix_witness :
  RAGSearchService.search [SampleApps.budgetBuddy; SampleApps.notes] "budget notes" (Some 1%Z)
  = firstn 1
      (RAGSearchService.search [SampleApps.budgetBuddy; SampleApps.notes] "budget notes"
         (Some 2%Z)).
Proof.
  apply (proj1 (X19_search_limit_prefix [SampleApps.budgetBuddy; SampleApps.notes]
                  "budget notes" 1%Z 2%Z ltac:(lia))).
Defined.

(** X20.  The score of the plain search lies between 0 and 1; it is 1 for
    an application whose lowered name contains the whole query, and at least
    0.2 (above the 0.1 threshold) as soon as the lowered name contains one
    search term. *)
Theorem X20_relevance_score_range (app : CSVApp) (searchTerms : list string)
    (fullQuery : string) :
  let score := RAGSearchService.calculateRelevanceScore app searchTerms fullQuery in
  (0 <= score <= 1)%Q
  /\ (Js.includes (Js.toLowerCase (app_name app)) fullQuery = true -> (score == 1)%Q)
  /\ (forall term,
        In term searchTerms ->
        Js.includes (Js.toLowerCase (app_name app)) term = true ->
        (0.2 <= score)%Q /\ RAGSearchService.Qgtb score 0.1 = true).
Proof.
  intros score.
  pose proof (calculateRelevanceScore_spec app searchTerms fullQuery) as Hspec.
  fold score in Hspec.
  pose proof (rawScoreSpec_bounds app searchTerms fullQuery) as Hraw.
  pose proof (termsFound_nonneg (Js.toLowerCase (app_name app)) searchTerms) as H0.
  set (raw := rawScoreSpec app searchTerms fullQuery) in *.
  assert (Htenth : (raw / 10 == raw * (1 # 10))%Q) by (unfold Qdiv; reflexivity).
  set (tenth := (raw / 10)%Q) in *.
  assert (Hmin : (tenth <= 1 -> score == tenth)%Q).
  { intros Hle. rewrite Hspec. now apply Q.min_l. }
  assert (Hmax : (1 <= tenth -> score == 1)%Q).
  { intros Hle. rewrite Hspec. now apply Q.min_r. }
  assert (Hraw0 : (0 <= raw)%Q).
  { destruct (Js.includes (Js.toLowerCase (app_name app)) fullQuery); lra. }
  assert (Hcases : (tenth <= 1 \/ 1 <= tenth)%Q).
  { destruct (Qlt_le_dec tenth 1); [left | right]; lra. }
  split; [|split].
  - destruct Hcases as [Hc | Hc]; [rewrite (Hmin Hc) | rewrite (Hmax Hc)]; lra.
  - intros Hname. rewrite Hname in Hraw. apply Hmax. lra.
  - intros term Hin Hinc.
    pose proof (termsFound_pos _ _ _ Hin Hinc) as H1.
    assert (Hge : (0.2 <= score)%Q).
    { assert (Hraw2 : (2 <= raw)%Q).
      { destruct (Js.includes (Js.toLowerCase (app_name app)) fullQuery); lra. }
      destruct Hcases as [Hc | Hc]; [rewrite (Hmin Hc) | rewrite (Hmax Hc)]; lra. }
    split; [exact Hge|]. apply Qgtb_true. lra.
Qed.

(** ** The service as a whole *)

Section SessionFacts.

Import Js RAGSearchService.

Variable geminiService mockAIService : nat -> AIProvider.

Ltac split_replies :=
  repeat match goal with
         | |- context [match ?x with Some _ => _ | None => _ end] => destruct x; cbn
         | |- context [if ?c then _ else _] => destruct c; cbn
         end.

Lemma search_default_limit (data : list CSVApp) (query : string) (limit : option Z) :
  search data query (Some (orDefault 10%Z limit)) = search data query limit.
Proof. now destruct limit. Qed.

Lemma search_blank (data : list CSVApp) (query : string) (limit : option Z) :
  isBlank query = true -> search data query limit = [].
Proof. intros Hq. unfold search. now rewrite Hq. Qed.

Lemma searchWithAI_catalogue st query limit useAI :
  csvData (fst (searchWithAI geminiService mockAIService st query limit useAI)) = csvData st.
Proof.
  unfold searchWithAI, answerLocally, askGemini, askMock, assignUseGemini.
  cbn. split_replies; reflexivity.
Qed.

Lemma step_catalogue st c :
  csvData (fst (step geminiService mockAIService st c)) = csvData st.
Proof.
  destruct c; cbn; try reflexivity.
  - pose proof (searchWithAI_catalogue st query limit useAI) as H.
    destruct (searchWithAI _ _ st query limit useAI). exact H.
  - unfold getAISuggestions, askGemini. cbn. split_replies; reflexivity.
Qed.

Lemma run_catalogue calls st :
  csvData (fst (run geminiService mockAIService st calls)) = csvData st.
Proof.
  revert st. induction calls as [|c calls IH]; intros st; cbn [run]; [reflexivity|].
  pose proof (step_catalogue st c) as Hc.
  destruct (step _ _ st c) as [st1 reply]. cbn [fst] in Hc.
  specialize (IH st1). destruct (run _ _ st1 calls) as [st2 replies].
  cbn [fst] in *. congruence.
Qed.

Lemma searchWithAI_results st query limit useAI response :
  snd (searchWithAI geminiService mockAIService st query limit useAI) = Some response ->
  results response = search (csvData st) query limit.
Proof.
  unfold searchWithAI. cbv zeta. rewrite search_default_limit.
  destruct (isBlank query) eqn:Hq.
  - rewrite (search_blank _ _ _ Hq).
    unfold askGemini, askMock, assignUseGemini. cbn.
    split_replies; intros H; inversion H; reflexivity.
  - unfold answerLocally, askGemini, askMock, assignUseGemini. cbn.
    split_replies; intros H; inversion H; reflexivity.
Qed.

End SessionFacts.

(** X21.  With [useAI] false searchWithAI is the plain search: it calls no
    provider, leaves the service as it was, never rejects, and answers the
    results of [search] with neither an AI answer nor an intent, also for a
    blank query. *)
Theorem X21_search_without_ai (geminiService mockAIService : nat -> AIProvider)
    (st : RAGSearchService.State) (query : string) (limit : option Z) :
  RAGSearchService.searchWithAI geminiService mockAIService st query limit (Some false)
  = (st,
     Some {| RAGSearchService.results := RAGSearchService.search (RAGSearchService.csvData st)
                                           query limit;
             RAGSearchService.aiResponse := None;
             RAGSearchService.e_intent := None |}).
Proof.
  unfold RAGSearchService.searchWithAI. cbv zeta. rewrite search_default_limit.
  cbn [RAGSearchService.orDefault negb].
  destruct (RAGSearchService.isBlank query) eqn:Hq; [|reflexivity].
  now rewrite (search_blank _ _ _ Hq).
Qed.

(** X22.  Whatever the providers do, the results that searchWithAI returns
    are those of the plain search on the same query and limit, and no
    sequence of calls of the public methods changes the catalogue the
    service was built with. *)
Theorem X22_results_and_catalogue (geminiService mockAIService : nat -> AIProvider) :
  (forall st query limit useAI response,
     snd (RAGSearchService.searchWithAI geminiService mockAIService st query limit useAI)
     = Some response ->
     RAGSearchService.results response
     = RAGSearchService.search (RAGSearchService.csvData st) query limit)
  /\ (forall st calls,
        RAGSearchService.csvData
          (fst (RAGSearchService.run geminiService mockAIService st calls))
        = RAGSearchService.csvData st).
Proof.
  split.
  - intros st query limit useAI response. apply searchWithAI_results.
  - intros st calls. apply run_catalogue.
Qed.

(** X23.  getAISuggestions always asks the generative provider, once, also
    when the service has fallen back to the local one; it never rejects,
    never touches the flag, and answers the four fixed suggestions when the
    provider throws.  With the shipped generative provider, which catches
    its own failures, that fixed list is never used: the answer is the
    provider's, at most 5 lines. *)
Theorem X23_suggestions_bypass_fallback (geminiService mockAIService : nat -> AIProvider)
    (st : RAGSearchService.State) (query : string) :
  let asked :=
    p_generateSuggestions (geminiService (RAGSearchService.geminiCalls st)) query
      (RAGSearchService.csvData st) in
  let out := RAGSearchService.getAISuggestions geminiService st query in
  RAGSearchService.useGemini (fst out) = RAGSearchService.useGemini st
  /\ RAGSearchService.geminiCalls (fst out) = S (RAGSearchService.geminiCalls st)
  /\ RAGSearchService.mockCalls (fst out) = RAGSearchService.mockCalls st
  /\ snd out
     = match asked with
       | Some suggestions => suggestions
       | None =>
           ["Show me productivity applications";
            "Find finance and banking tools";
            "What security apps are available?";
            "Browse entertainment applications"]
       end
  /\ (forall (model : nat -> string -> GeminiAIService.Outcome)
             (parseJson : string -> option Intent),
        let shipped :=
          RAGSearchService.getAISuggestions
            (fun n => GeminiAIService.provider (model n) parseJson) st query in
        snd shipped
        = GeminiAIService.generateSuggestions (model (RAGSearchService.geminiCalls st))
            query (RAGSearchService.csvData st)
        /\ (List.length (snd shipped) <= 5)%nat).
Proof.
  intros asked out. unfold out, asked, RAGSearchService.getAISuggestions,
    RAGSearchService.askGemini.
  cbn. split; [|split; [|split; [|split]]].
  - destruct (p_generateSuggestions _ query _); reflexivity.
  - destruct (p_generateSuggestions _ query _); reflexivity.
  - destruct (p_generateSuggestions _ query _); reflexivity.
  - destruct (p_generateSuggestions _ query _); reflexivity.
  - intros model parseJson. split; [reflexivity|].
    unfold GeminiAIService.generateSuggestions.
    destruct (model _ _) as [text | error].
    + change 5%Z with (Z.of_nat 5). rewrite slice0_firstn. apply firstn_le_length.
    + cbn. lia.
Qed.

(** * Properties of the search bar *)

Section SearchBarFacts.

Import Js.

Variable geminiService mockAIService : nat -> AIProvider.
Variable onAISearch : bool.

Lemma truthy_trim (q : string) :
  SearchBar.truthy (trim q) = negb (RAGSearchService.isBlank q).
Proof. reflexivity. Qed.

(** A query that is not blank is always answered: the failures of the
    providers are caught inside the service. *)
Lemma searchWithAI_answers st query limit useAI :
  RAGSearchService.isBlank query = false ->
  exists response,
    snd (RAGSearchService.searchWithAI geminiService mockAIService st query limit useAI)
    = Some response.
Proof.
  intros Hq. unfold RAGSearchService.searchWithAI. cbv zeta. rewrite Hq.
  unfold RAGSearchService.answerLocally, RAGSearchService.askGemini,
    RAGSearchService.askMock, RAGSearchService.assignUseGemini. cbn.
  repeat match goal with
         | |- context [match ?x with Some _ => _ | None => _ end] => destruct x; cbn
         | |- context [if ?c then _ else _] => destruct c; cbn
         end; eexists; reflexivity.
Qed.

Lemma search_length (data : list CSVApp) (query : string) (limit : Z) :
  (0 <= limit)%Z ->
  (List.length (RAGSearchService.search data query (Some limit)) <= Z.to_nat limit)%nat.
Proof.
  intros Hl. unfold RAGSearchService.search. cbv zeta.
  destruct (RAGSearchService.isBlank query); [cbn; lia|].
  now apply slice0_length.
Qed.

Lemma handleSearch_ai st service :
  SearchBar.isAIMode st = true ->
  SearchBar.ragService st = Some service ->
  RAGSearchService.isBlank (SearchBar.query (SearchBar.filters st)) = false ->
  exists response,
    snd (RAGSearchService.searchWithAI geminiService mockAIService service
           (SearchBar.query (SearchBar.filters st)) (Some 10%Z) (Some true))
    = Some response
    /\ SearchBar.aiResponse
         (fst (SearchBar.handleSearch geminiService mockAIService onAISearch st))
       = Some response
    /\ SearchBar.ragService
         (fst (SearchBar.handleSearch geminiService mockAIService onAISearch st))
       = Some (fst (RAGSearchService.searchWithAI geminiService mockAIService service
                      (SearchBar.query (SearchBar.filters st)) (Some 10%Z) (Some true)))
    /\ SearchBar.isUsingGemini
         (fst (SearchBar.handleSearch geminiService mockAIService onAISearch st))
       = SearchBar.isUsingGemini st
    /\ snd (SearchBar.handleSearch geminiService mockAIService onAISearch st)
       = if onAISearch then [SearchBar.OnAISearch response] else [].
Proof.
  intros Hmode Hsvc Hq.
  destruct (searchWithAI_answers service _ (Some 10%Z) (Some true) Hq) as [response Hr].
  exists response. unfold SearchBar.handleSearch.
  rewrite Hmode, Hsvc, truthy_trim, Hq. cbn [negb].
  destruct (RAGSearchService.searchWithAI _ _ service _ _ _) as [service' reply].
  cbn [snd fst] in *. subst reply. cbn. repeat split; reflexivity.
Qed.

Lemma handleSearch_regular st :
  SearchBar.isAIMode st = false
  \/ SearchBar.ragService st = None
  \/ RAGSearchService.isBlank (SearchBar.query (SearchBar.filters st)) = true ->
  SearchBar.handleSearch geminiService mockAIService onAISearch st
  = SearchBar.regularSearch st.
Proof.
  unfold SearchBar.handleSearch. rewrite truthy_trim.
  intros [H | [H | H]]; rewrite H; cbn [negb];
    destruct (SearchBar.isAIMode st); try reflexivity;
    destruct (SearchBar.ragService st); reflexivity.
Qed.

Lemma handleSearch_callback st response :
  In (SearchBar.OnAISearch response)
     (snd (SearchBar.handleSearch geminiService mockAIService onAISearch st)) ->
  SearchBar.isAIMode st = true
  /\ RAGSearchService.isBlank (SearchBar.query (SearchBar.filters st)) = false.
Proof.
  intros Hin.
  destruct (SearchBar.isAIMode st) eqn:Hmode;
    [|rewrite handleSearch_regular in Hin by (now left);
      destruct Hin as [H | []]; discriminate H].
  destruct (SearchBar.ragService st) as [service|] eqn:Hsvc;
    [|rewrite handleSearch_regular in Hin by (right; now left);
      destruct Hin as [H | []]; discriminate H].
  destruct (RAGSearchService.isBlank (SearchBar.query (SearchBar.filters st))) eqn:Hq;
    [rewrite handleSearch_regular in Hin by (right; now right);
     destruct Hin as [H | []]; discriminate H|].
  split; reflexivity.
Qed.

End SearchBarFacts.

(** X24.  The search bar asks the service only in AI mode and for a query
    that is not blank, always with limit 10 and with AI on.  Such a search
    never fails in the bar: the response is stored and passed to
    [onAISearch], and its results are the at most 10 rows of the plain
    search.  In every other case (AI mode off, service not yet created,
    blank query) the bar runs the regular search and leaves the service
    alone, so the bar never requests the welcome answer. *)
Theorem X24_search_bar_requests (geminiService mockAIService : nat -> AIProvider)
    (onAISearch : bool) (st : SearchBar.State) :
  let out := SearchBar.handleSearch geminiService mockAIService onAISearch st in
  let q := SearchBar.query (SearchBar.filters st) in
  (forall service,
     SearchBar.isAIMode st = true ->
     SearchBar.ragService st = Some service ->
     RAGSearchService.isBlank q = false ->
     exists response,
       SearchBar.aiResponse (fst out) = Some response
       /\ snd out = (if onAISearch then [SearchBar.OnAISearch response] else [])
       /\ RAGSearchService.results response
          = RAGSearchService.search (RAGSearchService.csvData service) q (Some 10%Z)
       /\ (List.length (RAGSearchService.results response) <= 10)%nat)
  /\ (SearchBar.isAIMode st = false
      \/ SearchBar.ragService st = None
      \/ RAGSearchService.isBlank q = true ->
      snd out = [SearchBar.OnSearch (SearchBar.filters st)]
      /\ SearchBar.aiResponse (fst out) = None
      /\ SearchBar.ragService (fst out) = SearchBar.ragService st)
  /\ (forall response,
        In (SearchBar.OnAISearch response) (snd out) ->
        SearchBar.isAIMode st = true /\ RAGSearchService.isBlank q = false).
Proof.
  intros out q. split; [|split].
  - intros service Hmode Hsvc Hq.
    destruct (handleSearch_ai geminiService mockAIService onAISearch st service Hmode Hsvc Hq)
      as [response [Hr [Hai [_ [_ Hcb]]]]].
    exists response. split; [exact Hai|]. split; [exact Hcb|].
    pose proof (searchWithAI_results _ _ _ _ _ _ _ Hr) as Hres.
    split; [exact Hres|]. rewrite Hres.
    apply (search_length _ _ 10%Z). lia.
  - intros Hreg. unfold out.
    rewrite (handleSearch_regular geminiService mockAIService onAISearch st Hreg).
    cbn. repeat split; reflexivity.
  - intros response Hin. exact (handleSearch_callback _ _ _ _ _ Hin).
Qed.

(** X25.  The bar keeps its own copy of the provider flag, and a fallback
    inside the service does not reach it: after an AI search on which the
    generative provider failed, the bar still shows the generative
    provider while the service uses the local one.  The next click on the
    provider toggle then only brings the bar in line (both on the local
    provider); a second click switches the service back.  After any click
    on the toggle the two flags agree. *)
Theorem X25_toggle_after_fallback (geminiService mockAIService : nat -> AIProvider)
    (onAISearch : bool) (st : SearchBar.State) (service : RAGSearchService.State) :
  SearchBar.isAIMode st = true ->
  SearchBar.ragService st = Some service ->
  SearchBar.isUsingGemini st = true ->
  RAGSearchService.useGemini service = true ->
  RAGSearchService.isBlank (SearchBar.query (SearchBar.filters st)) = false ->
  geminiFails geminiService service (SearchBar.query (SearchBar.filters st)) (Some 10%Z) ->
  let flag := fun st => option_map RAGSearchService.useGemini (SearchBar.ragService st) in
  let searched := fst (SearchBar.handleSearch geminiService mockAIService onAISearch st) in
  let once := SearchBar.toggleAIService searched in
  let twice := SearchBar.toggleAIService once in
  (SearchBar.isUsingGemini searched = true /\ flag searched = Some false)
  /\ (SearchBar.isUsingGemini once = false /\ flag once = Some false)
  /\ (SearchBar.isUsingGemini twice = true /\ flag twice = Some true)
  /\ (forall any,
        SearchBar.ragService any <> None ->
        flag (SearchBar.toggleAIService any)
        = Some (SearchBar.isUsingGemini (SearchBar.toggleAIService any))).
Proof.
  intros Hmode Hsvc Hui Hp Hq Hfail flag searched once twice.
  destruct (handleSearch_ai geminiService mockAIService onAISearch st service Hmode Hsvc Hq)
    as [response [_ [_ [Hsvc' [Hui' _]]]]].
  pose proof (searchWithAI_degrades geminiService mockAIService service
                (SearchBar.query (SearchBar.filters st)) (Some 10%Z) (Some true)
                Hp eq_refl Hfail) as Hdeg.
  cbv zeta in Hdeg. destruct Hdeg as [Hflag _].
  fold searched in Hsvc', Hui'.
  assert (Hs : flag searched = Some false).
  { unfold flag. rewrite Hsvc'. cbn [option_map]. now rewrite Hflag. }
  split; [split; [congruence | exact Hs]|].
  unfold twice, once, flag, SearchBar.toggleAIService. cbv zeta. cbn.
  rewrite Hsvc', Hui', Hui. cbn. repeat split.
  intros any Hany. destruct (SearchBar.ragService any); [reflexivity | contradiction].
Qed.

Lemma X25_toggle_after_fallback_witness :
  option_map RAGSearchService.useGemini
    (SearchBar.ragService
       (SearchBar.toggleAIService
          (fst (SearchBar.handleSearch rejecting (fun _ => MockAIService.provider (fun l => l))
                  true
                  (SearchBar.toggleAIMode
                     (SearchBar.setQuery
                        (SearchBar.mounted
                           (RAGSearchService.initial [SampleApps.budgetBuddy; SampleApps.notes]))
                        "budget"))))))
  = Some false.
Proof.
  refine (proj2 (proj1 (proj2
            (X25_toggle_after_fallback rejecting (fun _ => MockAIService.provider (fun l => l))
               true
               (SearchBar.toggleAIMode
                  (SearchBar.setQuery
                     (SearchBar.mounted
                        (RAGSearchService.initial [SampleApps.budgetBuddy; SampleApps.notes]))
                     "budget"))
               (RAGSearchService.initial [SampleApps.budgetBuddy; SampleApps.notes])
               _ _ _ _ _ _)))).
  - reflexivity.
  - reflexivity.
  - reflexivity.
  - reflexivity.
  - reflexivity.
  - left. reflexivity.
Defined.

(** X26.  A click on a suggested query puts the suggestion into the box
    but searches for what was in the box before: the handler runs
    [handleSearch] of the render in which the click happened, whose
    [filters] still hold the old query.  The callbacks, the stored
    response and the state of the service are those of a plain click on
    the search button, whatever suggestion was clicked; a following click
    on the search button is the first that searches for the suggestion. *)
Theorem X26_suggestion_click_uses_old_query
    (geminiService mockAIService : nat -> AIProvider) (onAISearch : bool)
    (st : SearchBar.State) (suggestion : string) :
  let plain := SearchBar.handleSearch geminiService mockAIService onAISearch st in
  let out := SearchBar.clickSuggestion geminiService mockAIService onAISearch st suggestion in
  snd out = snd plain
  /\ SearchBar.aiResponse (fst out) = SearchBar.aiResponse (fst plain)
  /\ SearchBar.ragService (fst out) = SearchBar.ragService (fst plain)
  /\ fst out = SearchBar.setQuery (fst plain) suggestion
  /\ (forall response service,
        SearchBar.ragService st = Some service ->
        In (SearchBar.OnAISearch response) (snd out) ->
        RAGSearchService.results response
        = RAGSearchService.search (RAGSearchService.csvData service)
            (SearchBar.query (SearchBar.filters st)) (Some 10%Z))
  /\ SearchBar.session geminiService mockAIService onAISearch st
       [SearchBar.ClickSuggestion suggestion; SearchBar.Search]
     = (let again :=
          SearchBar.handleSearch geminiService mockAIService onAISearch
            (SearchBar.setQuery (fst plain) suggestion) in
        (fst again, (snd plain ++ snd again)%list)).
Proof.
  intros plain out.
  assert (Hfilters : SearchBar.filters (fst plain) = SearchBar.filters st).
  { unfold plain, SearchBar.handleSearch, SearchBar.regularSearch.
    repeat match goal with
           | |- context [match ?x with Some _ => _ | None => _ end] => destruct x; cbn
           | |- context [if ?c then _ else _] => destruct c; cbn
           | |- context [let '(_, _) := ?p in _] => destruct p; cbn
           end; reflexivity. }
  assert (Hout : out = (SearchBar.setQuery (fst plain) suggestion, snd plain)).
  { unfold out, SearchBar.clickSuggestion. fold plain.
    destruct plain as [after callbacks]. cbn [fst snd] in *.
    unfold SearchBar.setQuery. now rewrite Hfilters. }
  rewrite Hout. cbn [fst snd SearchBar.setQuery SearchBar.aiResponse SearchBar.ragService].
  split; [reflexivity|]. split; [reflexivity|]. split; [reflexivity|].
  split; [reflexivity|]. split.
  - intros response service Hsvc Hin.
    destruct (handleSearch_callback geminiService mockAIService onAISearch st response Hin)
      as [Hmode Hq].
    destruct (handleSearch_ai geminiService mockAIService onAISearch st service Hmode Hsvc Hq)
      as [response' [Hr [_ [_ [_ Hcb]]]]].
    fold plain in Hcb. rewrite Hcb in Hin.
    destruct onAISearch; [|contradiction].
    destruct Hin as [Heq | []]. injection Heq as <-.
    exact (searchWithAI_results _ _ _ _ _ _ _ Hr).
  - cbn [SearchBar.session SearchBar.handle]. fold out. rewrite Hout.
    destruct (SearchBar.handleSearch _ _ _ (SearchBar.setQuery (fst plain) suggestion))
      as [st2 callbacks2].
    cbn. now rewrite app_nil_r.
Qed.

(** * Properties of the catalogue and schema filters *)

Section FilterFacts.

Import Js.

Lemma includes_trans (a b c : string) :
  includes a b = true -> includes b c = true -> includes a c = true.
Proof.
  rewrite !includes_spec. intros [p [q ->]] [p' [q' ->]].
  exists (p ++ p'), (q' ++ q). now rewrite !append_assoc.
Qed.

Lemma includes_in_empty (c : string) : includes EmptyString c = true -> c = EmptyString.
Proof.
  rewrite includes_spec. intros [p [q H]].
  destruct p; [|discriminate]. destruct c; [reflexivity | discriminate].
Qed.

Lemma toLowerCase_empty (s : string) :
  (String.length (toLowerCase s) =? 0)%nat = (String.length s =? 0)%nat.
Proof. unfold toLowerCase. now rewrite length_map_chars. Qed.

Lemma length_zero_empty (s : string) : (String.length s =? 0)%nat = true -> s = EmptyString.
Proof. destruct s; [reflexivity | discriminate]. Qed.

Lemma matchesQuery_refine (q q' : string) (ds : App.DataSource) :
  includes (toLowerCase q') (toLowerCase q) = true ->
  App.matchesQuery q' ds = true -> App.matchesQuery q ds = true.
Proof.
  intros Hsub. unfold App.matchesQuery.
  destruct (String.length q =? 0)%nat eqn:Hq; [reflexivity|].
  destruct (String.length q' =? 0)%nat eqn:Hq'.
  - apply length_zero_empty in Hq'. subst q'. cbn [toLowerCase map_chars] in Hsub.
    apply includes_in_empty in Hsub.
    rewrite <- toLowerCase_empty, Hsub in Hq. discriminate.
  - cbn [orb]. rewrite !orb_true_iff.
    intros [[[H | H] | H] | H].
    + left; left; left. exact (includes_trans _ _ _ H Hsub).
    + left; left; right. exact (includes_trans _ _ _ H Hsub).
    + left; right. exact (includes_trans _ _ _ H Hsub).
    + right. apply existsb_exists in H. destruct H as [tag [Hin H]].
      apply existsb_exists. exists tag. split; [exact Hin|].
      exact (includes_trans _ _ _ H Hsub).
Qed.

Lemma matchesQuery_case (q q' : string) (ds : App.DataSource) :
  toLowerCase q = toLowerCase q' -> App.matchesQuery q ds = App.matchesQuery q' ds.
Proof.
  intros Heq. unfold App.matchesQuery.
  rewrite <- (toLowerCase_empty q), <- (toLowerCase_empty q'), Heq. reflexivity.
Qed.

Lemma filter_all {A : Type} (p : A -> bool) (l : list A) :
  (forall x, In x l -> p x = true) -> filter p l = l.
Proof.
  induction l as [|x l IH]; intros Hall; cbn [filter]; [reflexivity|].
  rewrite (Hall x (or_introl eq_refl)), IH; [reflexivity|].
  intros y Hy. apply Hall. now right.
Qed.

Lemma In_filter_if {A : Type} (c : bool) (p : A -> bool) (l : list A) (x : A) :
  In x (if c then filter p l else l) <-> In x l /\ (c = true -> p x = true).
Proof.
  destruct c; [rewrite filter_In|]; intuition discriminate.
Qed.

Lemma In_filter_found {A B : Type} (c : bool) (found : option B) (p : B -> A -> bool)
    (l : list A) (x : A) :
  In x (if c then match found with Some b => filter (p b) l | None => l end else l)
  <-> In x l /\ (forall b, c = true -> found = Some b -> p b x = true).
Proof.
  destruct c; [destruct found as [b|]; [rewrite filter_In|]|].
  - split; [intros [Hin Hp]; split; [exact Hin|]; intros b' _ Hb; now injection Hb as <-|].
    intros [Hin Hp]. split; [exact Hin | now apply Hp].
  - split; [intros Hin; split; [exact Hin | discriminate] | tauto].
  - split; [intros Hin; split; [exact Hin | discriminate] | tauto].
Qed.

End FilterFacts.

(** X27.  Typing more never shows more: when the lowered query contains
    the lowered shorter query, every data source the catalogue shows for
    the longer query is shown for the shorter one, the other filters being
    the same. *)
Theorem X27_longer_query_shows_fewer (dataSources : list App.DataSource)
    (searchFilters : App.SearchFilters) (q q' : string) (ds : App.DataSource) :
  Js.includes (Js.toLowerCase q') (Js.toLowerCase q) = true ->
  In ds (App.filteredDataSources dataSources (App.withQuery searchFilters q')) ->
  In ds (App.filteredDataSources dataSources (App.withQuery searchFilters q)).
Proof.
  intros Hsub. unfold App.filteredDataSources. rewrite !filter_In. cbv zeta.
  cbn [App.withQuery App.query App.f_type App.f_department App.f_tags App.f_status].
  intros [Hin Hkeep]. split; [exact Hin|].
  rewrite !andb_true_iff in *. destruct Hkeep as [[[[Hq Ht] Hd] Hs] Htags].
  repeat split; try assumption.
  exact (matchesQuery_refine q q' ds Hsub Hq).
Qed.

Lemma X27_longer_query_shows_fewer_witness :
  In SampleSources.crm
     (App.filteredDataSources [SampleSources.crm] (App.withQuery App.noFilters "CUSTOM")).
Proof.
  apply (X27_longer_query_shows_fewer [SampleSources.crm] App.noFilters
           "CUSTOM" "customer data" SampleSources.crm).
  - reflexivity.
  - left. reflexivity.
Defined.

(** X28.  The catalogue filter ignores the case of the query, and a filter
    that was never set or is empty lets everything through: with the
    filters the shell starts with, and with those a click on Search sends
    from a freshly mounted search bar, the catalogue shows every data
    source.  A non-empty type, department or status filter is an exact,
    case-sensitive match. *)
Theorem X28_catalogue_filter (dataSources : list App.DataSource) :
  App.filteredDataSources dataSources App.noFilters = dataSources
  /\ (forall geminiService mockAIService onAISearch service,
        map (fun c =>
               match c with
               | SearchBar.OnSearch filters =>
                   App.filteredDataSources dataSources (App.ofSearchBar filters)
               | SearchBar.OnAISearch _ => []
               end)
            (snd (SearchBar.handleSearch geminiService mockAIService onAISearch
                    (SearchBar.mounted service)))
        = [dataSources])
  /\ (forall searchFilters q q',
        Js.toLowerCase q = Js.toLowerCase q' ->
        App.filteredDataSources dataSources (App.withQuery searchFilters q)
        = App.filteredDataSources dataSources (App.withQuery searchFilters q'))
  /\ (forall searchFilters ds,
        In ds (App.filteredDataSources dataSources searchFilters) ->
        In ds dataSources
        /\ (forall t, App.f_type searchFilters = Some t -> t <> EmptyString -> App.type ds = t)
        /\ (forall d,
              App.f_department searchFilters = Some d -> d <> EmptyString ->
              App.department ds = d)
        /\ (forall s,
              App.f_status searchFilters = Some s -> s <> EmptyString -> App.status ds = s)).
Proof.
  split; [|split; [|split]].
  - apply filter_all. reflexivity.
  - intros geminiService mockAIService onAISearch service. cbn.
    f_equal. apply filter_all. reflexivity.
  - intros searchFilters q q' Heq. unfold App.filteredDataSources.
    apply filter_ext. intros ds. cbv zeta.
    cbn [App.withQuery App.query App.f_type App.f_department App.f_tags App.f_status].
    now rewrite (matchesQuery_case q q' ds Heq).
  - intros searchFilters ds Hin. unfold App.filteredDataSources in Hin.
    apply filter_In in Hin. cbv zeta in Hin. destruct Hin as [Hin Hkeep].
    rewrite !andb_true_iff in Hkeep. destruct Hkeep as [[[[_ Ht] Hd] Hs] _].
    assert (Hfield : forall f value v,
               App.matchesField f value = true -> f = Some v -> v <> EmptyString ->
               value = v).
    { intros f value v Hm -> Hne. cbn in Hm. apply orb_true_iff in Hm.
      destruct Hm as [Hm | Hm]; [now apply length_zero_empty in Hm|].
      now apply String.eqb_eq. }
    split; [exact Hin|]. split; [|split]; intros v Hv Hne; eapply Hfield; eassumption.
Qed.

(** X29.  The schema viewer keeps exactly the tables that pass every filter
    that is set, in their order.  Selecting an application that the list
    of applications does not hold filters nothing, so all tables stay;
    after [clearFilters] every table is shown; with "sensitive only" every
    table shown is flagged itself or has a flagged column. *)
Theorem X29_schema_filters (dataTables : list SchemaViewerFilters.Table)
    (applications : list SchemaViewerFilters.App) (f : SchemaViewerFilters.Filters) :
  let shown := SchemaViewerFilters.filteredTables dataTables applications f in
  (forall t,
     In t shown <->
     In t dataTables
     /\ (forall app,
           SchemaViewerFilters.nonEmpty (SchemaViewerFilters.selectedApplication f) = true ->
           find (fun a =>
                   String.eqb
                     (AIDataDiscoveryService.app_id (SchemaViewerFilters.application a))
                     (SchemaViewerFilters.selectedApplication f))
                applications = Some app ->
           Js.mem (SchemaViewerFilters.sourceId t)
                  (SchemaViewerFilters.connectedDataSources app) = true)
     /\ (SchemaViewerFilters.nonEmpty (SchemaViewerFilters.selectedDataSource f) = true ->
         SchemaViewerFilters.sourceId t = SchemaViewerFilters.selectedDataSource f)
     /\ (SchemaViewerFilters.nonEmpty (SchemaViewerFilters.selectedSchema f) = true ->
         AIDataDiscoveryService.tbl_schema (SchemaViewerFilters.table t)
         = SchemaViewerFilters.selectedSchema f)
     /\ (SchemaViewerFilters.nonEmpty (SchemaViewerFilters.searchQuery f) = true ->
         SchemaViewerFilters.matchesSearch (SchemaViewerFilters.searchQuery f) t = true)
     /\ (SchemaViewerFilters.showSensitiveOnly f = true ->
         SchemaViewer.showsAsSensitive (SchemaViewerFilters.table t) = true))
  /\ ((forall a,
         In a applications ->
         AIDataDiscoveryService.app_id (SchemaViewerFilters.application a)
         <> SchemaViewerFilters.selectedApplication f) ->
      shown
      = SchemaViewerFilters.filteredTables dataTables applications
          {| SchemaViewerFilters.searchQuery := SchemaViewerFilters.searchQuery f;
             SchemaViewerFilters.selectedApplication := EmptyString;
             SchemaViewerFilters.selectedDataSource := SchemaViewerFilters.selectedDataSource f;
             SchemaViewerFilters.selectedSchema := SchemaViewerFilters.selectedSchema f;
             SchemaViewerFilters.showSensitiveOnly := SchemaViewerFilters.showSensitiveOnly f |})
  /\ SchemaViewerFilters.filteredTables dataTables applications SchemaViewerFilters.cleared
     = dataTables.
Proof.
  intros shown. split; [|split].
  - intros t. unfold shown, SchemaViewerFilters.filteredTables. cbv zeta.
    rewrite !In_filter_if.
    rewrite (In_filter_found _ _
               (fun app t => Js.mem (SchemaViewerFilters.sourceId t)
                               (SchemaViewerFilters.connectedDataSources app))).
    split.
    + intros [[[[[Hin Happ] Hds] Hschema] Hq] Hs].
      repeat split; try assumption.
      * intros H. apply String.eqb_eq. now apply Hds.
      * intros H. apply String.eqb_eq. now apply Hschema.
    + intros [Hin [Happ [Hds [Hschema [Hq Hs]]]]].
      repeat split; try assumption.
      * intros H. apply String.eqb_eq. now apply Hds.
      * intros H. apply String.eqb_eq. now apply Hschema.
  - intros Hnone. unfold shown, SchemaViewerFilters.filteredTables. cbv zeta.
    cbn [SchemaViewerFilters.searchQuery SchemaViewerFilters.selectedApplication
         SchemaViewerFilters.selectedDataSource SchemaViewerFilters.selectedSchema
         SchemaViewerFilters.showSensitiveOnly].
    destruct (find _ applications) as [app|] eqn:Hfind.
    + apply find_some in Hfind. destruct Hfind as [Hin Heq].
      apply String.eqb_eq in Heq. now apply Hnone in Hin.
    + change (SchemaViewerFilters.nonEmpty EmptyString) with false. cbv iota.
      now destruct (SchemaViewerFilters.nonEmpty (SchemaViewerFilters.selectedApplication f)).
  - reflexivity.
Qed.

(** * Properties of the keywords of an intent *)

Section KeywordFacts.

Import Js.

Lemma append_empty_r (s : string) : s ++ EmptyString = s.
Proof. induction s as [|c s IH]; cbn; [reflexivity | now rewrite IH]. Qed.

Lemma split_on_pieces (q : ascii -> bool) (sep : ascii) (cur s : string) :
  allChars (fun c => negb (Ascii.eqb c sep) && q c) cur = true ->
  allChars q s = true ->
  Forall (fun piece => allChars (fun c => negb (Ascii.eqb c sep) && q c) piece = true)
         (split_on sep cur s).
Proof.
  revert cur. induction s as [|c s IH]; intros cur Hcur Hs; cbn [split_on].
  - constructor; [exact Hcur | constructor].
  - cbn [allChars] in Hs. apply andb_true_iff in Hs. destruct Hs as [Hc Hs].
    destruct (Ascii.eqb c sep) eqn:Hsep.
    + constructor; [exact Hcur|]. now apply IH.
    + apply IH; [|exact Hs].
      rewrite allChars_app, Hcur. cbn [allChars]. now rewrite Hsep, Hc.
Qed.

Lemma split_on_substrings (sep : ascii) (cur s piece : string) :
  In piece (split_on sep cur s) -> exists pre post, cur ++ s = pre ++ piece ++ post.
Proof.
  revert cur. induction s as [|c s IH]; intros cur; cbn [split_on].
  - intros [<- | []]. exists EmptyString, EmptyString. reflexivity.
  - destruct (Ascii.eqb c sep).
    + intros [<- | Hin].
      * exists EmptyString, (String c s). reflexivity.
      * destruct (IH EmptyString Hin) as [pre [post H]]. cbn [append] in H.
        exists (cur ++ String c pre), post.
        rewrite append_assoc. cbn [append]. now rewrite H.
    + intros Hin. destruct (IH _ Hin) as [pre [post H]].
      exists pre, post. rewrite <- H, append_assoc. reflexivity.
Qed.

Lemma lower_char_not_upper (c : ascii) : negb (is_upper (lower_char c)) = true.
Proof. destruct c as [[] [] [] [] [] [] [] []]; reflexivity. Qed.

End KeywordFacts.

(** X30.  The keywords that the local provider, and the generative one
    when its model throws or answers without JSON, put into an intent are
    the pieces of the lowered query between single spaces that are longer
    than 2 units: each has at least 3 units, holds no space and no
    upper-case letter, and occurs in the lowered query. *)
Theorem X30_intent_keywords (query keyword : string) :
  In keyword (longWords query) ->
  (3 <= String.length keyword)%nat
  /\ allChars (fun c => negb (Ascii.eqb c " "%char) && negb (Js.is_upper c)) keyword = true
  /\ Js.includes (Js.toLowerCase query) keyword = true
  /\ keywords (MockAIService.analyzeIntent query) = longWords query
  /\ (forall model parseJson,
        (forall text, model (GeminiAIService.intentPrompt query) = GeminiAIService.Returned text ->
                      parseJson text = None) ->
        GeminiAIService.analyzeIntent model parseJson query
        = {| intent := "Find relevant applications";
             i_category := None;
             keywords := longWords query;
             searchType := General |}).
Proof.
  unfold longWords. intros Hin. apply filter_In in Hin. destruct Hin as [Hin Hlen].
  split; [apply Nat.ltb_lt in Hlen; lia|]. split; [|split; [|split]].
  - pose proof (split_on_pieces (fun c => negb (Js.is_upper c)) " "%char EmptyString
                  (Js.toLowerCase query) eq_refl) as Hall.
    rewrite Forall_forall in Hall. apply Hall; [|exact Hin].
    apply allChars_map. apply lower_char_not_upper.
  - apply includes_spec. exact (split_on_substrings _ _ _ _ Hin).
  - unfold MockAIService.analyzeIntent. cbv zeta.
    repeat match goal with
           | |- context [if ?c then _ else _] => destruct c
           end; reflexivity.
  - intros model parseJson Hparse. unfold GeminiAIService.analyzeIntent.
    destruct (model (GeminiAIService.intentPrompt query)) as [text | error] eqn:Hm;
      [rewrite (Hparse text eq_refl)|]; reflexivity.
Qed.

Lemma X30_intent_keywords_witness :
  (3 <= String.length "finance")%nat
  /\ Js.includes (Js.toLowerCase "Show me Finance apps") "finance" = true.
Proof.
  pose proof (X30_intent_keywords "Show me Finance apps" "finance") as H.
  assert (Hin : In "finance" (longWords "Show me Finance apps")).
  { vm_compute. right. left. reflexivity. }
  destruct (H Hin) as [Hlen [_ [Hinc _]]].
  split; [exact Hlen | exact Hinc].
Defined.
